(** * Terraform provider for AWS: handlers, conversions and matching logic

    A shallow embedding of the resource handlers of the MemoryDB ACL, the
    FSx OpenZFS file system and the CloudTrail trail, of the FSx disk IOPS
    expand/flatten pair, of the security group rule comparison used by the
    acceptance tests and of [types.IsZero], followed by the properties
    established about them.

    Handlers are programs over the calls they make to the AWS SDK, to the
    finder and waiter helpers and to [schema.ResourceData]; the answers to
    those calls are supplied by an environment, so that a statement about a
    handler quantifies over every execution. *)

From Stdlib Require Import ZArith String List Bool Lia.
From stdpp Require Import base option list gmap sets strings.

Import ListNotations.
Set Warnings "-register-all,-clear-no-such-hyp".
Local Open Scope string_scope.
Local Open Scope Z_scope.

(* ===================================================================== *)
(** * Go results and errors *)
(* ===================================================================== *)

(** What evaluating a Go expression or running a function yields: a value,
    or a run-time panic (nil dereference, failed type assertion, ...). *)
Inductive outcome (A : Type) : Type :=
| Returns (a : A)
| Panics.
Arguments Returns {A} a.
Arguments Panics {A}.

Definition outcome_map {A B} (f : A -> B) (x : outcome A) : outcome B :=
  match x with
  | Returns a => Returns (f a)
  | Panics => Panics
  end.

Module goerr.

(** [awserr.Error]: what an AWS SDK operation returns when it fails. *)
Record awserr := AwsErr { Code : string; Message : string }.

(** Go [error] values, as far as the handlers tell them apart.  A nil
    [error] is [None] in [option error]. *)
Inductive error : Type :=
| AWS (e : awserr)                          (* an awserr.Error *)
| NotFoundError (message : string)          (* *retry.NotFoundError *)
| TimeoutError                              (* *retry.TimeoutError, LastError nil *)
| TimeoutErrorLast (lastError : error)      (* *retry.TimeoutError with a LastError *)
| New (message : string)                    (* errors.New *)
| Fmt (format : string) (args : list string) (inner : error)
    (* fmt.Errorf(format, args..., inner) printing inner with %s *)
| Wrap (format : string) (args : list string) (inner : error).
    (* fmt.Errorf(format, args..., inner) wrapping inner with %w *)

(** [errors.As(err, &awsErr)]: the first awserr.Error on the unwrap chain. *)
Fixpoint asAWS (e : error) : option awserr :=
  match e with
  | AWS a => Some a
  | Wrap _ _ inner => asAWS inner
  | TimeoutErrorLast inner => asAWS inner
  | _ => None
  end.

(** [strings.Contains]. *)
Definition Contains (s substr : string) : bool :=
  match String.index 0 substr s with
  | Some _ => true
  | None => false
  end.

(** [tfawserr.ErrCodeEquals(err, code)]. *)
Definition ErrCodeEquals (err : option error) (code : string) : bool :=
  match err with
  | None => false
  | Some e =>
      match asAWS e with
      | Some a => String.eqb (Code a) code
      | None => false
      end
  end.

(** [tfawserr.ErrMessageContains(err, code, message)]. *)
Definition ErrMessageContains (err : option error) (code message : string) : bool :=
  match err with
  | None => false
  | Some e =>
      match asAWS e with
      | Some a => String.eqb (Code a) code && Contains (Message a) message
      | None => false
      end
  end.

(** The result of an SDK operation without output: nil or an awserr.Error. *)
Definition sdkErr (r : option awserr) : option error := AWS <$> r.

End goerr.

(* ===================================================================== *)
(** * Programs over external calls *)
(* ===================================================================== *)

Module exec.

Section WithCalls.
(** The calls a handler can make and the type of each call's answer. *)
Context {call : Type} {answer : call -> Type}.

Inductive Prog (R : Type) : Type :=
| Done (r : R)
| Call (c : call) (k : answer c -> Prog R)
| Panic.
Arguments Done {R} r.
Arguments Call {R} c k.
Arguments Panic {R}.

Fixpoint bind {A B} (p : Prog A) (f : A -> Prog B) : Prog B :=
  match p with
  | Done a => f a
  | Call c k => Call c (fun x => bind (k x) f)
  | Panic => Panic
  end.

Definition invoke (c : call) : Prog (answer c) := Call c Done.

(** One entry of an execution: a call and the answer it received. *)
Record event := Event { ev_call : call; ev_answer : answer ev_call }.

(** The environment answers the [n]-th call of an execution. *)
Definition oracle := nat -> forall c : call, answer c.

(** An execution: the calls made with their answers, and how it ends. *)
Fixpoint run {R} (o : oracle) (n : nat) (p : Prog R) : list event * outcome R :=
  match p with
  | Done r => ([], Returns r)
  | Call c k =>
      let x := o n c in
      let rest := run o (S n) (k x) in
      (Event c x :: fst rest, snd rest)
  | Panic => ([], Panics)
  end.

Definition trace {R} (o : oracle) (p : Prog R) : list event := fst (run o 0 p).
Definition result {R} (o : oracle) (p : Prog R) : outcome R := snd (run o 0 p).

(** Every call [p] can make, whatever the answers, satisfies [Q]. *)
Fixpoint callsAll {R} (Q : call -> Prop) (p : Prog R) : Prop :=
  match p with
  | Done _ => True
  | Call c k => Q c /\ forall x, callsAll Q (k x)
  | Panic => True
  end.

(** In [tr], every event satisfying [P] is followed, later in [tr], by an
    event related to it by [Q]. *)
Definition followed (P : event -> bool) (Q : event -> event -> bool)
    (tr : list event) : Prop :=
  forall pre ev post,
    tr = (pre ++ ev :: post)%list -> P ev = true ->
    exists w, w ∈ post /\ Q ev w = true.

Fixpoint followedb (P : event -> bool) (Q : event -> event -> bool)
    (tr : list event) : bool :=
  match tr with
  | [] => true
  | ev :: post => (if P ev then existsb (Q ev) post else true) && followedb P Q post
  end.
End WithCalls.

Arguments Prog {call} answer R.
Arguments Done {call answer R} r.
Arguments Call {call answer R} c k.
Arguments Panic {call answer R}.
Arguments event {call} answer.
Arguments Event {call answer} ev_call ev_answer.
Arguments oracle {call} answer.

(** What a call does, as far as waiting is concerned. *)
Inductive callKind := Mutating | Waiter | Reading | Local.

Definition isMutating (k : callKind) : bool :=
  match k with Mutating => true | _ => false end.
Definition isWaiter (k : callKind) : bool :=
  match k with Waiter => true | _ => false end.

Section Waiting.
Context {call : Type} {answer : call -> Type}.
(** The kind of each call, whether an event's answer carries an error,
    and which wait function belongs to which mutating call. *)
Context (kind : call -> callKind) (failed : event answer -> bool)
        (waiterFor : event answer -> event answer -> bool).

(** Every mutating call of the execution is followed by a wait function
    that returned without error. *)
Definition everyMutatingCallWaited (tr : list (event answer)) : Prop :=
  followed (fun ev => isMutating (kind (ev_call ev)))
           (fun _ w => isWaiter (kind (ev_call w)) && negb (failed w)) tr.

(** Every mutating call that returned without error is followed by its
    own wait function, which returned without error. *)
Definition everySuccessfulMutationWaited (tr : list (event answer)) : Prop :=
  followed (fun ev => isMutating (kind (ev_call ev)) && negb (failed ev))
           (fun ev w => waiterFor ev w && negb (failed w)) tr.

Definition everySuccessfulMutationWaitedb (tr : list (event answer)) : bool :=
  followedb (fun ev => isMutating (kind (ev_call ev)) && negb (failed ev))
            (fun ev w => waiterFor ev w && negb (failed w)) tr.
End Waiting.

Definition isSome {A} (x : option A) : bool :=
  match x with Some _ => true | None => false end.
Definition isLeft {A B} (x : A + B) : bool :=
  match x with inl _ => true | inr _ => false end.

(** A handler execution that returned, without error diagnostics. *)
Definition succeeded {D E} (r : outcome (D * list E)) : Prop :=
  exists d, r = Returns (d, []).


Module Import notations.
Notation "x <- p ;; q" := (bind p (fun x => q))
  (at level 100, p at next level, right associativity).
End notations.

End exec.

(* ===================================================================== *)
(** * The plugin SDK: configuration values, resource data, diagnostics *)
(* ===================================================================== *)

Module schema.
Import goerr.

(** Go [interface{}] values found in configuration data, tagged with their
    dynamic type: a type assertion [v.(int)] succeeds on [IInt] only. *)
Inductive iface : Type :=
| IString (s : string)
| IInt (n : Z)
| IInt64 (n : Z)
| IBool (b : bool)
| IList (l : list iface)
| IMap (m : gmap string iface).

(** [*schema.Set] of strings. *)
Abbreviation Set_ := (gset string).
Definition Len (s : Set_) : Z := Z.of_nat (size s).
Definition Difference (s other : Set_) : Set_ := s ∖ other.
(** [List] enumerates the members once each, in a fixed order. *)
Definition List_ (s : Set_) : list string := elements s.

(** [*schema.ResourceData].  The typed getters stand for [d.Get(k).(T)] and
    for [d.GetOk(k)] followed by the assertion, at the type the schema gives
    the attribute; how the plan relates them to one another is left open. *)
Record ResourceData := {
  Id : string;
  IsNewResource : bool;
  GetString : string -> string;
  GetInt : string -> Z;
  GetBool : string -> bool;
  GetList : string -> list iface;
  GetOkString : string -> option string;
  GetOkInt : string -> option Z;
  GetOkBool : string -> option bool;
  GetOkList : string -> option (list iface);
  GetOkSet : string -> option Set_;
  GetOkExistsBool : string -> option bool;
  HasChange : string -> bool;
  HasChangesExcept : list string -> bool;
  GetChangeSet : string -> Set_ * Set_;
  Timeout : string -> Z
}.

Definition SetId (d : ResourceData) (v : string) : ResourceData :=
  {| Id := v;
     IsNewResource := IsNewResource d;
     GetString := GetString d; GetInt := GetInt d; GetBool := GetBool d;
     GetList := GetList d;
     GetOkString := GetOkString d; GetOkInt := GetOkInt d;
     GetOkBool := GetOkBool d; GetOkList := GetOkList d;
     GetOkSet := GetOkSet d; GetOkExistsBool := GetOkExistsBool d;
     HasChange := HasChange d; HasChangesExcept := HasChangesExcept d;
     GetChangeSet := GetChangeSet d; Timeout := Timeout d |}.

(** [d.HasChanges(keys...)]: some key has changed. *)
Definition HasChanges (d : ResourceData) (keys : list string) : bool :=
  existsb (HasChange d) keys.

Definition TimeoutCreate := "create".
Definition TimeoutUpdate := "update".
Definition TimeoutDelete := "delete".

(** One error diagnostic: the format string, its leading arguments and the
    error it reports. *)
Record Diagnostic := {
  Summary : string;
  Args : list string;
  Cause : option error
}.
Definition Diagnostics := list Diagnostic.

Definition HasError (diags : Diagnostics) : bool :=
  match diags with [] => false | _ => true end.

(** [diag.Errorf(format, args..., err)]. *)
Definition Errorf (format : string) (args : list string) (err : error) : Diagnostics :=
  [ {| Summary := format; Args := args; Cause := Some err |} ].

(** [sdkdiag.AppendErrorf(diags, format, args..., err)]. *)
Definition AppendErrorf (diags : Diagnostics) (format : string) (args : list string)
    (err : option error) : Diagnostics :=
  (diags ++ [ {| Summary := format; Args := args; Cause := err |} ])%list.

(** [create.DiagError(service, action, resource, id, gotError)]: one error
    diagnostic; the summary text is composed from the arguments, which are
    kept as they are. *)
Definition DiagError (service action resource id : string) (gotError : error)
    : Diagnostics :=
  [ {| Summary := "create.DiagError";
       Args := [service; action; resource; id];
       Cause := Some gotError |} ].

(** [sdkdiag.AppendFromErr(diags, err)]. *)
Definition AppendFromErr (diags : Diagnostics) (err : error) : Diagnostics :=
  (diags ++ [ {| Summary := ""; Args := []; Cause := Some err |} ])%list.

(** The handler fields of [schema.Resource]. *)
Record Resource (handler : Type) := {
  CreateWithoutTimeout : option handler;
  ReadWithoutTimeout : option handler;
  UpdateWithoutTimeout : option handler;
  DeleteWithoutTimeout : option handler;
  Exists : option handler
}.
Arguments CreateWithoutTimeout {handler} _.
Arguments ReadWithoutTimeout {handler} _.
Arguments UpdateWithoutTimeout {handler} _.
Arguments DeleteWithoutTimeout {handler} _.
Arguments Exists {handler} _.

(** A resource definition provides the Create, Read, Update and Delete
    handlers; it provides these and an Exists handler. *)
Definition providesCRUD {handler} (r : Resource handler) : Prop :=
  is_Some (CreateWithoutTimeout r) /\ is_Some (ReadWithoutTimeout r) /\
  is_Some (UpdateWithoutTimeout r) /\ is_Some (DeleteWithoutTimeout r).
Definition providesCRUDAndExists {handler} (r : Resource handler) : Prop :=
  providesCRUD r /\ is_Some (Exists r).

End schema.

(** Helpers of the provider and of the plugin SDK that the handlers call and
    whose definitions are not part of the sources at hand.  They are taken as
    parameters; the facts assumed about them are stated where they are used. *)
Class Helpers := {
  (** [tfresource.NotFound] *)
  NotFound : option goerr.error -> bool;
  (** [tfresource.TimedOut] *)
  TimedOut : option goerr.error -> bool;
  (** [flex.ExpandStringSet] *)
  ExpandStringSet : gset string -> list string;
  (** [flex.ExpandStringList] *)
  ExpandStringList : list schema.iface -> list string;
  (** [create.Name] *)
  create_Name : string -> string -> string;
  (** [getTagsIn(ctx)] *)
  getTagsIn : list (string * string);
  (** what [retry.RetryContext] returns once its timeout has elapsed, given
      the error of the last attempt *)
  retryTimeoutResult : option goerr.error -> goerr.error;
  (** the package constant [propagationTimeout] of cloudtrail *)
  propagationTimeout : Z;
  (** [names.CloudTrail], [create.ErrActionReading], [ResNameTrail] *)
  names_CloudTrail : string;
  create_ErrActionReading : string;
  ResNameTrail : string
}.

(* ===================================================================== *)
(** * Retrying (package retry of the plugin SDK) *)
(* ===================================================================== *)

Module retry.
Import goerr exec exec.notations.

(** [*retry.RetryError] as returned by the retried function. *)
Inductive RetryError : Type :=
| RetryableError (err : error)
| NonRetryableError (err : error).

Section WithCalls.
Context {call : Type} {answer : call -> Type} `{Helpers}.

(** [retry.RetryContext(ctx, timeout, f)].  [f] is run again while it
    asks for a retry and the timeout allows; [attempts] is the number of
    runs of [f] that fit in the timeout.  [f] also yields the variables
    it assigns ([S]), [s] being their value so far and [last] the error
    of the previous run. *)
Fixpoint RetryContext {S : Type} (attempts : nat)
    (f : Prog answer (S * option RetryError)) (s : S) (last : option error)
    : Prog answer (S * option error) :=
  match attempts with
  | O => Done (s, Some (retryTimeoutResult last))
  | Datatypes.S attempts =>
      r <- f ;;
      match snd r with
      | None => Done (fst r, None)
      | Some (RetryableError err) => RetryContext attempts f (fst r) (Some err)
      | Some (NonRetryableError err) => Done (fst r, Some err)
      end
  end.
End WithCalls.
End retry.

(* ===================================================================== *)
(** * MemoryDB ACL (package memorydb) *)
(* ===================================================================== *)

Module memorydb.
Import goerr exec exec.notations schema.

(** [memorydb.ACL], the fields the handlers read. *)
Record ACL := {
  ARN : option string;
  MinimumEngineVersion : option string;
  Name : option string;
  UserNames : list (option string)
}.

Record CreateACLInput := {
  CreateACLInput_ACLName : string;
  CreateACLInput_Tags : list (string * string);
  CreateACLInput_UserNames : list string
}.

Record UpdateACLInput := {
  ACLName : string;
  UserNamesToAdd : list string;
  UserNamesToRemove : list string
}.

Record DeleteACLInput := { DeleteACLInput_ACLName : string }.

(** [memorydb.ErrCodeACLNotFoundFault] *)
Definition ErrCodeACLNotFoundFault := "ACLNotFoundFault".

(** What the handlers call: operations of the MemoryDB client, the finder
    and the waiters of the package, and [d.Set] (its key; the value written
    is not recorded). *)
Inductive call : Type :=
| CreateACLWithContext (input : CreateACLInput)
| UpdateACLWithContext (input : UpdateACLInput)
| DeleteACLWithContext (input : DeleteACLInput)
| FindACLByName (name : string)
| waitACLActive (name : string)
| waitACLDeleted (name : string)
| d_Set (key : string).

Definition answer (c : call) : Type :=
  match c with
  | CreateACLWithContext _ => option awserr
  | UpdateACLWithContext _ => option awserr
  | DeleteACLWithContext _ => option awserr
  | FindACLByName _ => (error + ACL)%type
  | waitACLActive _ => option error
  | waitACLDeleted _ => option error
  | d_Set _ => option error
  end.

Definition handler := ResourceData -> Prog answer (ResourceData * Diagnostics).

(** [aws.StringValue] *)
Definition StringValue (p : option string) : string := default "" p.

Section Handlers.
Context `{Helpers}.

Definition resourceACLRead : handler := fun d =>
  r <- invoke (FindACLByName (Id d)) ;;
  let err := match r with inl e => Some e | inr _ => None end in
  if negb (IsNewResource d) && NotFound err then
    Done (SetId d "", [])
  else
    match r with
    | inl e => Done (d, Errorf "reading MemoryDB ACL (%s): %s" [Id d] e)
    | inr acl =>
        _ <- invoke (d_Set "arn") ;;
        _ <- invoke (d_Set "minimum_engine_version") ;;
        _ <- invoke (d_Set "name") ;;
        _ <- invoke (d_Set "name_prefix") ;;
        _ <- invoke (d_Set "user_names") ;;
        Done (d, [])
    end.

Definition resourceACLCreate : handler := fun d =>
  let name := create_Name (GetString d "name") (GetString d "name_prefix") in
  let input :=
    {| CreateACLInput_ACLName := name;
       CreateACLInput_Tags := getTagsIn;
       CreateACLInput_UserNames :=
         match GetOkSet d "user_names" with
         | Some v => if 0 <? Len v then ExpandStringSet v else []
         | None => []
         end |} in
  err <- invoke (CreateACLWithContext input) ;;
  match err with
  | Some e => Done (d, Errorf "creating MemoryDB ACL (%s): %s" [name] (AWS e))
  | None =>
      err <- invoke (waitACLActive name) ;;
      match err with
      | Some e =>
          Done (d, Errorf "waiting for MemoryDB ACL (%s) to be created: %s" [name] e)
      | None => resourceACLRead (SetId d name)
      end
  end.

(** The loop of [resourceACLUpdate] over [oldSet.Difference(newSet).List()]. *)
Definition appendStillPresent (initialUserNames : gset string)
    (toRemove : list string) (acc : list string) : list string :=
  fold_left
    (fun acc userNameToRemove =>
       if decide (userNameToRemove ∈ initialUserNames)
       then (acc ++ [userNameToRemove])%list else acc)
    toRemove acc.

(** The request [resourceACLUpdate] has built when it reaches the test on
    the two lists, given the ACL returned by [FindACLByName]. *)
Definition updateACLInput (d : ResourceData) (initialState : ACL) : UpdateACLInput :=
  let '(oldSet, newSet) := GetChangeSet d "user_names" in
  let toAdd := Difference newSet oldSet in
  let initialUserNames : gset string :=
    list_to_set (map StringValue (UserNames initialState)) in
  {| ACLName := Id d;
     UserNamesToAdd := if 0 <? Len toAdd then ExpandStringSet toAdd else [];
     UserNamesToRemove :=
       appendStillPresent initialUserNames (List_ (Difference oldSet newSet)) [] |}.

Definition resourceACLUpdate : handler := fun d =>
  if HasChangesExcept d ["tags"; "tags_all"] then
    r <- invoke (FindACLByName (Id d)) ;;
    match r with
    | inl e =>
        Done (d, Errorf "getting MemoryDB ACL (%s) current state: %s" [Id d] e)
    | inr initialState =>
        let input := updateACLInput d initialState in
        if (0 <? Z.of_nat (length (UserNamesToAdd input)))
           || (0 <? Z.of_nat (length (UserNamesToRemove input))) then
          err <- invoke (UpdateACLWithContext input) ;;
          match err with
          | Some e =>
              Done (d, Errorf "updating MemoryDB ACL (%s): %s" [Id d] (AWS e))
          | None =>
              err <- invoke (waitACLActive (Id d)) ;;
              match err with
              | Some e =>
                  Done (d, Errorf "waiting for MemoryDB ACL (%s) to be modified: %s"
                                  [Id d] e)
              | None => resourceACLRead d
              end
          end
        else resourceACLRead d
    end
  else resourceACLRead d.

Definition resourceACLDelete : handler := fun d =>
  err <- invoke (DeleteACLWithContext {| DeleteACLInput_ACLName := Id d |}) ;;
  if ErrCodeEquals (sdkErr err) ErrCodeACLNotFoundFault then
    Done (d, [])
  else
    match err with
    | Some e => Done (d, Errorf "deleting MemoryDB ACL (%s): %s" [Id d] (AWS e))
    | None =>
        err <- invoke (waitACLDeleted (Id d)) ;;
        match err with
        | Some e =>
            Done (d, Errorf "waiting for MemoryDB ACL (%s) to be deleted: %s" [Id d] e)
        | None => Done (d, [])
        end
    end.

Definition ResourceACL : Resource handler :=
  {| CreateWithoutTimeout := Some resourceACLCreate;
     ReadWithoutTimeout := Some resourceACLRead;
     UpdateWithoutTimeout := Some resourceACLUpdate;
     DeleteWithoutTimeout := Some resourceACLDelete;
     Exists := None |}.
End Handlers.

(** ** Reading executions *)

Definition kind (c : call) : callKind :=
  match c with
  | CreateACLWithContext _ | UpdateACLWithContext _ | DeleteACLWithContext _ => Mutating
  | waitACLActive _ | waitACLDeleted _ => Waiter
  | FindACLByName _ => Reading
  | d_Set _ => Local
  end.

(** The answer of the event carries an error. *)
Definition failed (ev : event answer) : bool :=
  match ev with
  | Event c x =>
      match c return answer c -> bool with
      | CreateACLWithContext _ => isSome
      | UpdateACLWithContext _ => isSome
      | DeleteACLWithContext _ => isSome
      | FindACLByName _ => isLeft
      | waitACLActive _ => isSome
      | waitACLDeleted _ => isSome
      | d_Set _ => isSome
      end x
  end.

(** [w] is a call of the wait function that belongs to the mutating call of
    [ev], for the same ACL. *)
Definition waiterFor (ev w : event answer) : bool :=
  match ev_call ev, ev_call w with
  | CreateACLWithContext input, waitACLActive name =>
      String.eqb name (CreateACLInput_ACLName input)
  | UpdateACLWithContext input, waitACLActive name => String.eqb name (ACLName input)
  | DeleteACLWithContext input, waitACLDeleted name =>
      String.eqb name (DeleteACLInput_ACLName input)
  | _, _ => false
  end.

(** The requests of the [UpdateACLWithContext] calls of an execution. *)
Definition updateACLCalls (tr : list (event answer)) : list UpdateACLInput :=
  omap (fun ev => match ev_call ev with
                  | UpdateACLWithContext input => Some input
                  | _ => None
                  end) tr.

End memorydb.

(* ===================================================================== *)
(** * FSx OpenZFS file system (package fsx) *)
(* ===================================================================== *)

Module fsx.
Import goerr exec exec.notations schema.

(** [fsx.DiskIopsConfiguration] *)
Record DiskIopsConfiguration := {
  Iops : option Z;
  Mode : option string
}.

(** [fsx.OpenZFSFileSystemConfiguration], as returned by the service. *)
Record OpenZFSFileSystemConfiguration := {
  AutomaticBackupRetentionDays : option Z;
  CopyTagsToBackups : option bool;
  CopyTagsToVolumes : option bool;
  DailyAutomaticBackupStartTime : option string;
  DeploymentType : option string;
  DiskIopsConfiguration_ : option DiskIopsConfiguration;
  RootVolumeId : option string;
  ThroughputCapacity : option Z;
  WeeklyMaintenanceStartTime : option string
}.

(** [fsx.FileSystem]; of the Windows, Lustre and ONTAP configurations only
    the presence is kept. *)
Record FileSystem := {
  FileSystemId : option string;
  ResourceARN : option string;
  DNSName : option string;
  StorageType : option string;
  KmsKeyId : option string;
  NetworkInterfaceIds : list (option string);
  OwnerId : option string;
  StorageCapacity : option Z;
  SubnetIds : list (option string);
  VpcId : option string;
  Tags : list (string * string);
  WindowsConfiguration : bool;
  LustreConfiguration : bool;
  OntapConfiguration : bool;
  OpenZFSConfiguration : option OpenZFSFileSystemConfiguration
}.

(** [fsx.CreateFileSystemOutput] and [fsx.CreateFileSystemFromBackupOutput] *)
Record CreateFileSystemOutput := { Output_FileSystem : option FileSystem }.

(** [fsx.Volume]: its contents are only handed to
    [flattenOpenzfsRootVolumeConfiguration]. *)
Record Volume := { VolumeId : option string }.

(** [fsx.CreateFileSystemOpenZFSConfiguration].  The root volume field holds
    the configuration list given to [expandOpenzfsRootVolumeConfiguration]. *)
Record CreateFileSystemOpenZFSConfiguration := {
  c_DeploymentType : string;
  c_AutomaticBackupRetentionDays : Z;
  c_DiskIopsConfiguration : option DiskIopsConfiguration;
  c_RootVolumeConfiguration : option (list iface);
  c_DailyAutomaticBackupStartTime : option string;
  c_WeeklyMaintenanceStartTime : option string;
  c_ThroughputCapacity : option Z;
  c_CopyTagsToBackups : option bool;
  c_CopyTagsToVolumes : option bool
}.

(** [fsx.CreateFileSystemInput] (the client request token is left out). *)
Record CreateFileSystemInput := {
  i_FileSystemType : string;
  i_StorageCapacity : Z;
  i_StorageType : string;
  i_SubnetIds : list string;
  i_OpenZFSConfiguration : CreateFileSystemOpenZFSConfiguration;
  i_Tags : list (string * string);
  i_KmsKeyId : option string;
  i_SecurityGroupIds : list string
}.

(** [fsx.CreateFileSystemFromBackupInput] *)
Record CreateFileSystemFromBackupInput := {
  b_BackupId : string;
  b_StorageType : string;
  b_SubnetIds : list string;
  b_OpenZFSConfiguration : CreateFileSystemOpenZFSConfiguration;
  b_Tags : list (string * string);
  b_KmsKeyId : option string;
  b_SecurityGroupIds : list string
}.

(** [fsx.UpdateFileSystemOpenZFSConfiguration] *)
Record UpdateFileSystemOpenZFSConfiguration := {
  u_AutomaticBackupRetentionDays : option Z;
  u_CopyTagsToBackups : option bool;
  u_CopyTagsToVolumes : option bool;
  u_DailyAutomaticBackupStartTime : option string;
  u_ThroughputCapacity : option Z;
  u_DiskIopsConfiguration : option DiskIopsConfiguration;
  u_WeeklyMaintenanceStartTime : option string
}.

(** [fsx.UpdateFileSystemInput] *)
Record UpdateFileSystemInput := {
  u_FileSystemId : string;
  u_StorageCapacity : option Z;
  u_OpenZFSConfiguration : UpdateFileSystemOpenZFSConfiguration
}.

(** [fsx.UpdateVolumeInput]; the configuration is the list given to
    [expandOpenzfsUpdateRootVolumeConfiguration]. *)
Record UpdateVolumeInput := {
  v_VolumeId : string;
  v_OpenZFSConfiguration : list iface
}.

Record DeleteFileSystemInput := { del_FileSystemId : string }.

Definition FileSystemTypeOpenzfs := "OPENZFS".
Definition AdministrativeActionTypeFileSystemUpdate := "FILE_SYSTEM_UPDATE".
Definition ErrCodeFileSystemNotFound := "FileSystemNotFound".

Inductive call : Type :=
| CreateFileSystemFromBackupWithContext (input : CreateFileSystemFromBackupInput)
| CreateFileSystemWithContext (input : CreateFileSystemInput)
| UpdateFileSystemWithContext (input : UpdateFileSystemInput)
| UpdateVolumeWithContext (input : UpdateVolumeInput)
| DeleteFileSystemWithContext (input : DeleteFileSystemInput)
| FindFileSystemByID (id : string)
| FindVolumeByID (id : string)
| waitFileSystemCreated (id : string) (timeout : Z)
| waitFileSystemUpdated (id : string) (timeout : Z)
| waitAdministrativeActionCompleted (id : string) (actionType : string) (timeout : Z)
| waitVolumeUpdated (id : string) (timeout : Z)
| waitFileSystemDeleted (id : string) (timeout : Z)
| setTagsOut (tags : list (string * string))
| d_Set (key : string).

Definition answer (c : call) : Type :=
  match c with
  | CreateFileSystemFromBackupWithContext _ => (awserr + CreateFileSystemOutput)%type
  | CreateFileSystemWithContext _ => (awserr + CreateFileSystemOutput)%type
  | UpdateFileSystemWithContext _ => option awserr
  | UpdateVolumeWithContext _ => option awserr
  | DeleteFileSystemWithContext _ => option awserr
  | FindFileSystemByID _ => (error + FileSystem)%type
  | FindVolumeByID _ => (error + Volume)%type
  | waitFileSystemCreated _ _ => option error
  | waitFileSystemUpdated _ _ => option error
  | waitAdministrativeActionCompleted _ _ _ => option error
  | waitVolumeUpdated _ _ => option error
  | waitFileSystemDeleted _ _ => option error
  | setTagsOut _ => unit
  | d_Set _ => option error
  end.

Definition handler := ResourceData -> Prog answer (ResourceData * Diagnostics).

Definition StringValue (p : option string) : string := default "" p.
Definition Int64Value (p : option Z) : Z := default 0 p.

(** [v, ok := x.(string)] and [v, ok := x.(int)] on a map entry that may be
    absent. *)
Definition assertString (x : option iface) : option string :=
  match x with Some (IString s) => Some s | _ => None end.
Definition assertInt (x : option iface) : option Z :=
  match x with Some (IInt n) => Some n | _ => None end.

Definition expandOpenzfsFileDiskIopsConfiguration (cfg : list iface)
    : outcome (option DiskIopsConfiguration) :=
  match cfg with
  | [] => Returns None
  | IMap conf :: _ =>
      Returns (Some
        {| Mode := match assertString (conf !! "mode") with
                   | Some v => if (0 <? Z.of_nat (String.length v)) then Some v else None
                   | None => None
                   end;
           Iops := match assertInt (conf !! "iops") with
                   | Some v => Some v
                   | None => None
                   end |})
  | _ :: _ => Panics
  end.

Definition flattenOpenzfsFileDiskIopsConfiguration (rs : option DiskIopsConfiguration)
    : list iface :=
  match rs with
  | None => []
  | Some rs =>
      let m : gmap string iface := ∅ in
      let m := match Mode rs with
               | Some _ => <["mode" := IString (StringValue (Mode rs))]> m
               | None => m
               end in
      let m := match Iops rs with
               | Some _ => <["iops" := IInt64 (Int64Value (Iops rs))]> m
               | None => m
               end in
      [IMap m]
  end.

(** Runs [k] on the value of [x], or panics with it. *)
Definition try {A R} (x : outcome A) (k : A -> Prog answer R) : Prog answer R :=
  match x with
  | Returns a => k a
  | Panics => Panic
  end.

(** [d.Set] for each key in turn, errors ignored. *)
Fixpoint set_each (keys : list string) : Prog answer unit :=
  match keys with
  | [] => Done tt
  | key :: keys => _ <- invoke (d_Set key) ;; set_each keys
  end.

Section Handlers.
Context `{Helpers}.

Definition resourceOpenzfsFileSystemRead : handler := fun d =>
  let diags : Diagnostics := [] in
  r <- invoke (FindFileSystemByID (Id d)) ;;
  let err := match r with inl e => Some e | inr _ => None end in
  if negb (IsNewResource d) && NotFound err then
    Done (SetId d "", diags)
  else
    match r with
    | inl e =>
        Done (d, AppendErrorf diags "reading FSx OpenZFS File System (%s): %s"
                   [Id d] (Some e))
    | inr filesystem =>
        if WindowsConfiguration filesystem then
          Done (d, AppendErrorf diags
            "expected FSx OpenZFS File System, found FSx Windows File System: %s"
            [Id d] None)
        else if LustreConfiguration filesystem then
          Done (d, AppendErrorf diags
            "expected FSx OpenZFS File System, found FSx Lustre File System: %s"
            [Id d] None)
        else if OntapConfiguration filesystem then
          Done (d, AppendErrorf diags
            "expected FSx OpeZFS File System, found FSx ONTAP File System: %s"
            [Id d] None)
        else
          match OpenZFSConfiguration filesystem with
          | None =>
              Done (d, AppendErrorf diags
                "describing FSx OpenZFS File System (%s): empty Openzfs configuration"
                [Id d] None)
          | Some openzfsConfig =>
              _ <- set_each ["arn"; "dns_name"; "deployment_type"; "throughput_capacity";
                             "storage_type"; "kms_key_id"] ;;
              err <- invoke (d_Set "network_interface_ids") ;;
              match err with
              | Some e =>
                  Done (d, AppendErrorf diags "setting network_interface_ids: %s" [] (Some e))
              | None =>
              _ <- set_each ["owner_id"; "root_volume_id"; "storage_capacity"] ;;
              err <- invoke (d_Set "subnet_ids") ;;
              match err with
              | Some e => Done (d, AppendErrorf diags "setting subnet_ids: %s" [] (Some e))
              | None =>
              _ <- invoke (setTagsOut (Tags filesystem)) ;;
              err <- invoke (d_Set "disk_iops_configuration") ;;
              match err with
              | Some e =>
                  Done (d, AppendErrorf diags "setting disk_iops_configuration: %s" []
                             (Some e))
              | None =>
              _ <- set_each ["vpc_id"; "weekly_maintenance_start_time";
                             "automatic_backup_retention_days";
                             "daily_automatic_backup_start_time";
                             "copy_tags_to_backups"; "copy_tags_to_volumes"] ;;
              match RootVolumeId openzfsConfig with
              | None => Panic
              | Some rootVolumeId =>
              r <- invoke (FindVolumeByID rootVolumeId) ;;
              match r with
              | inl e =>
                  Done (d, AppendErrorf diags
                    "reading FSx OpenZFS Root Volume Configuration (%s): %s"
                    [rootVolumeId] (Some e))
              | inr rootVolume =>
                  err <- invoke (d_Set "root_volume_configuration") ;;
                  match err with
                  | Some e =>
                      Done (d, AppendErrorf diags "setting root_volume_configuration: %s"
                                 [] (Some e))
                  | None => Done (d, diags)
                  end
              end end end end end
          end
    end.
(** The OpenZFS part shared by [input] and [backupInput] in
    [resourceOpenzfsFileSystemCreate]. *)
Definition createOpenZFSConfiguration (d : ResourceData)
    : outcome CreateFileSystemOpenZFSConfiguration :=
  let disk :=
    match GetOkList d "disk_iops_configuration" with
    | Some v => expandOpenzfsFileDiskIopsConfiguration v
    | None => Returns None
    end in
  outcome_map
    (fun disk =>
       {| c_DeploymentType := GetString d "deployment_type";
          c_AutomaticBackupRetentionDays := GetInt d "automatic_backup_retention_days";
          c_DiskIopsConfiguration := disk;
          c_RootVolumeConfiguration := GetOkList d "root_volume_configuration";
          c_DailyAutomaticBackupStartTime := GetOkString d "daily_automatic_backup_start_time";
          c_WeeklyMaintenanceStartTime := GetOkString d "weekly_maintenance_start_time";
          c_ThroughputCapacity := GetOkInt d "throughput_capacity";
          c_CopyTagsToBackups := GetOkBool d "copy_tags_to_backups";
          c_CopyTagsToVolumes := GetOkBool d "copy_tags_to_volumes" |})
    disk.

Definition securityGroupIds (d : ResourceData) : list string :=
  match GetOkSet d "security_group_ids" with
  | Some v => ExpandStringSet v
  | None => []
  end.

Definition resourceOpenzfsFileSystemCreate : handler := fun d =>
  let diags : Diagnostics := [] in
  try (createOpenZFSConfiguration d) (fun openzfs =>
  let input :=
    {| i_FileSystemType := FileSystemTypeOpenzfs;
       i_StorageCapacity := GetInt d "storage_capacity";
       i_StorageType := GetString d "storage_type";
       i_SubnetIds := ExpandStringList (GetList d "subnet_ids");
       i_OpenZFSConfiguration := openzfs;
       i_Tags := getTagsIn;
       i_KmsKeyId := GetOkString d "kms_key_id";
       i_SecurityGroupIds := securityGroupIds d |} in
  let created (result : awserr + CreateFileSystemOutput) (format : string)
      (k : ResourceData -> Prog answer (ResourceData * Diagnostics)) :=
    match result with
    | inl e => Done (d, AppendErrorf diags format [] (Some (AWS e)))
    | inr result =>
        match Output_FileSystem result with
        | None => Panic
        | Some fs => k (SetId d (StringValue (FileSystemId fs)))
        end
    end in
  let wait_and_read (d : ResourceData) :=
    err <- invoke (waitFileSystemCreated (Id d) (Timeout d TimeoutCreate)) ;;
    match err with
    | Some e =>
        Done (d, AppendErrorf diags "waiting for FSx OpenZFS File System (%s) create: %s"
                   [Id d] (Some e))
    | None =>
        r <- resourceOpenzfsFileSystemRead d ;;
        Done (fst r, (diags ++ snd r)%list)
    end in
  match GetOkString d "backup_id" with
  | Some v =>
      let backupInput :=
        {| b_BackupId := v;
           b_StorageType := GetString d "storage_type";
           b_SubnetIds := ExpandStringList (GetList d "subnet_ids");
           b_OpenZFSConfiguration := openzfs;
           b_Tags := getTagsIn;
           b_KmsKeyId := GetOkString d "kms_key_id";
           b_SecurityGroupIds := securityGroupIds d |} in
      result <- invoke (CreateFileSystemFromBackupWithContext backupInput) ;;
      created result "creating FSx OpenZFS File System from backup: %s" wait_and_read
  | None =>
      result <- invoke (CreateFileSystemWithContext input) ;;
      created result "creating FSx OpenZFS File System: %s" wait_and_read
  end).

(** The request built by [resourceOpenzfsFileSystemUpdate]. *)
Definition updateFileSystemInput (d : ResourceData) : outcome UpdateFileSystemInput :=
  let changed {A} (key : string) (v : A) : option A :=
    if HasChange d key then Some v else None in
  let disk :=
    if HasChange d "disk_iops_configuration"
    then expandOpenzfsFileDiskIopsConfiguration (GetList d "disk_iops_configuration")
    else Returns None in
  outcome_map
    (fun disk =>
       {| u_FileSystemId := Id d;
          u_StorageCapacity := changed "storage_capacity" (GetInt d "storage_capacity");
          u_OpenZFSConfiguration :=
            {| u_AutomaticBackupRetentionDays :=
                 changed "automatic_backup_retention_days"
                         (GetInt d "automatic_backup_retention_days");
               u_CopyTagsToBackups :=
                 changed "copy_tags_to_backups" (GetBool d "copy_tags_to_backups");
               u_CopyTagsToVolumes :=
                 changed "copy_tags_to_volumes" (GetBool d "copy_tags_to_volumes");
               u_DailyAutomaticBackupStartTime :=
                 changed "daily_automatic_backup_start_time"
                         (GetString d "daily_automatic_backup_start_time");
               u_ThroughputCapacity :=
                 changed "throughput_capacity" (GetInt d "throughput_capacity");
               u_DiskIopsConfiguration := disk;
               u_WeeklyMaintenanceStartTime :=
                 changed "weekly_maintenance_start_time"
                         (GetString d "weekly_maintenance_start_time") |} |})
    disk.

Definition resourceOpenzfsFileSystemUpdate : handler := fun d =>
  let diags : Diagnostics := [] in
  let read :=
    r <- resourceOpenzfsFileSystemRead d ;;
    Done (fst r, (diags ++ snd r)%list) in
  if HasChangesExcept d ["tags_all"; "tags"] then
    try (updateFileSystemInput d) (fun input =>
    err <- invoke (UpdateFileSystemWithContext input) ;;
    match err with
    | Some e =>
        Done (d, AppendErrorf diags "updating FSx OpenZFS File System (%s): %s"
                   [Id d] (Some (AWS e)))
    | None =>
    err <- invoke (waitFileSystemUpdated (Id d) (Timeout d TimeoutUpdate)) ;;
    match err with
    | Some e =>
        Done (d, AppendErrorf diags "waiting for FSx OpenZFS File System (%s) update: %s"
                   [Id d] (Some e))
    | None =>
    err <- invoke (waitAdministrativeActionCompleted (Id d)
                     AdministrativeActionTypeFileSystemUpdate (Timeout d TimeoutUpdate)) ;;
    match err with
    | Some e =>
        Done (d, AppendErrorf diags "waiting for FSx OpenZFS File System (%s) update: %s"
                   [Id d] (Some e))
    | None =>
        if HasChange d "root_volume_configuration" then
          let input :=
            {| v_VolumeId := GetString d "root_volume_id";
               v_OpenZFSConfiguration := GetList d "root_volume_configuration" |} in
          err <- invoke (UpdateVolumeWithContext input) ;;
          match err with
          | Some e =>
              Done (d, AppendErrorf diags "updating FSx OpenZFS Root Volume (%s): %s"
                         [GetString d "root_volume_id"] (Some (AWS e)))
          | None =>
              err <- invoke (waitVolumeUpdated (GetString d "root_volume_id")
                               (Timeout d TimeoutUpdate)) ;;
              match err with
              | Some e =>
                  Done (d, AppendErrorf diags
                             "waiting for FSx OpenZFS Root Volume (%s) update: %s"
                             [GetString d "root_volume_id"] (Some e))
              | None => read
              end
          end
        else read
    end end end)
  else read.

Definition resourceOpenzfsFileSystemDelete : handler := fun d =>
  let diags : Diagnostics := [] in
  err <- invoke (DeleteFileSystemWithContext {| del_FileSystemId := Id d |}) ;;
  if ErrCodeEquals (sdkErr err) ErrCodeFileSystemNotFound then
    Done (d, diags)
  else
    match err with
    | Some e =>
        Done (d, AppendErrorf diags "deleting FSx OpenZFS File System (%s): %s"
                   [Id d] (Some (AWS e)))
    | None =>
        err <- invoke (waitFileSystemDeleted (Id d) (Timeout d TimeoutDelete)) ;;
        match err with
        | Some e =>
            Done (d, AppendErrorf diags
                       "waiting for FSx OpenZFS File System (%s) delete: %s"
                       [Id d] (Some e))
        | None => Done (d, diags)
        end
    end.

Definition ResourceOpenzfsFileSystem : Resource handler :=
  {| CreateWithoutTimeout := Some resourceOpenzfsFileSystemCreate;
     ReadWithoutTimeout := Some resourceOpenzfsFileSystemRead;
     UpdateWithoutTimeout := Some resourceOpenzfsFileSystemUpdate;
     DeleteWithoutTimeout := Some resourceOpenzfsFileSystemDelete;
     Exists := None |}.
End Handlers.

(** ** Reading executions *)

Definition kind (c : call) : callKind :=
  match c with
  | CreateFileSystemFromBackupWithContext _ | CreateFileSystemWithContext _
  | UpdateFileSystemWithContext _ | UpdateVolumeWithContext _
  | DeleteFileSystemWithContext _ => Mutating
  | waitFileSystemCreated _ _ | waitFileSystemUpdated _ _
  | waitAdministrativeActionCompleted _ _ _ | waitVolumeUpdated _ _
  | waitFileSystemDeleted _ _ => Waiter
  | FindFileSystemByID _ | FindVolumeByID _ => Reading
  | setTagsOut _ | d_Set _ => Local
  end.

Definition failed (ev : event answer) : bool :=
  match ev with
  | Event c x =>
      match c return answer c -> bool with
      | CreateFileSystemFromBackupWithContext _ => isLeft
      | CreateFileSystemWithContext _ => isLeft
      | UpdateFileSystemWithContext _ => isSome
      | UpdateVolumeWithContext _ => isSome
      | DeleteFileSystemWithContext _ => isSome
      | FindFileSystemByID _ => isLeft
      | FindVolumeByID _ => isLeft
      | waitFileSystemCreated _ _ => isSome
      | waitFileSystemUpdated _ _ => isSome
      | waitAdministrativeActionCompleted _ _ _ => isSome
      | waitVolumeUpdated _ _ => isSome
      | waitFileSystemDeleted _ _ => isSome
      | setTagsOut _ => fun _ => false
      | d_Set _ => isSome
      end x
  end.

(** The id of the file system a create operation reports. *)
Definition createdId (r : awserr + CreateFileSystemOutput) : option string :=
  match r with
  | inr out => (fun fs => StringValue (FileSystemId fs)) <$> Output_FileSystem out
  | inl _ => None
  end.

(** [w] is a call of the wait function that belongs to the mutating call of
    [ev], for the same file system or volume. *)
Definition waiterFor (ev w : event answer) : bool :=
  match ev with
  | Event c x =>
      match c return answer c -> bool with
      | CreateFileSystemFromBackupWithContext _ | CreateFileSystemWithContext _ =>
          fun x =>
            match ev_call w with
            | waitFileSystemCreated id _ => bool_decide (createdId x = Some id)
            | _ => false
            end
      | UpdateFileSystemWithContext input =>
          fun _ =>
            match ev_call w with
            | waitFileSystemUpdated id _ => String.eqb id (u_FileSystemId input)
            | _ => false
            end
      | UpdateVolumeWithContext input =>
          fun _ =>
            match ev_call w with
            | waitVolumeUpdated id _ => String.eqb id (v_VolumeId input)
            | _ => false
            end
      | DeleteFileSystemWithContext input =>
          fun _ =>
            match ev_call w with
            | waitFileSystemDeleted id _ => String.eqb id (del_FileSystemId input)
            | _ => false
            end
      | _ => fun _ => false
      end x
  end.

End fsx.

(* ===================================================================== *)
(** * Configuration values with sets *)
(* ===================================================================== *)

Module config.

(** Go [interface{}] values of nested configuration blocks, tagged with
    their dynamic type.  A [*schema.Set] is given by the list its [List]
    method returns; a slice of maps, as the flatten functions build it, may
    be nil. *)
Inductive value : Type :=
| VNil
| VString (s : string)
| VInt (n : Z)
| VInt64 (n : Z)
| VBool (b : bool)
| VList (l : list value)
| VSet (l : list value)
| VMap (m : gmap string value)
| VMaps (l : option (list (gmap string value))).

(** [[]*string]: a slice, possibly nil, of pointers to strings. *)
Definition Strings := option (list (option string)).

(** [v, ok := x.(T)] on a map entry that may be absent. *)
Definition assertString (x : option value) : option string :=
  match x with Some (VString s) => Some s | _ => None end.
Definition assertInt (x : option value) : option Z :=
  match x with Some (VInt n) => Some n | _ => None end.
Definition assertBool (x : option value) : option bool :=
  match x with Some (VBool b) => Some b | _ => None end.
Definition assertList (x : option value) : option (list value) :=
  match x with Some (VList l) => Some l | _ => None end.

Definition outcome_bind {A B} (x : outcome A) (f : A -> outcome B) : outcome B :=
  match x with
  | Returns a => f a
  | Panics => Panics
  end.

(** [aws.StringValue], [aws.Int64Value], [aws.BoolValue] *)
Definition StringValue (p : option string) : string := default "" p.
Definition Int64Value (p : option Z) : Z := default 0 p.
Definition BoolValue (p : option bool) : bool := default false p.

(** [flex.ExpandStringList], [flex.FlattenStringList],
    [flex.ExpandStringSet] (of the members of the set) and
    [flex.FlattenStringSet], whose definitions are not part of the sources
    at hand. *)
Class Flex := {
  ExpandStringList : list value -> Strings;
  FlattenStringList : Strings -> list value;
  ExpandStringSet : list value -> Strings;
  FlattenStringSet : Strings -> value
}.

End config.

(* ===================================================================== *)
(** * The selectors of a trail (package cloudtrail) *)
(* ===================================================================== *)

Module selectors.
Import config.

(** [cloudtrail.DataResource] *)
Record DataResource := {
  Type_ : option string;
  Values : Strings
}.

(** [cloudtrail.EventSelector] *)
Record EventSelector := {
  IncludeManagementEvents : option bool;
  ReadWriteType : option string;
  DataResources : option (list (option DataResource));
  ExcludeManagementEventSources : Strings
}.

(** [cloudtrail.AdvancedFieldSelector] *)
Record AdvancedFieldSelector := {
  Field : option string;
  Equals : Strings;
  NotEquals : Strings;
  StartsWith : Strings;
  NotStartsWith : Strings;
  EndsWith : Strings;
  NotEndsWith : Strings
}.

(** [cloudtrail.AdvancedEventSelector] *)
Record AdvancedEventSelector := {
  Name : option string;
  FieldSelectors : option (list (option AdvancedFieldSelector))
}.

(** [cloudtrail.InsightSelector] *)
Record InsightSelector := { InsightType : option string }.

(** [cloudtrail.ReadWriteTypeAll] *)
Definition ReadWriteTypeAll := "All".

(** [len] of a slice that may be nil. *)
Definition len {A} (s : option (list A)) : Z := Z.of_nat (length (default [] s)).

(** [x.(T)] on a map entry, panicking when the entry is absent or of
    another type. *)
Definition mustString (x : option value) : outcome string :=
  match x with Some (VString s) => Returns s | _ => Panics end.
Definition mustBool (x : option value) : outcome bool :=
  match x with Some (VBool b) => Returns b | _ => Panics end.
Definition mustList (x : option value) : outcome (list value) :=
  match x with Some (VList l) => Returns l | _ => Panics end.
Definition mustSet (x : option value) : outcome (list value) :=
  match x with Some (VSet l) => Returns l | _ => Panics end.

Section WithFlex.
Context `{Flex}.

Definition expandEventSelectorDataResource (configured : list value)
    : outcome (option (list (option DataResource))) :=
  outcome_map Some
    (fold_left
       (fun dataResources raw =>
          outcome_bind dataResources (fun dataResources =>
            match raw with
            | VMap data =>
                outcome_bind (mustString (data !! "type")) (fun type =>
                outcome_bind (mustList (data !! "values")) (fun values =>
                let dataResource :=
                  {| Type_ := Some type; Values := ExpandStringList values |} in
                Returns (dataResources ++ [Some dataResource])%list))
            | _ => Panics
            end))
       configured (Returns [])).

Definition expandEventSelector (configured : list value)
    : outcome (option (list (option EventSelector))) :=
  outcome_map Some
    (fold_left
       (fun eventSelectors raw =>
          outcome_bind eventSelectors (fun eventSelectors =>
            match raw with
            | VMap data =>
                outcome_bind (mustList (data !! "data_resource")) (fun configured =>
                outcome_bind (expandEventSelectorDataResource configured)
                  (fun dataResources =>
                outcome_bind (mustBool (data !! "include_management_events"))
                  (fun include =>
                outcome_bind (mustString (data !! "read_write_type")) (fun readWrite =>
                let es :=
                  {| IncludeManagementEvents := Some include;
                     ReadWriteType := Some readWrite;
                     DataResources := dataResources;
                     ExcludeManagementEventSources :=
                       match data !! "exclude_management_event_sources" with
                       | Some (VSet v) =>
                           if 0 <? Z.of_nat (length v) then ExpandStringSet v else None
                       | _ => None
                       end |} in
                Returns (eventSelectors ++ [Some es])%list))))
            | _ => Panics
            end))
       configured (Returns [])).

(** The event selectors of the request that [setEventSelectors] builds from
    the configured list. *)
Definition eventSelectorsOf (configured : list value)
    : outcome (option (list (option EventSelector))) :=
  outcome_map
    (fun eventSelectors =>
       if len eventSelectors =? 0 then
         let es :=
           {| IncludeManagementEvents := Some true;
              ReadWriteType := Some ReadWriteTypeAll;
              DataResources := Some [];
              ExcludeManagementEventSources := None |} in
         Some (default [] eventSelectors ++ [Some es])%list
       else eventSelectors)
    (expandEventSelector configured).

Definition flattenEventSelectorDataResource (configured : option (list (option DataResource)))
    : outcome (list (gmap string value)) :=
  fold_left
    (fun dataResources raw =>
       outcome_bind dataResources (fun dataResources =>
         match raw with
         | Some raw =>
             let item : gmap string value := ∅ in
             let item := <["type" := VString (StringValue (Type_ raw))]> item in
             let item := <["values" := VList (FlattenStringList (Values raw))]> item in
             Returns (dataResources ++ [item])%list
         | None => Panics
         end))
    (default [] configured) (Returns []).

Definition flattenEventSelector (configured : option (list (option EventSelector)))
    : outcome (list (gmap string value)) :=
  let flattened :=
    fold_left
      (fun eventSelectors raw =>
         outcome_bind eventSelectors (fun eventSelectors =>
           match raw with
           | Some raw =>
               outcome_bind (flattenEventSelectorDataResource (DataResources raw))
                 (fun dataResources =>
               let item : gmap string value := ∅ in
               let item :=
                 <["read_write_type" := VString (StringValue (ReadWriteType raw))]> item in
               let item :=
                 <["exclude_management_event_sources" :=
                     FlattenStringSet (ExcludeManagementEventSources raw)]> item in
               let item :=
                 <["include_management_events" :=
                     VBool (BoolValue (IncludeManagementEvents raw))]> item in
               let item := <["data_resource" := VMaps (Some dataResources)]> item in
               Returns (eventSelectors ++ [item])%list)
           | None => Panics
           end))
      (default [] configured) (Returns []) in
  match default [] configured with
  | [first] =>
      match first with
      | None => Panics
      | Some first =>
          if (len (DataResources first) =? 0)
             && String.eqb (StringValue (ReadWriteType first)) ReadWriteTypeAll
             && (len (ExcludeManagementEventSources first) =? 0)
          then Returns []
          else flattened
      end
  | _ => flattened
  end.

(** [if v, ok := data[key].([]interface{}); ok && len(v) > 0] of
    [expandAdvancedEventSelectorFieldSelector]. *)
Definition expandOperator (data : gmap string value) (key : string) : Strings :=
  match assertList (data !! key) with
  | Some v => if 0 <? Z.of_nat (length v) then ExpandStringList v else None
  | None => None
  end.

Definition expandAdvancedEventSelectorFieldSelector (configured : list value)
    : outcome (option (list (option AdvancedFieldSelector))) :=
  outcome_map Some
    (fold_left
       (fun fieldSelectors raw =>
          outcome_bind fieldSelectors (fun fieldSelectors =>
            match raw with
            | VMap data =>
                outcome_bind (mustString (data !! "field")) (fun field =>
                let fieldSelector :=
                  {| Field := Some field;
                     Equals := expandOperator data "equals";
                     NotEquals := expandOperator data "not_equals";
                     StartsWith := expandOperator data "starts_with";
                     NotStartsWith := expandOperator data "not_starts_with";
                     EndsWith := expandOperator data "ends_with";
                     NotEndsWith := expandOperator data "not_ends_with" |} in
                Returns (fieldSelectors ++ [Some fieldSelector])%list)
            | _ => Panics
            end))
       configured (Returns [])).

Definition expandAdvancedEventSelector (configured : list value)
    : outcome (option (list (option AdvancedEventSelector))) :=
  outcome_map Some
    (fold_left
       (fun advancedEventSelectors raw =>
          outcome_bind advancedEventSelectors (fun advancedEventSelectors =>
            match raw with
            | VMap data =>
                outcome_bind (mustSet (data !! "field_selector")) (fun configured =>
                outcome_bind (expandAdvancedEventSelectorFieldSelector configured)
                  (fun fieldSelectors =>
                outcome_bind (mustString (data !! "name")) (fun name =>
                let aes := {| Name := Some name; FieldSelectors := fieldSelectors |} in
                Returns (advancedEventSelectors ++ [Some aes])%list)))
            | _ => Panics
            end))
       configured (Returns [])).

(** [if x != nil { item[key] = flex.FlattenStringList(x) }] of
    [flattenAdvancedEventSelectorFieldSelector]. *)
Definition flattenOperator (key : string) (x : Strings) (item : gmap string value)
    : gmap string value :=
  match x with
  | Some _ => <[key := VList (FlattenStringList x)]> item
  | None => item
  end.

Definition flattenAdvancedEventSelectorFieldSelector
    (configured : option (list (option AdvancedFieldSelector)))
    : outcome (list (gmap string value)) :=
  fold_left
    (fun fieldSelectors raw =>
       outcome_bind fieldSelectors (fun fieldSelectors =>
         match raw with
         | Some raw =>
             let item : gmap string value := ∅ in
             let item := <["field" := VString (StringValue (Field raw))]> item in
             let item := flattenOperator "equals" (Equals raw) item in
             let item := flattenOperator "not_equals" (NotEquals raw) item in
             let item := flattenOperator "starts_with" (StartsWith raw) item in
             let item := flattenOperator "not_starts_with" (NotStartsWith raw) item in
             let item := flattenOperator "ends_with" (EndsWith raw) item in
             let item := flattenOperator "not_ends_with" (NotEndsWith raw) item in
             Returns (fieldSelectors ++ [item])%list
         | None => Panics
         end))
    (default [] configured) (Returns []).

Definition flattenAdvancedEventSelector
    (configured : option (list (option AdvancedEventSelector)))
    : outcome (list (gmap string value)) :=
  fold_left
    (fun advancedEventSelectors raw =>
       outcome_bind advancedEventSelectors (fun advancedEventSelectors =>
         match raw with
         | Some raw =>
             outcome_bind (flattenAdvancedEventSelectorFieldSelector (FieldSelectors raw))
               (fun fieldSelectors =>
             let item : gmap string value := ∅ in
             let item := <["name" := VString (StringValue (Name raw))]> item in
             let item := <["field_selector" := VMaps (Some fieldSelectors)]> item in
             Returns (advancedEventSelectors ++ [item])%list)
         | None => Panics
         end))
    (default [] configured) (Returns []).
End WithFlex.

Definition expandInsightSelector (configured : list value)
    : outcome (option (list (option InsightSelector))) :=
  outcome_map Some
    (fold_left
       (fun insightSelectors raw =>
          outcome_bind insightSelectors (fun insightSelectors =>
            match raw with
            | VMap data =>
                outcome_bind (mustString (data !! "insight_type")) (fun insightType =>
                let is_ := {| InsightType := Some insightType |} in
                Returns (insightSelectors ++ [Some is_])%list)
            | _ => Panics
            end))
       configured (Returns [])).

Definition flattenInsightSelector (configured : option (list (option InsightSelector)))
    : outcome (list (gmap string value)) :=
  fold_left
    (fun insightSelectors raw =>
       outcome_bind insightSelectors (fun insightSelectors =>
         match raw with
         | Some raw =>
             let item : gmap string value := ∅ in
             let item := <["insight_type" := VString (StringValue (InsightType raw))]> item in
             Returns (insightSelectors ++ [item])%list
         | None => Panics
         end))
    (default [] configured) (Returns []).


(** The block of one Insights selector as the configuration holds it. *)
Definition insightBlock (insightType : string) : gmap string value :=
  <["insight_type" := VString insightType]> ∅.

(** The selector that is suppressed when flattening: it has no data
    resource, reads and writes all, and excludes no event source. *)
Definition likeDefault (es : EventSelector) : Prop :=
  len (DataResources es) = 0
  /\ StringValue (ReadWriteType es) = ReadWriteTypeAll
  /\ len (ExcludeManagementEventSources es) = 0.

(** The entry under [key] of the flattened field selector that was expanded
    from the block [data]. *)
Definition operatorKeys : list string :=
  ["equals"; "not_equals"; "starts_with"; "not_starts_with"; "ends_with"; "not_ends_with"].

Definition roundTripEntry `{Flex} (data : gmap string value) (key : string) : option value :=
  if String.eqb key "field" then
    match data !! "field" with
    | Some (VString field) => Some (VString field)
    | _ => None
    end
  else if bool_decide (key ∈ operatorKeys) then
    match expandOperator data key with
    | Some x => Some (VList (FlattenStringList (Some x)))
    | None => None
    end
  else None.

End selectors.

(* ===================================================================== *)
(** * CloudTrail trail (package cloudtrail) *)
(* ===================================================================== *)

Module cloudtrail.
Import goerr exec exec.notations schema retry.

(** [cloudtrail.Trail] *)
Record Trail := {
  Name : option string;
  S3BucketName : option string;
  S3KeyPrefix : option string;
  CloudWatchLogsRoleArn : option string;
  CloudWatchLogsLogGroupArn : option string;
  IncludeGlobalServiceEvents : option bool;
  IsMultiRegionTrail : option bool;
  IsOrganizationTrail : option bool;
  SnsTopicName : option string;
  LogFileValidationEnabled : option bool;
  KmsKeyId : option string;
  TrailARN : option string;
  HomeRegion : option string;
  HasCustomEventSelectors : option bool;
  HasInsightSelectors : option bool
}.

(** [cloudtrail.CreateTrailInput] *)
Record CreateTrailInput := {
  c_Name : string;
  c_S3BucketName : string;
  c_TagsList : list (string * string);
  c_CloudWatchLogsLogGroupArn : option string;
  c_CloudWatchLogsRoleArn : option string;
  c_IncludeGlobalServiceEvents : option bool;
  c_IsMultiRegionTrail : option bool;
  c_IsOrganizationTrail : option bool;
  c_EnableLogFileValidation : option bool;
  c_KmsKeyId : option string;
  c_S3KeyPrefix : option string;
  c_SnsTopicName : option string
}.

(** [cloudtrail.CreateTrailOutput], the field that is read. *)
Record CreateTrailOutput := { o_Name : option string }.

(** [cloudtrail.UpdateTrailInput] *)
Record UpdateTrailInput := {
  u_Name : string;
  u_S3BucketName : option string;
  u_S3KeyPrefix : option string;
  u_CloudWatchLogsRoleArn : option string;
  u_CloudWatchLogsLogGroupArn : option string;
  u_IncludeGlobalServiceEvents : option bool;
  u_IsMultiRegionTrail : option bool;
  u_IsOrganizationTrail : option bool;
  u_EnableLogFileValidation : option bool;
  u_KmsKeyId : option string;
  u_SnsTopicName : option string
}.

(** [cloudtrail.GetInsightSelectorsOutput], the field that is read. *)
Record GetInsightSelectorsOutput := {
  o_InsightSelectors : option (list (option selectors.InsightSelector))
}.

(** The three selector requests; of their contents only the trail name and
    the kind of selector are kept. *)
Inductive selectors := EventSelectors | AdvancedEventSelectors | InsightSelectors.

Definition ErrCodeInvalidCloudWatchLogsRoleArnException :=
  "InvalidCloudWatchLogsRoleArnException".
Definition ErrCodeInvalidCloudWatchLogsLogGroupArnException :=
  "InvalidCloudWatchLogsLogGroupArnException".
Definition ErrCodeTrailNotFoundException := "TrailNotFoundException".
Definition ErrCodeInsightNotEnabledException := "InsightNotEnabledException".

(** What the handlers call: operations of the CloudTrail client, the
    validation of a selector request, [d.Set], and the number of attempts
    the timeout of a retry allows. *)
Inductive call : Type :=
| CreateTrailWithContext (input : CreateTrailInput)
| UpdateTrailWithContext (input : UpdateTrailInput)
| DeleteTrailWithContext (name : string)
| DescribeTrailsWithContext (trailNameList : list string)
| GetTrailStatusWithContext (name : option string)
| GetEventSelectorsWithContext (trailName : string)
| GetInsightSelectorsWithContext (trailName : string)
| StartLoggingWithContext (name : string)
| StopLoggingWithContext (name : string)
| PutEventSelectorsWithContext (trailName : string) (kind : selectors)
| PutInsightSelectorsWithContext (trailName : string)
| Validate (trailName : string) (kind : selectors)
| d_Set (key : string)
| attemptsWithin (timeout : Z).

Definition answer (c : call) : Type :=
  match c with
  | CreateTrailWithContext _ => (awserr + CreateTrailOutput)%type
  | UpdateTrailWithContext _ => option awserr
  | DeleteTrailWithContext _ => option awserr
  | DescribeTrailsWithContext _ => (awserr + list Trail)%type
  | GetTrailStatusWithContext _ => (awserr + option bool)%type
  | GetEventSelectorsWithContext _ => (awserr + unit)%type
  | GetInsightSelectorsWithContext _ => (option GetInsightSelectorsOutput * option awserr)%type
  | StartLoggingWithContext _ => option awserr
  | StopLoggingWithContext _ => option awserr
  | PutEventSelectorsWithContext _ _ => option awserr
  | PutInsightSelectorsWithContext _ => option awserr
  | Validate _ _ => option error
  | d_Set _ => option error
  | attemptsWithin _ => nat
  end.

Definition handler := ResourceData -> Prog answer (ResourceData * Diagnostics).

Definition StringValue (p : option string) : string := default "" p.
Definition BoolValue (p : option bool) : bool := default false p.

Fixpoint set_each (keys : list string) : Prog answer unit :=
  match keys with
  | [] => Done tt
  | key :: keys => _ <- invoke (d_Set key) ;; set_each keys
  end.

(** The classification made by the function retried in
    [resourceCloudTrailCreate] and [resourceCloudTrailUpdate]. *)
Definition classify (err : error) : RetryError :=
  if ErrMessageContains (Some err) ErrCodeInvalidCloudWatchLogsRoleArnException
       "Access denied."
  then RetryableError err
  else if ErrMessageContains (Some err) ErrCodeInvalidCloudWatchLogsLogGroupArnException
            "Access denied."
  then RetryableError err
  else NonRetryableError err.

Definition getLoggingStatus (id : option string) : Prog answer (bool * option error) :=
  r <- invoke (GetTrailStatusWithContext id) ;;
  match r with
  | inl e => Done (false, Some (Wrap "retrieving logging status: %w" [] (AWS e)))
  | inr IsLogging => Done (BoolValue IsLogging, None)
  end.

Definition setLogging (enabled : bool) (id : string) : Prog answer (option error) :=
  if enabled then
    err <- invoke (StartLoggingWithContext id) ;;
    match err with
    | Some e => Done (Some (Wrap "starting logging: %w" [] (AWS e)))
    | None => Done None
    end
  else
    err <- invoke (StopLoggingWithContext id) ;;
    match err with
    | Some e => Done (Some (Wrap "stopping logging: %w" [] (AWS e)))
    | None => Done None
    end.

Definition setEventSelectors (d : ResourceData) : Prog answer (option error) :=
  err <- invoke (Validate (Id d) EventSelectors) ;;
  match err with
  | Some e => Done (Some (Fmt "validate CloudTrail (%s): %s" [Id d] e))
  | None =>
      err <- invoke (PutEventSelectorsWithContext (Id d) EventSelectors) ;;
      match err with
      | Some e => Done (Some (Fmt "set event selector on CloudTrail (%s): %s" [Id d] (AWS e)))
      | None => Done None
      end
  end.

Definition setAdvancedEventSelectors (d : ResourceData) : Prog answer (option error) :=
  err <- invoke (Validate (Id d) AdvancedEventSelectors) ;;
  match err with
  | Some e => Done (Some (Wrap "validate CloudTrail (%s): %w" [Id d] e))
  | None =>
      err <- invoke (PutEventSelectorsWithContext (Id d) AdvancedEventSelectors) ;;
      match err with
      | Some e =>
          Done (Some (Wrap "set advanced event selector on CloudTrail (%s): %w" [Id d] (AWS e)))
      | None => Done None
      end
  end.

Definition setInsightSelectors (d : ResourceData) : Prog answer (option error) :=
  err <- invoke (Validate (Id d) InsightSelectors) ;;
  match err with
  | Some e => Done (Some (Wrap "validate CloudTrail (%s): %w" [Id d] e))
  | None =>
      err <- invoke (PutInsightSelectorsWithContext (Id d)) ;;
      match err with
      | Some e =>
          Done (Some (Wrap "set insight selector on CloudTrail (%s): %w" [Id d] (AWS e)))
      | None => Done None
      end
  end.

(** The loop of [resourceCloudTrailRead] over [resp.TrailList]. *)
Definition findTrail (id : string) (TrailList : list Trail) : option Trail :=
  fold_left
    (fun trail c => if String.eqb id (StringValue (Name c)) then Some c else trail)
    TrailList None.

(** Runs [p]; on an error returns with the diagnostics [report] makes of it,
    otherwise goes on with [k]. *)
Definition orReturn (d : ResourceData) (p : Prog answer (option error))
    (report : error -> Diagnostics) (k : Prog answer (ResourceData * Diagnostics))
    : Prog answer (ResourceData * Diagnostics) :=
  err <- p ;;
  match err with
  | Some e => Done (d, report e)
  | None => k
  end.

Section Handlers.
Context `{Helpers}.

Definition readError (d : ResourceData) (err : error) : Diagnostics :=
  DiagError names_CloudTrail create_ErrActionReading ResNameTrail (Id d) err.

Definition resourceCloudTrailRead : handler := fun d =>
  let diags : Diagnostics := [] in
  resp <- invoke (DescribeTrailsWithContext [Id d]) ;;
  match resp with
  | inl _ => Done (d, readError d (New "not found after creation"))
  | inr TrailList =>
      let trail := findTrail (Id d) TrailList in
      match trail with
      | None =>
          if negb (IsNewResource d) then Done (SetId d "", diags)
          else Done (d, readError d (New "not found after creation"))
      | Some trail =>
          _ <- set_each ["name"; "s3_bucket_name"; "s3_key_prefix";
                         "cloud_watch_logs_role_arn"; "cloud_watch_logs_group_arn";
                         "include_global_service_events"; "is_multi_region_trail";
                         "is_organization_trail"; "sns_topic_name";
                         "enable_log_file_validation"; "kms_key_id"; "arn";
                         "home_region"] ;;
          r <- getLoggingStatus (Name trail) ;;
          match snd r with
          | Some e => Done (d, readError d e)
          | None =>
          _ <- invoke (d_Set "enable_logging") ;;
          eventSelectorsOut <- invoke (GetEventSelectorsWithContext (Id d)) ;;
          match eventSelectorsOut with
          | inl e => Done (d, readError d (AWS e))
          | inr _ =>
          let insight :=
            if BoolValue (HasInsightSelectors trail) then
              r <- invoke (GetInsightSelectorsWithContext (Id d)) ;;
              let r : option GetInsightSelectorsOutput * option awserr := r in
              let insightSelectors := fst r in
              let err := snd r in
              if match err with
                 | Some _ => negb (ErrCodeEquals (sdkErr err) ErrCodeInsightNotEnabledException)
                 | None => false
                 end
              then
                Done (d, AppendErrorf diags "getting Cloud Trail (%s) Insight Selectors: %s"
                           [Id d] (sdkErr err))
              else
                match insightSelectors with
                | Some insightSelectors =>
                    match selectors.flattenInsightSelector
                            (o_InsightSelectors insightSelectors) with
                    | Returns _ =>
                        orReturn d (invoke (d_Set "insight_selector")) (readError d)
                          (Done (d, diags))
                    | Panics => Panic
                    end
                | None => Done (d, diags)
                end
            else Done (d, diags) in
          if BoolValue (HasCustomEventSelectors trail) then
            orReturn d (invoke (d_Set "event_selector")) (readError d)
              (orReturn d (invoke (d_Set "advanced_event_selector")) (readError d)
                 insight)
          else insight
          end end
      end
  end.

Definition createTrailInput (d : ResourceData) : CreateTrailInput :=
  {| c_Name := GetString d "name";
     c_S3BucketName := GetString d "s3_bucket_name";
     c_TagsList := getTagsIn;
     c_CloudWatchLogsLogGroupArn := GetOkString d "cloud_watch_logs_group_arn";
     c_CloudWatchLogsRoleArn := GetOkString d "cloud_watch_logs_role_arn";
     c_IncludeGlobalServiceEvents := GetOkExistsBool d "include_global_service_events";
     c_IsMultiRegionTrail := GetOkBool d "is_multi_region_trail";
     c_IsOrganizationTrail := GetOkBool d "is_organization_trail";
     c_EnableLogFileValidation := GetOkBool d "enable_log_file_validation";
     c_KmsKeyId := GetOkString d "kms_key_id";
     c_S3KeyPrefix := GetOkString d "s3_key_prefix";
     c_SnsTopicName := GetOkString d "sns_topic_name" |}.

(** One [conn.CreateTrailWithContext(ctx, &input)] assigning [t] and [err]. *)
Definition createTrail (input : CreateTrailInput)
    : Prog answer (option CreateTrailOutput * option awserr) :=
  r <- invoke (CreateTrailWithContext input) ;;
  match r with
  | inl e => Done (None, Some e)
  | inr t => Done (Some t, None)
  end.

(** The function retried by [resourceCloudTrailCreate]. *)
Definition createTrailAttempt (input : CreateTrailInput)
    : Prog answer (option CreateTrailOutput * option RetryError) :=
  r <- createTrail input ;;
  match snd r with
  | Some e => Done (fst r, Some (classify (AWS e)))
  | None => Done (fst r, None)
  end.

Definition resourceCloudTrailCreate : handler := fun d =>
  let diags : Diagnostics := [] in
  let input := createTrailInput d in
  attempts <- invoke (attemptsWithin propagationTimeout) ;;
  r <- RetryContext attempts (createTrailAttempt input) None None ;;
  r <- (if TimedOut (snd r)
        then r' <- createTrail input ;; Done (fst r', sdkErr (snd r'))
        else Done r) ;;
  match snd r with
  | Some e => Done (d, AppendErrorf diags "creating CloudTrail: %s" [] (Some e))
  | None =>
  match fst r with
  | None => Panic
  | Some t =>
  let d := SetId d (StringValue (o_Name t)) in
  let logging k :=
    match GetOkBool d "enable_logging" with
    | Some true =>
        orReturn d (setLogging true (Id d))
          (fun e => AppendErrorf diags "creating CloudTrail: %s" [] (Some e)) k
    | _ => k
    end in
  let selectors {A} (key : string) (getOk : option A)
      (set : ResourceData -> Prog answer (option error)) k :=
    match getOk with
    | Some _ => orReturn d (set d) (AppendFromErr diags) k
    | None => k
    end in
  logging
    (selectors "event_selector" (GetOkList d "event_selector") setEventSelectors
      (selectors "advanced_event_selector" (GetOkList d "advanced_event_selector")
         setAdvancedEventSelectors
        (selectors "insight_selector" (GetOkList d "insight_selector")
           setInsightSelectors
           (r <- resourceCloudTrailRead d ;;
            Done (fst r, (diags ++ snd r)%list)))))
  end end.

Definition updateTrailInput (d : ResourceData) : UpdateTrailInput :=
  let changed {A} (key : string) (v : A) : option A :=
    if HasChange d key then Some v else None in
  let logs {A} (v : A) : option A :=
    if HasChanges d ["cloud_watch_logs_role_arn"; "cloud_watch_logs_group_arn"]
    then Some v else None in
  {| u_Name := Id d;
     u_S3BucketName := changed "s3_bucket_name" (GetString d "s3_bucket_name");
     u_S3KeyPrefix := changed "s3_key_prefix" (GetString d "s3_key_prefix");
     u_CloudWatchLogsRoleArn := logs (GetString d "cloud_watch_logs_role_arn");
     u_CloudWatchLogsLogGroupArn := logs (GetString d "cloud_watch_logs_group_arn");
     u_IncludeGlobalServiceEvents :=
       changed "include_global_service_events" (GetBool d "include_global_service_events");
     u_IsMultiRegionTrail :=
       changed "is_multi_region_trail" (GetBool d "is_multi_region_trail");
     u_IsOrganizationTrail :=
       changed "is_organization_trail" (GetBool d "is_organization_trail");
     u_EnableLogFileValidation :=
       changed "enable_log_file_validation" (GetBool d "enable_log_file_validation");
     u_KmsKeyId := changed "kms_key_id" (GetString d "kms_key_id");
     u_SnsTopicName := changed "sns_topic_name" (GetString d "sns_topic_name") |}.

(** The function retried by [resourceCloudTrailUpdate]. *)
Definition updateTrailAttempt (input : UpdateTrailInput)
    : Prog answer (unit * option RetryError) :=
  err <- invoke (UpdateTrailWithContext input) ;;
  match err with
  | Some e => Done (tt, Some (classify (AWS e)))
  | None => Done (tt, None)
  end.

Definition resourceCloudTrailUpdate : handler := fun d =>
  let diags : Diagnostics := [] in
  let report e :=
    AppendErrorf diags "updating CloudTrail Trail (%s): %s" [Id d] (Some e) in
  let trail k :=
    if HasChangesExcept d ["tags"; "tags_all"; "insight_selector";
                           "advanced_event_selector"; "event_selector";
                           "enable_logging"] then
      let input := updateTrailInput d in
      attempts <- invoke (attemptsWithin propagationTimeout) ;;
      r <- RetryContext attempts (updateTrailAttempt input) tt None ;;
      err <- (if TimedOut (snd r)
              then err <- invoke (UpdateTrailWithContext input) ;; Done (sdkErr err)
              else Done (snd r)) ;;
      match err with
      | Some e => Done (d, report e)
      | None => k
      end
    else k in
  let logging k :=
    if HasChange d "enable_logging"
    then orReturn d (setLogging (GetBool d "enable_logging") (Id d)) report k
    else k in
  let selectors (key : string) (set : ResourceData -> Prog answer (option error)) k :=
    if negb (IsNewResource d) && HasChange d key
    then orReturn d (set d) report k
    else k in
  trail
    (logging
      (selectors "event_selector" setEventSelectors
        (selectors "advanced_event_selector" setAdvancedEventSelectors
          (selectors "insight_selector" setInsightSelectors
            (r <- resourceCloudTrailRead d ;;
             Done (fst r, (diags ++ snd r)%list)))))).

Definition resourceCloudTrailDelete : handler := fun d =>
  let diags : Diagnostics := [] in
  err <- invoke (DeleteTrailWithContext (Id d)) ;;
  if ErrCodeEquals (sdkErr err) ErrCodeTrailNotFoundException then
    Done (d, diags)
  else
    match err with
    | Some e =>
        Done (d, AppendErrorf diags "deleting CloudTrail (%s): %s" [Id d] (Some (AWS e)))
    | None => Done (d, diags)
    end.

Definition ResourceCloudTrail : Resource handler :=
  {| CreateWithoutTimeout := Some resourceCloudTrailCreate;
     ReadWithoutTimeout := Some resourceCloudTrailRead;
     UpdateWithoutTimeout := Some resourceCloudTrailUpdate;
     DeleteWithoutTimeout := Some resourceCloudTrailDelete;
     Exists := None |}.
End Handlers.

(** ** Reading executions *)

(** None of the calls of these handlers is a wait function. *)
Definition kind (c : call) : callKind :=
  match c with
  | CreateTrailWithContext _ | UpdateTrailWithContext _ | DeleteTrailWithContext _
  | StartLoggingWithContext _ | StopLoggingWithContext _
  | PutEventSelectorsWithContext _ _ | PutInsightSelectorsWithContext _ => Mutating
  | DescribeTrailsWithContext _ | GetTrailStatusWithContext _
  | GetEventSelectorsWithContext _ | GetInsightSelectorsWithContext _ => Reading
  | Validate _ _ | d_Set _ | attemptsWithin _ => Local
  end.

Definition failed (ev : event answer) : bool :=
  match ev with
  | Event c x =>
      match c return answer c -> bool with
      | CreateTrailWithContext _ => isLeft
      | UpdateTrailWithContext _ => isSome
      | DeleteTrailWithContext _ => isSome
      | DescribeTrailsWithContext _ => isLeft
      | GetTrailStatusWithContext _ => isLeft
      | GetEventSelectorsWithContext _ => isLeft
      | GetInsightSelectorsWithContext _ => fun x => isSome (snd x)
      | StartLoggingWithContext _ => isSome
      | StopLoggingWithContext _ => isSome
      | PutEventSelectorsWithContext _ _ => isSome
      | PutInsightSelectorsWithContext _ => isSome
      | Validate _ _ => isSome
      | d_Set _ => isSome
      | attemptsWithin _ => fun _ => false
      end x
  end.

Definition isCreateTrail (c : call) : bool :=
  match c with CreateTrailWithContext _ => true | _ => false end.

(** The error a [CreateTrailWithContext] event was answered with. *)
Definition createTrailError (ev : event answer) : option awserr :=
  match ev with
  | Event c x =>
      match c return answer c -> option awserr with
      | CreateTrailWithContext _ => fun x => match x with inl e => Some e | inr _ => None end
      | _ => fun _ => None
      end x
  end.

(** The access-denied errors on the CloudWatch Logs role or log group. *)
Definition accessDenied (e : awserr) : bool :=
  (String.eqb (Code e) ErrCodeInvalidCloudWatchLogsRoleArnException
   || String.eqb (Code e) ErrCodeInvalidCloudWatchLogsLogGroupArnException)
  && Contains (Message e) "Access denied.".

(** A [CreateTrailWithContext] call that failed with [e], and one that
    returned [t]. *)
Definition denied (input : CreateTrailInput) (e : awserr) : event answer :=
  Event (CreateTrailWithContext input) (inl e).
Definition created (input : CreateTrailInput) (t : CreateTrailOutput) : event answer :=
  Event (CreateTrailWithContext input) (inr t).

(** The error of the last attempt of a retry loop whose attempts failed with
    [denials], [before] being the error known before the loop. *)
Definition lastError (before : option error) (denials : list awserr) : option error :=
  match last denials with
  | Some e => Some (AWS e)
  | None => before
  end.

(** What [resourceCloudTrailCreate] returns when creating the trail has
    failed with [err]. *)
Definition createFailed (d : ResourceData) (err : error)
    : outcome (ResourceData * Diagnostics) :=
  Returns (d, AppendErrorf [] "creating CloudTrail: %s" [] (Some err)).

(** No event of [tr] is a [CreateTrailWithContext] call. *)
Definition noCreateTrail (tr : list (event answer)) : Prop :=
  Forall (fun ev => isCreateTrail (ev_call ev) = false) tr.

End cloudtrail.

(* ===================================================================== *)
(** * Security group rule checks of the acceptance tests (package ec2_test) *)
(* ===================================================================== *)

Module ec2_test.
Import goerr.

(** [ec2.IpRange], [ec2.Ipv6Range], [ec2.UserIdGroupPair], [ec2.PrefixListId] *)
Record IpRange := { CidrIp : option string; IpRange_Description : option string }.
Record Ipv6Range := { CidrIpv6 : option string; Ipv6Range_Description : option string }.
Record UserIdGroupPair := {
  GroupId : option string;
  GroupName : option string;
  UserId : option string;
  UserIdGroupPair_Description : option string
}.
Record PrefixListId := {
  PrefixListId_ : option string;
  PrefixListId_Description : option string
}.

(** [ec2.IpPermission] *)
Record IpPermission := {
  FromPort : option Z;
  ToPort : option Z;
  IpProtocol : option string;
  IpRanges : list IpRange;
  Ipv6Ranges : list Ipv6Range;
  UserIdGroupPairs : list UserIdGroupPair;
  PrefixListIds : list PrefixListId
}.

(** [ec2.SecurityGroup], the fields the check reads. *)
Record SecurityGroup := {
  SecurityGroup_GroupId : option string;
  IpPermissions : list IpPermission;
  IpPermissionsEgress : list IpPermission
}.

(** [terraform.State]: the resources of the root module with the ID of
    their primary instance. *)
Record ResourceState := { Primary_ID : string }.
Record State := { Resources : gmap string ResourceState }.

(** The value of [remaining] after the two nested loops over the entries of
    [p] and of [r]: the number of entries of [p], less one for every pair of
    entries whose values are both set and equal. *)
Definition remainingAfter {A : Type} (value : A -> option string) (ps rs : list A) : Z :=
  fold_left
    (fun remaining ip =>
       fold_left
         (fun remaining rip =>
            match value ip, value rip with
            | Some a, Some b => if String.eqb a b then remaining - 1 else remaining
            | _, _ => remaining
            end)
         rs remaining)
    ps (Z.of_nat (length ps)).

(** Whether the inner loop decrements [remaining] for this pair of entries,
    and the number of entries of [rs] for which it does. *)
Definition bothSetEqual {A : Type} (value : A -> option string) (ip rip : A) : bool :=
  match value ip, value rip with
  | Some a, Some b => String.eqb a b
  | _, _ => false
  end.

Fixpoint occurrences {A : Type} (value : A -> option string) (ip : A) (rs : list A) : nat :=
  match rs with
  | [] => 0
  | rip :: rs => ((if bothSetEqual value ip rip then 1 else 0) + occurrences value ip rs)%nat
  end.

(** [*x != *y] guarded by [x != nil && y != nil]. *)
Definition differ {A} (eqb : A -> A -> bool) (x y : option A) : bool :=
  match x, y with
  | Some a, Some b => negb (eqb a b)
  | _, _ => false
  end.

(** One iteration of the loop over the rules: [true] when the iteration
    reaches [matchingRule = r], [false] when it leaves by a [continue]. *)
Definition reachesMatch (p r : IpPermission) : bool :=
  if differ Z.eqb (ToPort p) (ToPort r) then false
  else if differ Z.eqb (FromPort p) (FromPort r) then false
  else if differ String.eqb (IpProtocol p) (IpProtocol r) then false
  else if 0 <? remainingAfter CidrIp (IpRanges p) (IpRanges r) then false
  else if 0 <? remainingAfter CidrIpv6 (Ipv6Ranges p) (Ipv6Ranges r) then false
  else if 0 <? remainingAfter GroupId (UserIdGroupPairs p) (UserIdGroupPairs r) then false
  else if 0 <? remainingAfter PrefixListId_ (PrefixListIds p) (PrefixListIds r) then false
  else true.

(** The permission looked for when the caller passes nil. *)
Definition defaultPermission : IpPermission :=
  {| FromPort := Some 80;
     ToPort := Some 8000;
     IpProtocol := Some "tcp";
     IpRanges := [ {| CidrIp := Some "10.0.0.0/8"; IpRange_Description := None |} ];
     Ipv6Ranges := [];
     UserIdGroupPairs := [];
     PrefixListIds := [] |}.

Definition rulesOf (group : SecurityGroup) (ruleType : string) : list IpPermission :=
  if String.eqb ruleType "ingress" then IpPermissions group
  else IpPermissionsEgress group.

(** The check function returned by [testAccCheckSecurityGroupRuleAttributes],
    applied to a state: [None] is a nil error. *)
Definition testAccCheckSecurityGroupRuleAttributes (n : string) (group : SecurityGroup)
    (p : option IpPermission) (ruleType : string) (s : State) : option error :=
  match Resources s !! n with
  | None => Some (New "Security Group Rule Not found: %s")
  | Some rs =>
      if String.eqb (Primary_ID rs) "" then Some (New "No Security Group Rule is set")
      else
        let p := default defaultPermission p in
        let rules := rulesOf group ruleType in
        if (Z.of_nat (length rules) =? 0) then Some (New "No IPPerms")
        else
          let matchingRule :=
            fold_left (fun matchingRule r => if reachesMatch p r then Some r else matchingRule)
                      rules None in
          match matchingRule with
          | Some _ => None
          | None => Some (New "Error here\n\tlooking for %s, wasn't found in %s")
          end
  end.

(** ** The comparison as the specification words it *)

(** [p] and [r] agree on a field whenever both sides set it. *)
Definition agree {A} (x y : option A) : Prop :=
  forall a b, x = Some a -> y = Some b -> a = b.

(** Every value listed in [ps] also occurs among [rs]. *)
Definition listedIn {A} (value : A -> option string) (ps rs : list A) : Prop :=
  forall ip c, ip ∈ ps -> value ip = Some c -> exists rip, rip ∈ rs /\ value rip = Some c.

Definition partialMatch (p r : IpPermission) : Prop :=
  agree (FromPort p) (FromPort r) /\
  agree (ToPort p) (ToPort r) /\
  agree (IpProtocol p) (IpProtocol r) /\
  listedIn CidrIp (IpRanges p) (IpRanges r) /\
  listedIn CidrIpv6 (Ipv6Ranges p) (Ipv6Ranges r) /\
  listedIn GroupId (UserIdGroupPairs p) (UserIdGroupPairs r) /\
  listedIn PrefixListId_ (PrefixListIds p) (PrefixListIds r).

(** Every entry of [ps] has its value set, and that value occurs among [rs]. *)
Definition allSetAndListedIn {A} (value : A -> option string) (ps rs : list A) : Prop :=
  forall ip, ip ∈ ps -> exists c rip, value ip = Some c /\ rip ∈ rs /\ value rip = Some c.

Definition partialMatchSet (p r : IpPermission) : Prop :=
  agree (FromPort p) (FromPort r) /\
  agree (ToPort p) (ToPort r) /\
  agree (IpProtocol p) (IpProtocol r) /\
  allSetAndListedIn CidrIp (IpRanges p) (IpRanges r) /\
  allSetAndListedIn CidrIpv6 (Ipv6Ranges p) (Ipv6Ranges r) /\
  allSetAndListedIn GroupId (UserIdGroupPairs p) (UserIdGroupPairs r) /\
  allSetAndListedIn PrefixListId_ (PrefixListIds p) (PrefixListIds r).

(** No value is set by two entries of [rs]. *)
Definition distinctValues {A} (value : A -> option string) (rs : list A) : Prop :=
  NoDup (omap value rs).

Definition distinctEntries (r : IpPermission) : Prop :=
  distinctValues CidrIp (IpRanges r) /\
  distinctValues CidrIpv6 (Ipv6Ranges r) /\
  distinctValues GroupId (UserIdGroupPairs r) /\
  distinctValues PrefixListId_ (PrefixListIds r).

End ec2_test.

(* ===================================================================== *)
(** * IsZero (package types) *)
(* ===================================================================== *)

Module types.

(** Go types, and the values of these types.  [TInt] stands for the signed
    and [TUint] for the unsigned integer types ([uintptr] included), [TFloat]
    for the floating point and [TComplex] for the complex types, of any
    size.  A floating point number is held as its IEEE 754 bits
    ([math.Float64bits] of the number as a [float64]), so that the zero and
    the negative zero are two values; a complex number as the bits of its
    real and of its imaginary part. *)
Inductive GoType : Type :=
| TBool
| TInt
| TUint
| TFloat
| TComplex
| TString
| TPointer (elem : GoType)
| TUnsafePointer
| TChan (elem : GoType)
| TFunc
| TSlice (elem : GoType)
| TMap (key elem : GoType)
| TArray (len : nat) (elem : GoType)
| TStruct (fields : list GoType)
| TInterface.

Inductive GoValue : Type :=
| VBool (b : bool)
| VInt (n : Z)
| VUint (n : N)
| VFloat (bits : N)
| VComplex (real imag : N)
| VString (s : string)
| VPointerNil
| VPointer (addr : nat)
| VUnsafePointerNil
| VUnsafePointer (addr : nat)
| VChanNil
| VChan (addr : nat)
| VFuncNil
| VFunc (addr : nat)
| VSliceNil
| VSlice (elems : list GoValue)
| VMapNil
| VMap (entries : list (GoValue * GoValue))
| VArray (elems : list GoValue)
| VStruct (fields : list GoValue)
| VInterfaceNil
| VInterface (dynamicType : GoType) (dynamicValue : GoValue).

(** The zero value of a type. *)
Fixpoint zeroValue (t : GoType) : GoValue :=
  match t with
  | TBool => VBool false
  | TInt => VInt 0
  | TUint => VUint 0
  | TFloat => VFloat 0
  | TComplex => VComplex 0 0
  | TString => VString ""
  | TPointer _ => VPointerNil
  | TUnsafePointer => VUnsafePointerNil
  | TChan _ => VChanNil
  | TFunc => VFuncNil
  | TSlice _ => VSliceNil
  | TMap _ _ => VMapNil
  | TArray len elem => VArray (repeat (zeroValue elem) len)
  | TStruct fields => VStruct (map zeroValue fields)
  | TInterface => VInterfaceNil
  end.

(** [v] is a value of type [t]. *)
Fixpoint hasType (t : GoType) (v : GoValue) {struct v} : Prop :=
  match v, t with
  | VBool _, TBool => True
  | VInt _, TInt => True
  | VUint _, TUint => True
  | VFloat _, TFloat => True
  | VComplex _ _, TComplex => True
  | VString _, TString => True
  | VPointerNil, TPointer _ => True
  | VPointer _, TPointer _ => True
  | VUnsafePointerNil, TUnsafePointer => True
  | VUnsafePointer _, TUnsafePointer => True
  | VChanNil, TChan _ => True
  | VChan _, TChan _ => True
  | VFuncNil, TFunc => True
  | VFunc _, TFunc => True
  | VSliceNil, TSlice _ => True
  | VSlice elems, TSlice elem =>
      (fix all vs := match vs with [] => True | v :: vs => hasType elem v /\ all vs end) elems
  | VMapNil, TMap _ _ => True
  | VMap entries, TMap key elem =>
      (fix all es :=
         match es with
         | [] => True
         | (k, v) :: es => hasType key k /\ hasType elem v /\ all es
         end) entries
  | VArray elems, TArray len elem =>
      length elems = len /\
      (fix all vs := match vs with [] => True | v :: vs => hasType elem v /\ all vs end) elems
  | VStruct fields, TStruct types =>
      (fix all vs ts {struct vs} :=
         match vs, ts with
         | [], [] => True
         | v :: vs, t :: ts => hasType t v /\ all vs ts
         | _, _ => False
         end) fields types
  | VInterfaceNil, TInterface => True
  | VInterface dynamicType dynamicValue, TInterface =>
      dynamicType <> TInterface /\ hasType dynamicType dynamicValue
  | _, _ => False
  end.

(** [reflect.Value]: a value with its type; the zero Value is [None]. *)
Definition Value := option (GoType * GoValue).

(** [reflect.ValueOf(x)] for [x] of static type [t]: [x] is converted to
    [interface{}], so an interface value gives up its dynamic value and a
    nil interface yields the zero Value. *)
Definition ValueOf (t : GoType) (x : GoValue) : Value :=
  match t with
  | TInterface =>
      match x with
      | VInterface dynamicType dynamicValue => Some (dynamicType, dynamicValue)
      | _ => None
      end
  | _ => Some (t, x)
  end.

(** [reflect.Value.IsZero] on a valid Value of type [t], as the sources at
    hand use it (they still import [golang.org/x/exp/slices]; Go 1.20): an
    integer is compared with 0, of a floating point number the bits
    ([math.Float64bits(v.Float()) == 0]), of a complex number the bits of
    both parts, the length of a string with 0, the elements of an array and
    the fields of a struct are tested one by one, and a value of any other
    kind is tested for nil. *)
Fixpoint Value_IsZero (t : GoType) (v : GoValue) {struct v} : bool :=
  match v, t with
  | VBool b, TBool => negb b
  | VInt n, TInt => n =? 0
  | VUint n, TUint => (n =? 0)%N
  | VFloat bits, TFloat => (bits =? 0)%N
  | VComplex real imag, TComplex => (real =? 0)%N && (imag =? 0)%N
  | VString s, TString => (Z.of_nat (String.length s) =? 0)
  | VArray elems, TArray _ elem => forallb (Value_IsZero elem) elems
  | VStruct fields, TStruct types =>
      (fix all vs ts {struct vs} :=
         match vs, ts with
         | v :: vs, t :: ts => Value_IsZero t v && all vs ts
         | _, _ => true
         end) fields types
  | VPointerNil, TPointer _ => true
  | VUnsafePointerNil, TUnsafePointer => true
  | VChanNil, TChan _ => true
  | VFuncNil, TFunc => true
  | VSliceNil, TSlice _ => true
  | VMapNil, TMap _ _ => true
  | VInterfaceNil, TInterface => true
  | _, _ => false
  end.

(** [IsZero[T](v *T)]: [v] is nil ([None]) or points to a variable of type
    [T] holding [x].  [IsZero] of the zero Value panics. *)
Definition IsZero (T : GoType) (v : option GoValue) : outcome bool :=
  match v with
  | None => Returns true
  | Some x =>
      match ValueOf T x with
      | None => Panics
      | Some (t, x) => Returns (Value_IsZero t x)
      end
  end.

End types.

(* ===================================================================== *)
(** * Sample helpers and environments *)
(* ===================================================================== *)

(** One choice of the helpers and of the data of a resource, on which the
    handlers can be run. *)
Module sample.
Import goerr exec schema.

Fixpoint isNotFound (e : error) : bool :=
  match e with
  | NotFoundError _ => true
  | Wrap _ _ inner => isNotFound inner
  | _ => false
  end.

#[export] Instance helpers : Helpers := {|
  NotFound := fun err => match err with Some e => isNotFound e | None => false end;
  TimedOut := fun err => match err with Some TimeoutError => true | _ => false end;
  ExpandStringSet := fun s => filter (fun v => v ≠ "") (elements s);
  ExpandStringList :=
    omap (fun v => match v with
                   | IString s => if String.eqb s "" then None else Some s
                   | _ => None
                   end);
  create_Name := fun name prefix => if String.eqb name "" then prefix ++ "1" else name;
  getTagsIn := [];
  retryTimeoutResult := fun last => default TimeoutError last;
  propagationTimeout := 120;
  names_CloudTrail := "CloudTrail";
  create_ErrActionReading := "reading";
  ResNameTrail := "Trail"
|}.

(** Resource data with the given id, named after it, in which nothing else
    is configured and nothing has changed, except the user names of an ACL. *)
Definition data (id : string) (isNew : bool) (oldNames newNames : gset string)
    : ResourceData :=
  {| Id := id;
     IsNewResource := isNew;
     GetString := fun key => if String.eqb key "name" then id else "";
     GetInt := fun _ => 0;
     GetBool := fun _ => false;
     GetList := fun _ => [];
     GetOkString := fun _ => None;
     GetOkInt := fun _ => None;
     GetOkBool := fun _ => None;
     GetOkList := fun _ => None;
     GetOkSet := fun _ => None;
     GetOkExistsBool := fun _ => None;
     HasChange := fun _ => false;
     HasChangesExcept := fun _ => negb (bool_decide (oldNames = newNames));
     GetChangeSet := fun _ => (oldNames, newNames);
     Timeout := fun _ => 3600 |}.

(** The environment in which every delete operation fails with the given
    error and everything else succeeds. *)
Definition aclGone (e : awserr) : oracle memorydb.answer :=
  fun _ c =>
    match c with
    | memorydb.CreateACLWithContext _ => None
    | memorydb.UpdateACLWithContext _ => None
    | memorydb.DeleteACLWithContext _ => Some e
    | memorydb.FindACLByName _ => inl (NotFoundError "couldn't find resource")
    | memorydb.waitACLActive _ => None
    | memorydb.waitACLDeleted _ => None
    | memorydb.d_Set _ => None
    end.

Definition fileSystemGone (e : awserr) : oracle fsx.answer :=
  fun _ c =>
    match c with
    | fsx.CreateFileSystemFromBackupWithContext _ => inl e
    | fsx.CreateFileSystemWithContext _ => inl e
    | fsx.UpdateFileSystemWithContext _ => Some e
    | fsx.UpdateVolumeWithContext _ => Some e
    | fsx.DeleteFileSystemWithContext _ => Some e
    | fsx.FindFileSystemByID _ => inl (NotFoundError "couldn't find resource")
    | fsx.FindVolumeByID _ => inl (NotFoundError "couldn't find resource")
    | fsx.waitFileSystemCreated _ _ => None
    | fsx.waitFileSystemUpdated _ _ => None
    | fsx.waitAdministrativeActionCompleted _ _ _ => None
    | fsx.waitVolumeUpdated _ _ => None
    | fsx.waitFileSystemDeleted _ _ => None
    | fsx.setTagsOut _ => tt
    | fsx.d_Set _ => None
    end.

(** A Terraform state holding the security group rule "aws_security_group_rule.test". *)
Definition ruleState : ec2_test.State :=
  {| ec2_test.Resources :=
       {[ "aws_security_group_rule.test" := {| ec2_test.Primary_ID := "sgrule-3403497314" |} ]} |}.

Definition ipRange (cidr : string) : ec2_test.IpRange :=
  {| ec2_test.CidrIp := Some cidr; ec2_test.IpRange_Description := None |}.

(** The tcp permission for ports 80 to 8000 from the given CIDR blocks. *)
Definition tcpPermission (cidrs : list string) : ec2_test.IpPermission :=
  {| ec2_test.FromPort := Some 80;
     ec2_test.ToPort := Some 8000;
     ec2_test.IpProtocol := Some "tcp";
     ec2_test.IpRanges := map ipRange cidrs;
     ec2_test.Ipv6Ranges := [];
     ec2_test.UserIdGroupPairs := [];
     ec2_test.PrefixListIds := [] |}.

(** The security group with the given ingress rules and no egress rule. *)
Definition groupWithIngress (rules : list ec2_test.IpPermission) : ec2_test.SecurityGroup :=
  {| ec2_test.SecurityGroup_GroupId := Some "sg-12345";
     ec2_test.IpPermissions := rules;
     ec2_test.IpPermissionsEgress := [] |}.

(** The disk IOPS configuration with mode USER_PROVISIONED and 3000 IOPS, as
    the configuration holds it. *)
Definition diskIops : list iface :=
  [IMap (<["iops" := IInt 3000]> (<["mode" := IString "USER_PROVISIONED"]> ∅))].

(** The environment in which the ACL exists and every operation succeeds. *)
Definition aclPresent (acl : memorydb.ACL) : oracle memorydb.answer :=
  fun _ c =>
    match c with
    | memorydb.CreateACLWithContext _ => None
    | memorydb.UpdateACLWithContext _ => None
    | memorydb.DeleteACLWithContext _ => None
    | memorydb.FindACLByName _ => inr acl
    | memorydb.waitACLActive _ => None
    | memorydb.waitACLDeleted _ => None
    | memorydb.d_Set _ => None
    end.

Definition fileSystem : fsx.FileSystem :=
  {| fsx.FileSystemId := Some "fs-0123";
     fsx.ResourceARN := None; fsx.DNSName := None; fsx.StorageType := Some "SSD";
     fsx.KmsKeyId := None; fsx.NetworkInterfaceIds := []; fsx.OwnerId := None;
     fsx.StorageCapacity := Some 64; fsx.SubnetIds := []; fsx.VpcId := None;
     fsx.Tags := [];
     fsx.WindowsConfiguration := false; fsx.LustreConfiguration := false;
     fsx.OntapConfiguration := false;
     fsx.OpenZFSConfiguration :=
       Some {| fsx.AutomaticBackupRetentionDays := None;
               fsx.CopyTagsToBackups := None; fsx.CopyTagsToVolumes := None;
               fsx.DailyAutomaticBackupStartTime := None;
               fsx.DeploymentType := Some "SINGLE_AZ_1";
               fsx.DiskIopsConfiguration_ := None;
               fsx.RootVolumeId := Some "fsvol-0123";
               fsx.ThroughputCapacity := Some 64;
               fsx.WeeklyMaintenanceStartTime := None |} |}.

(** The environment in which the file system exists and every operation
    succeeds. *)
Definition fileSystemPresent : oracle fsx.answer :=
  fun _ c =>
    match c with
    | fsx.CreateFileSystemFromBackupWithContext _ =>
        inr {| fsx.Output_FileSystem := Some fileSystem |}
    | fsx.CreateFileSystemWithContext _ =>
        inr {| fsx.Output_FileSystem := Some fileSystem |}
    | fsx.UpdateFileSystemWithContext _ => None
    | fsx.UpdateVolumeWithContext _ => None
    | fsx.DeleteFileSystemWithContext _ => None
    | fsx.FindFileSystemByID _ => inr fileSystem
    | fsx.FindVolumeByID _ => inr {| fsx.VolumeId := Some "fsvol-0123" |}
    | fsx.waitFileSystemCreated _ _ => None
    | fsx.waitFileSystemUpdated _ _ => None
    | fsx.waitAdministrativeActionCompleted _ _ _ => None
    | fsx.waitVolumeUpdated _ _ => None
    | fsx.waitFileSystemDeleted _ _ => None
    | fsx.setTagsOut _ => tt
    | fsx.d_Set _ => None
    end.

Definition trail (name : string) : cloudtrail.Trail :=
  {| cloudtrail.Name := Some name;
     cloudtrail.S3BucketName := Some "bucket"; cloudtrail.S3KeyPrefix := None;
     cloudtrail.CloudWatchLogsRoleArn := None;
     cloudtrail.CloudWatchLogsLogGroupArn := None;
     cloudtrail.IncludeGlobalServiceEvents := Some true;
     cloudtrail.IsMultiRegionTrail := Some false;
     cloudtrail.IsOrganizationTrail := Some false;
     cloudtrail.SnsTopicName := None;
     cloudtrail.LogFileValidationEnabled := Some false;
     cloudtrail.KmsKeyId := None; cloudtrail.TrailARN := None;
     cloudtrail.HomeRegion := None;
     cloudtrail.HasCustomEventSelectors := Some false;
     cloudtrail.HasInsightSelectors := Some false |}.

(** The environment in which every operation succeeds, every described
    trail exists, and a retry has time for [attempts] attempts. *)
Definition trailPresent (attempts : nat) : oracle cloudtrail.answer :=
  fun _ c =>
    match c with
    | cloudtrail.CreateTrailWithContext input =>
        inr {| cloudtrail.o_Name := Some (cloudtrail.c_Name input) |}
    | cloudtrail.UpdateTrailWithContext _ => None
    | cloudtrail.DeleteTrailWithContext _ => None
    | cloudtrail.DescribeTrailsWithContext names => inr (map trail names)
    | cloudtrail.GetTrailStatusWithContext _ => inr (Some true)
    | cloudtrail.GetEventSelectorsWithContext _ => inr tt
    | cloudtrail.GetInsightSelectorsWithContext _ =>
        (Some {| cloudtrail.o_InsightSelectors :=
                   Some [Some {| selectors.InsightType := Some "ApiCallRateInsight" |}] |},
         None)
    | cloudtrail.StartLoggingWithContext _ => None
    | cloudtrail.StopLoggingWithContext _ => None
    | cloudtrail.PutEventSelectorsWithContext _ _ => None
    | cloudtrail.PutInsightSelectorsWithContext _ => None
    | cloudtrail.Validate _ _ => None
    | cloudtrail.d_Set _ => None
    | cloudtrail.attemptsWithin _ => attempts
    end.

(** As [trailPresent], except that the calls of [CreateTrailWithContext]
    made among the first [denials] calls after the question about the
    attempts fail with access denied on the CloudWatch Logs role. *)
Definition trailDenied (denials attempts : nat) : oracle cloudtrail.answer :=
  fun n c =>
    match c return cloudtrail.answer c with
    | cloudtrail.CreateTrailWithContext input =>
        if (n <=? denials)%nat
        then inl (AwsErr "InvalidCloudWatchLogsRoleArnException"
                         "Access denied. Check the trust relationships for your role.")
        else inr {| cloudtrail.o_Name := Some (cloudtrail.c_Name input) |}
    | c => trailPresent attempts n c
    end.

(** The environment in which no trail exists and every operation succeeds. *)
Definition noTrails : oracle cloudtrail.answer :=
  fun _ c =>
    match c with
    | cloudtrail.CreateTrailWithContext input =>
        inr {| cloudtrail.o_Name := Some (cloudtrail.c_Name input) |}
    | cloudtrail.UpdateTrailWithContext _ => None
    | cloudtrail.DeleteTrailWithContext _ => None
    | cloudtrail.DescribeTrailsWithContext _ => inr []
    | cloudtrail.GetTrailStatusWithContext _ => inr (Some true)
    | cloudtrail.GetEventSelectorsWithContext _ => inr tt
    | cloudtrail.GetInsightSelectorsWithContext _ =>
        (Some {| cloudtrail.o_InsightSelectors :=
                   Some [Some {| selectors.InsightType := Some "ApiCallRateInsight" |}] |},
         None)
    | cloudtrail.StartLoggingWithContext _ => None
    | cloudtrail.StopLoggingWithContext _ => None
    | cloudtrail.PutEventSelectorsWithContext _ _ => None
    | cloudtrail.PutInsightSelectorsWithContext _ => None
    | cloudtrail.Validate _ _ => None
    | cloudtrail.d_Set _ => None
    | cloudtrail.attemptsWithin _ => 1%nat
    end.
End sample.

(* ===================================================================== *)
(** * Observations on executions *)
(* ===================================================================== *)

(** What the properties of the handlers are stated with. *)
Module observe.
Import goerr exec schema.

(** A call that reads from the service or works on the resource data. *)
Definition readsOnly (k : callKind) : bool :=
  match k with
  | Reading | Local => true
  | Mutating | Waiter => false
  end.

Section Stops.
Context {call : Type} {answer : call -> Type}.

(** No call is made after an event that satisfies [P]. *)
Definition stopsAt (P : event answer -> bool) (tr : list (event answer)) : Prop :=
  forall pre ev post, tr = (pre ++ ev :: post)%list -> P ev = true -> post = [].

Fixpoint stopsAtb (P : event answer -> bool) (tr : list (event answer)) : bool :=
  match tr with
  | [] => true
  | ev :: post =>
      (if P ev then match post with [] => true | _ => false end else true)
      && stopsAtb P post
  end.
End Stops.

(** A mutating call or a wait function of the MemoryDB ACL handlers, or of
    the FSx OpenZFS file system handlers, that returned an error. *)
Definition aclCallFailed (ev : event memorydb.answer) : bool :=
  negb (readsOnly (memorydb.kind (ev_call ev))) && memorydb.failed ev.
Definition fileSystemCallFailed (ev : event fsx.answer) : bool :=
  negb (readsOnly (fsx.kind (ev_call ev))) && fsx.failed ev.

(** The delete call of the event failed with the not-found code. *)
Definition aclNotFound (ev : event memorydb.answer) : bool :=
  match ev with
  | Event c x =>
      match c return memorydb.answer c -> bool with
      | memorydb.DeleteACLWithContext _ =>
          fun x => ErrCodeEquals (sdkErr x) memorydb.ErrCodeACLNotFoundFault
      | _ => fun _ => false
      end x
  end.
Definition fileSystemNotFound (ev : event fsx.answer) : bool :=
  match ev with
  | Event c x =>
      match c return fsx.answer c -> bool with
      | fsx.DeleteFileSystemWithContext _ =>
          fun x => ErrCodeEquals (sdkErr x) fsx.ErrCodeFileSystemNotFound
      | _ => fun _ => false
      end x
  end.

(** What is shown of a handler: no call follows a failed call, and an
    execution that returns without error diagnostics has no failed call
    other than one that [notFound] recognises. *)
Definition failsFast {call : Type} {answer : call -> Type}
    (callFailed notFound : event answer -> bool)
    (tr : list (event answer)) (r : outcome (ResourceData * Diagnostics)) : Prop :=
  stopsAt callFailed tr
  /\ forall ev, ev ∈ tr -> callFailed ev = true -> succeeded r -> notFound ev = true.

(** The calls that update and that look up the root volume. *)
Definition isUpdateVolume (c : fsx.call) : bool :=
  match c with fsx.UpdateVolumeWithContext _ => true | _ => false end.
Definition isFindVolume (c : fsx.call) : bool :=
  match c with fsx.FindVolumeByID _ => true | _ => false end.

(** The file system is not an OpenZFS file system: it carries the
    configuration of another type, or no OpenZFS configuration. *)
Definition notOpenZFS (filesystem : fsx.FileSystem) : Prop :=
  fsx.WindowsConfiguration filesystem = true \/ fsx.LustreConfiguration filesystem = true
  \/ fsx.OntapConfiguration filesystem = true \/ fsx.OpenZFSConfiguration filesystem = None.

(** The entry under [key] of the flattened disk IOPS configuration that was
    expanded from the block [conf]. *)
Definition diskIopsEntry (conf : gmap string iface) (key : string) : option iface :=
  if String.eqb key "mode" then
    match conf !! "mode" with
    | Some (IString v) => if 0 <? Z.of_nat (String.length v) then Some (IString v) else None
    | _ => None
    end
  else if String.eqb key "iops" then
    match conf !! "iops" with
    | Some (IInt v) => Some (IInt64 v)
    | _ => None
    end
  else None.

End observe.

(** The calls of the Update and Create handlers and the plan. *)
Module changes.
Import goerr exec schema.

Section WithHelpers.
Context `{Helpers}.

(** What the plan must hold for [resourceACLUpdate] to make the call. *)
Definition aclUpdateCall (d : ResourceData) (c : memorydb.call) : Prop :=
  match c with
  | memorydb.CreateACLWithContext _ | memorydb.DeleteACLWithContext _
  | memorydb.waitACLDeleted _ => False
  | memorydb.UpdateACLWithContext input =>
      HasChangesExcept d ["tags"; "tags_all"] = true /\ memorydb.ACLName input = Id d
  | memorydb.waitACLActive name =>
      HasChangesExcept d ["tags"; "tags_all"] = true /\ name = Id d
  | memorydb.FindACLByName name => name = Id d
  | memorydb.d_Set _ => True
  end.

(** What the plan must hold for [resourceOpenzfsFileSystemUpdate] to make
    the call. *)
Definition fileSystemUpdateCall (d : ResourceData) (c : fsx.call) : Prop :=
  match c with
  | fsx.CreateFileSystemFromBackupWithContext _ | fsx.CreateFileSystemWithContext _
  | fsx.DeleteFileSystemWithContext _
  | fsx.waitFileSystemCreated _ _ | fsx.waitFileSystemDeleted _ _ => False
  | fsx.UpdateFileSystemWithContext input =>
      HasChangesExcept d ["tags_all"; "tags"] = true
      /\ fsx.updateFileSystemInput d = Returns input
  | fsx.waitFileSystemUpdated id _ | fsx.waitAdministrativeActionCompleted id _ _ =>
      HasChangesExcept d ["tags_all"; "tags"] = true /\ id = Id d
  | fsx.UpdateVolumeWithContext input =>
      HasChangesExcept d ["tags_all"; "tags"] = true
      /\ HasChange d "root_volume_configuration" = true
      /\ fsx.v_VolumeId input = GetString d "root_volume_id"
  | fsx.waitVolumeUpdated id _ =>
      HasChangesExcept d ["tags_all"; "tags"] = true
      /\ HasChange d "root_volume_configuration" = true
      /\ id = GetString d "root_volume_id"
  | fsx.FindFileSystemByID id => id = Id d
  | fsx.FindVolumeByID _ | fsx.setTagsOut _ | fsx.d_Set _ => True
  end.

(** A selector of an existing trail has changed. *)
Definition selectorChanged (d : ResourceData) (key : string) (trailName : string) : Prop :=
  IsNewResource d = false /\ HasChange d key = true /\ trailName = Id d.

(** What the plan must hold for [resourceCloudTrailUpdate] to make the
    call. *)
Definition trailUpdateCall (d : ResourceData) (c : cloudtrail.call) : Prop :=
  let trailChanged :=
    HasChangesExcept d ["tags"; "tags_all"; "insight_selector";
                        "advanced_event_selector"; "event_selector"; "enable_logging"]
    = true in
  match c with
  | cloudtrail.CreateTrailWithContext _ | cloudtrail.DeleteTrailWithContext _ => False
  | cloudtrail.attemptsWithin timeout => trailChanged /\ timeout = propagationTimeout
  | cloudtrail.UpdateTrailWithContext input =>
      trailChanged /\ input = cloudtrail.updateTrailInput d
  | cloudtrail.StartLoggingWithContext name =>
      HasChange d "enable_logging" = true /\ GetBool d "enable_logging" = true
      /\ name = Id d
  | cloudtrail.StopLoggingWithContext name =>
      HasChange d "enable_logging" = true /\ GetBool d "enable_logging" = false
      /\ name = Id d
  | cloudtrail.Validate name cloudtrail.EventSelectors
  | cloudtrail.PutEventSelectorsWithContext name cloudtrail.EventSelectors =>
      selectorChanged d "event_selector" name
  | cloudtrail.Validate name cloudtrail.AdvancedEventSelectors
  | cloudtrail.PutEventSelectorsWithContext name cloudtrail.AdvancedEventSelectors =>
      selectorChanged d "advanced_event_selector" name
  | cloudtrail.Validate name cloudtrail.InsightSelectors
  | cloudtrail.PutInsightSelectorsWithContext name =>
      selectorChanged d "insight_selector" name
  | cloudtrail.PutEventSelectorsWithContext _ cloudtrail.InsightSelectors => False
  | cloudtrail.DescribeTrailsWithContext _ | cloudtrail.GetTrailStatusWithContext _
  | cloudtrail.GetEventSelectorsWithContext _ | cloudtrail.GetInsightSelectorsWithContext _
  | cloudtrail.d_Set _ => True
  end.

(** What the configuration must hold for [resourceCloudTrailCreate] to make
    the call. *)
Definition trailCreateCall (d : ResourceData) (c : cloudtrail.call) : Prop :=
  match c with
  | cloudtrail.UpdateTrailWithContext _ | cloudtrail.DeleteTrailWithContext _
  | cloudtrail.StopLoggingWithContext _ => False
  | cloudtrail.attemptsWithin timeout => timeout = propagationTimeout
  | cloudtrail.CreateTrailWithContext input => input = cloudtrail.createTrailInput d
  | cloudtrail.StartLoggingWithContext _ => GetOkBool d "enable_logging" = Some true
  | cloudtrail.Validate _ cloudtrail.EventSelectors
  | cloudtrail.PutEventSelectorsWithContext _ cloudtrail.EventSelectors =>
      is_Some (GetOkList d "event_selector")
  | cloudtrail.Validate _ cloudtrail.AdvancedEventSelectors
  | cloudtrail.PutEventSelectorsWithContext _ cloudtrail.AdvancedEventSelectors =>
      is_Some (GetOkList d "advanced_event_selector")
  | cloudtrail.Validate _ cloudtrail.InsightSelectors
  | cloudtrail.PutInsightSelectorsWithContext _ =>
      is_Some (GetOkList d "insight_selector")
  | cloudtrail.PutEventSelectorsWithContext _ cloudtrail.InsightSelectors => False
  | cloudtrail.DescribeTrailsWithContext _ | cloudtrail.GetTrailStatusWithContext _
  | cloudtrail.GetEventSelectorsWithContext _ | cloudtrail.GetInsightSelectorsWithContext _
  | cloudtrail.d_Set _ => True
  end.
End WithHelpers.

(** The calls of [resourceCloudTrailRead]. *)
Definition isReadCall (c : cloudtrail.call) : bool :=
  match c with
  | cloudtrail.DescribeTrailsWithContext _ | cloudtrail.GetTrailStatusWithContext _
  | cloudtrail.GetEventSelectorsWithContext _ | cloudtrail.GetInsightSelectorsWithContext _
  | cloudtrail.d_Set _ => true
  | _ => false
  end.
End changes.

(** The calls of the CloudTrail handlers. *)
Module trails.
Import goerr exec schema cloudtrail.

(** The trail is the one [resourceCloudTrailRead] looks for. *)
Definition named (id : string) (c : Trail) : Prop := StringValue (Name c) = id.

Definition isUpdateTrail (c : call) : bool :=
  match c with UpdateTrailWithContext _ => true | _ => false end.

(** An [UpdateTrailWithContext] call that failed with [e], and one that
    succeeded. *)
Definition updateDenied (input : UpdateTrailInput) (e : awserr) : event answer :=
  Event (UpdateTrailWithContext input) (Some e).
Definition updated (input : UpdateTrailInput) : event answer :=
  Event (UpdateTrailWithContext input) None.

(** What [resourceCloudTrailUpdate] returns when updating the trail has
    failed with [err]. *)
Definition updateFailed (d : ResourceData) (err : error)
    : outcome (ResourceData * Diagnostics) :=
  Returns (d, AppendErrorf [] "updating CloudTrail Trail (%s): %s" [Id d] (Some err)).

(** No event of [tr] is an [UpdateTrailWithContext] call. *)
Definition noUpdateTrail (tr : list (event answer)) : Prop :=
  Forall (fun ev => isUpdateTrail (ev_call ev) = false) tr.

(** What the [GetInsightSelectorsWithContext] calls of an execution were
    answered: the output, which may be nil, and the error. *)
Definition insightAnswers (tr : list (event answer))
    : list (option GetInsightSelectorsOutput * option awserr) :=
  omap (fun ev =>
          match ev with
          | Event c x =>
              match c return
                answer c -> option (option GetInsightSelectorsOutput * option awserr) with
              | GetInsightSelectorsWithContext _ => fun x => Some x
              | _ => fun _ => None
              end x
          end) tr.

(** One of the selectors of the output is nil. *)
Definition nilSelector (output : GetInsightSelectorsOutput) : bool :=
  existsb (fun raw => negb (isSome raw)) (default [] (o_InsightSelectors output)).

End trails.

(* ===================================================================== *)
(** * The root volume configuration (package fsx) *)
(* ===================================================================== *)

Module fsx_volume.
Import config.

(** [fsx.OpenZFSUserOrGroupQuota] *)
Record OpenZFSUserOrGroupQuota := {
  q_Id : option Z;
  q_StorageCapacityQuotaGiB : option Z;
  q_Type : option string
}.

(** [fsx.OpenZFSClientConfiguration] *)
Record OpenZFSClientConfiguration := {
  Clients : option string;
  Options : Strings
}.

(** [fsx.OpenZFSNfsExport]; a slice of pointers is a list, possibly nil, of
    elements that may be nil. *)
Record OpenZFSNfsExport := {
  ClientConfigurations : option (list (option OpenZFSClientConfiguration))
}.

(** [fsx.OpenZFSCreateRootVolumeConfiguration] *)
Record OpenZFSCreateRootVolumeConfiguration := {
  c_CopyTagsToSnapshots : option bool;
  c_DataCompressionType : option string;
  c_NfsExports : option (list (option OpenZFSNfsExport));
  c_ReadOnly : option bool;
  c_RecordSizeKiB : option Z;
  c_UserAndGroupQuotas : option (list (option OpenZFSUserOrGroupQuota))
}.

(** [fsx.UpdateOpenZFSVolumeConfiguration] *)
Record UpdateOpenZFSVolumeConfiguration := {
  u_DataCompressionType : option string;
  u_NfsExports : option (list (option OpenZFSNfsExport));
  u_ReadOnly : option bool;
  u_RecordSizeKiB : option Z;
  u_UserAndGroupQuotas : option (list (option OpenZFSUserOrGroupQuota))
}.

(** [fsx.OpenZFSVolumeConfiguration], the fields that are flattened. *)
Record OpenZFSVolumeConfiguration := {
  CopyTagsToSnapshots : option bool;
  DataCompressionType : option string;
  NfsExports : option (list (option OpenZFSNfsExport));
  ReadOnly : option bool;
  RecordSizeKiB : option Z;
  UserAndGroupQuotas : option (list (option OpenZFSUserOrGroupQuota))
}.

(** [fsx.Volume] *)
Record Volume := { OpenZFSConfiguration : option OpenZFSVolumeConfiguration }.

Definition expandOpenzfsUserAndGroupQuota (conf : gmap string value)
    : option OpenZFSUserOrGroupQuota :=
  if Z.of_nat (size conf) <? 1 then None
  else
    Some {| q_Id := assertInt (conf !! "id");
            q_StorageCapacityQuotaGiB := assertInt (conf !! "storage_capacity_quota_gib");
            q_Type := assertString (conf !! "type") |}.

Definition expandOpenzfsUserAndGroupQuotas (cfg : list value)
    : outcome (option (list (option OpenZFSUserOrGroupQuota))) :=
  outcome_map Some
    (fold_left
       (fun quotas quota =>
          outcome_bind quotas (fun quotas =>
            match quota with
            | VMap conf =>
                let expandedQuota := expandOpenzfsUserAndGroupQuota conf in
                match expandedQuota with
                | Some _ => Returns (quotas ++ [expandedQuota])%list
                | None => Returns quotas
                end
            | _ => Panics
            end))
       cfg (Returns [])).

Section WithFlex.
Context `{Flex}.

Definition expandOpenzfsClientConfiguration (conf : gmap string value)
    : option OpenZFSClientConfiguration :=
  Some {| Clients := match assertString (conf !! "clients") with
                     | Some v => if 0 <? Z.of_nat (String.length v) then Some v else None
                     | None => None
                     end;
          Options := match assertList (conf !! "options") with
                     | Some v => ExpandStringList v
                     | None => None
                     end |}.

Definition expandOpenzfsClinetConfigurations (cfg : list value)
    : outcome (option (list (option OpenZFSClientConfiguration))) :=
  outcome_map Some
    (fold_left
       (fun configurations configuration =>
          outcome_bind configurations (fun configurations =>
            match configuration with
            | VMap conf =>
                let expandedConfiguration := expandOpenzfsClientConfiguration conf in
                match expandedConfiguration with
                | Some _ => Returns (configurations ++ [expandedConfiguration])%list
                | None => Returns configurations
                end
            | _ => Panics
            end))
       cfg (Returns [])).

Definition expandOpenzfsNFSExport (cfg : gmap string value)
    : outcome (option OpenZFSNfsExport) :=
  match cfg !! "client_configurations" with
  | Some (VSet v) =>
      outcome_map (fun configurations => Some {| ClientConfigurations := configurations |})
        (expandOpenzfsClinetConfigurations v)
  | Some _ => Panics
  | None => Returns (Some {| ClientConfigurations := None |})
  end.

Definition expandOpenzfsNFSExports (cfg : list value)
    : outcome (option (list (option OpenZFSNfsExport))) :=
  outcome_map Some
    (fold_left
       (fun exports export =>
          outcome_bind exports (fun exports =>
            match export with
            | VMap conf =>
                outcome_bind (expandOpenzfsNFSExport conf) (fun expandedExport =>
                  match expandedExport with
                  | Some _ => Returns (exports ++ [expandedExport])%list
                  | None => Returns exports
                  end)
            | _ => Panics
            end))
       cfg (Returns [])).

Definition expandOpenzfsRootVolumeConfiguration (cfg : list value)
    : outcome (option OpenZFSCreateRootVolumeConfiguration) :=
  match cfg with
  | [] => Returns None
  | VMap conf :: _ =>
      outcome_bind
        match conf !! "user_and_group_quotas" with
        | Some (VSet v) => expandOpenzfsUserAndGroupQuotas v
        | Some _ => Panics
        | None => Returns None
        end (fun quotas =>
      outcome_bind
        match assertList (conf !! "nfs_exports") with
        | Some v => expandOpenzfsNFSExports v
        | None => Returns None
        end (fun exports =>
      Returns (Some
        {| c_CopyTagsToSnapshots := assertBool (conf !! "copy_tags_to_snapshots");
           c_DataCompressionType := assertString (conf !! "data_compression_type");
           c_ReadOnly := assertBool (conf !! "read_only");
           c_RecordSizeKiB := assertInt (conf !! "record_size_kib");
           c_UserAndGroupQuotas := quotas;
           c_NfsExports := exports |})))
  | _ :: _ => Panics
  end.

Definition expandOpenzfsUpdateRootVolumeConfiguration (cfg : list value)
    : outcome (option UpdateOpenZFSVolumeConfiguration) :=
  match cfg with
  | [] => Returns None
  | VMap conf :: _ =>
      outcome_bind
        match conf !! "user_and_group_quotas" with
        | Some (VSet v) => expandOpenzfsUserAndGroupQuotas v
        | Some _ => Panics
        | None => Returns None
        end (fun quotas =>
      outcome_bind
        match assertList (conf !! "nfs_exports") with
        | Some v => expandOpenzfsNFSExports v
        | None => Returns None
        end (fun exports =>
      Returns (Some
        {| u_DataCompressionType := assertString (conf !! "data_compression_type");
           u_ReadOnly := assertBool (conf !! "read_only");
           u_RecordSizeKiB := assertInt (conf !! "record_size_kib");
           u_UserAndGroupQuotas := quotas;
           u_NfsExports := exports |})))
  | _ :: _ => Panics
  end.

(** [if len(out) > 0 { return out }; return nil] *)
Definition orNil {A} (out : list A) : option (list A) :=
  if 0 <? Z.of_nat (length out) then Some out else None.

Definition flattenOpenzfsFileUserAndGroupQuotas
    (rs : option (list (option OpenZFSUserOrGroupQuota)))
    : option (list (gmap string value)) :=
  orNil
    (fold_left
       (fun quotas quota =>
          match quota with
          | Some quota =>
              let cfg : gmap string value := ∅ in
              let cfg := <["id" := VInt64 (Int64Value (q_Id quota))]> cfg in
              let cfg := <["storage_capacity_quota_gib" :=
                             VInt64 (Int64Value (q_StorageCapacityQuotaGiB quota))]> cfg in
              let cfg := <["type" := VString (StringValue (q_Type quota))]> cfg in
              (quotas ++ [cfg])%list
          | None => quotas
          end)
       (default [] rs) []).

Definition flattenOpenzfsClientConfigurations
    (rs : option (list (option OpenZFSClientConfiguration)))
    : option (list (gmap string value)) :=
  orNil
    (fold_left
       (fun configurations configuration =>
          match configuration with
          | Some configuration =>
              let cfg : gmap string value := ∅ in
              let cfg :=
                <["clients" := VString (StringValue (Clients configuration))]> cfg in
              let cfg :=
                <["options" := VList (FlattenStringList (Options configuration))]> cfg in
              (configurations ++ [cfg])%list
          | None => configurations
          end)
       (default [] rs) []).

Definition flattenOpenzfsFileNFSExports (rs : option (list (option OpenZFSNfsExport)))
    : option (list (gmap string value)) :=
  orNil
    (fold_left
       (fun exports export =>
          match export with
          | Some export =>
              let cfg : gmap string value := ∅ in
              let cfg :=
                <["client_configurations" :=
                    VMaps (flattenOpenzfsClientConfigurations
                             (ClientConfigurations export))]> cfg in
              (exports ++ [cfg])%list
          | None => exports
          end)
       (default [] rs) []).

Definition flattenOpenzfsRootVolumeConfiguration (rs : option Volume)
    : outcome (list value) :=
  match rs with
  | None => Returns []
  | Some rs =>
      match OpenZFSConfiguration rs with
      | None => Panics
      | Some c =>
          let m : gmap string value := ∅ in
          let m := match CopyTagsToSnapshots c with
                   | Some _ =>
                       <["copy_tags_to_snapshots" :=
                           VBool (BoolValue (CopyTagsToSnapshots c))]> m
                   | None => m
                   end in
          let m := match DataCompressionType c with
                   | Some _ =>
                       <["data_compression_type" :=
                           VString (StringValue (DataCompressionType c))]> m
                   | None => m
                   end in
          let m := match NfsExports c with
                   | Some _ =>
                       <["nfs_exports" := VMaps (flattenOpenzfsFileNFSExports (NfsExports c))]> m
                   | None => m
                   end in
          let m := match ReadOnly c with
                   | Some _ => <["read_only" := VBool (BoolValue (ReadOnly c))]> m
                   | None => m
                   end in
          let m := match RecordSizeKiB c with
                   | Some _ =>
                       <["record_size_kib" := VInt64 (Int64Value (RecordSizeKiB c))]> m
                   | None => m
                   end in
          let m := match UserAndGroupQuotas c with
                   | Some _ =>
                       <["user_and_group_quotas" :=
                           VMaps (flattenOpenzfsFileUserAndGroupQuotas
                                    (UserAndGroupQuotas c))]> m
                   | None => m
                   end in
          Returns [VMap m]
      end
  end.
End WithFlex.

(** The part of a create configuration that an update configuration has. *)
Definition updateOf (c : OpenZFSCreateRootVolumeConfiguration)
    : UpdateOpenZFSVolumeConfiguration :=
  {| u_DataCompressionType := c_DataCompressionType c;
     u_NfsExports := c_NfsExports c;
     u_ReadOnly := c_ReadOnly c;
     u_RecordSizeKiB := c_RecordSizeKiB c;
     u_UserAndGroupQuotas := c_UserAndGroupQuotas c |}.

(** The block of one quota, of one client configuration and of one NFS
    export as the configuration holds them, [int] giving the Go type of the
    numbers and [blocks] that of a collection of blocks. *)
Definition quotaBlock (int : Z -> value) (quota : Z * Z * string) : gmap string value :=
  let '(id, capacity, type) := quota in
  <["type" := VString type]>
    (<["storage_capacity_quota_gib" := int capacity]> (<["id" := int id]> ∅)).

Definition clientBlock (clients : string) (options : list value) : gmap string value :=
  <["options" := VList options]> (<["clients" := VString clients]> ∅).

Definition exportBlock (configurations : value) : gmap string value :=
  <["client_configurations" := configurations]> ∅.

(** An NFS export with the given client configurations, as the
    configuration holds it, and as it is flattened after having been
    expanded. *)
Definition configuredExport (clients : list (string * list value)) : value :=
  VMap (exportBlock (VSet (map (fun c => VMap (clientBlock c.1 c.2)) clients))).

(** A slice of maps, nil when there is none. *)
Definition maps (l : list (gmap string value)) : option (list (gmap string value)) :=
  match l with
  | [] => None
  | _ => Some l
  end.

Definition flattenedExport `{Flex} (clients : list (string * list value))
    : gmap string value :=
  exportBlock
    (VMaps (maps (map (fun c => clientBlock c.1 (FlattenStringList (ExpandStringList c.2)))
                      clients))).

(** The entry of the flattened root volume configuration under [key]. *)
Definition flattenedEntry `{Flex} (c : OpenZFSVolumeConfiguration) (key : string)
    : option value :=
  if String.eqb key "copy_tags_to_snapshots" then VBool <$> CopyTagsToSnapshots c
  else if String.eqb key "data_compression_type" then VString <$> DataCompressionType c
  else if String.eqb key "nfs_exports"
  then (fun x => VMaps (flattenOpenzfsFileNFSExports (Some x))) <$> NfsExports c
  else if String.eqb key "read_only" then VBool <$> ReadOnly c
  else if String.eqb key "record_size_kib" then VInt64 <$> RecordSizeKiB c
  else if String.eqb key "user_and_group_quotas"
  then (fun x => VMaps (flattenOpenzfsFileUserAndGroupQuotas (Some x)))
         <$> UserAndGroupQuotas c
  else None.

End fsx_volume.

(* ===================================================================== *)
(** * Validation of the plan of a file system (package fsx) *)
(* ===================================================================== *)

Module fsx_diff.
Import schema.

(** [*schema.ResourceDiff], with typed getters as [ResourceData] has them. *)
Record ResourceDiff := {
  Get_string : string -> string;
  Get_int : string -> Z;
  GetOk_list : string -> option (list iface)
}.

(** The plan [d] with another deployment type. *)
Definition withDeploymentType (d : ResourceDiff) (deploymentType : string) : ResourceDiff :=
  {| Get_string := fun key =>
       if String.eqb key "deployment_type" then deploymentType else Get_string d key;
     Get_int := Get_int d;
     GetOk_list := GetOk_list d |}.

(** [fsx.OpenZFSDeploymentTypeSingleAz1] and [fsx.OpenZFSDeploymentTypeSingleAz2] *)
Definition OpenZFSDeploymentTypeSingleAz1 := "SINGLE_AZ_1".
Definition OpenZFSDeploymentTypeSingleAz2 := "SINGLE_AZ_2".

(** The error [fmt.Errorf(format, args...)] returns: the format and the
    arguments, not rendered. *)
Inductive formatArg :=
| ArgString (s : string)
| ArgInt (n : Z)
| ArgInts (l : list Z).
Record formatError := Errorf { format : string; args : list formatArg }.

Definition validateDiskConfigurationIOPS (d : ResourceDiff) : outcome (option formatError) :=
  let deploymentType := Get_string d "deployment_type" in
  match GetOk_list d "disk_iops_configuration" with
  | Some diskConfiguration =>
      if 0 <? Z.of_nat (length diskConfiguration) then
        match diskConfiguration with
        | IMap m :: _ =>
            match fsx.assertInt (m !! "iops") with
            | Some v =>
                if String.eqb deploymentType OpenZFSDeploymentTypeSingleAz1 then
                  if (v <? 0) || (160000 <? v) then
                    Returns (Some (Errorf
                      "expected disk_iops_configuration.0.iops to be in the range (0 - 160000) when deployment_type (%s), got %d"
                      [ArgString OpenZFSDeploymentTypeSingleAz1; ArgInt v]))
                  else Returns None
                else if String.eqb deploymentType OpenZFSDeploymentTypeSingleAz2 then
                  if (v <? 0) || (350000 <? v) then
                    Returns (Some (Errorf
                      "expected disk_iops_configuration.0.iops to be in the range (0 - 350000) when deployment_type (%s), got %d"
                      [ArgString OpenZFSDeploymentTypeSingleAz2; ArgInt v]))
                  else Returns None
                else Returns None
            | None => Returns None
            end
        | _ => Panics
        end
      else Returns None
  | None => Returns None
  end.

(** [slices.Contains] *)
Definition Contains (s : list Z) (v : Z) : bool := existsb (Z.eqb v) s.

(** The function in [CustomizeDiff] that checks [throughput_capacity]
    against [deployment_type]. *)
Definition validateThroughputCapacity (d : ResourceDiff) : option formatError :=
  let singleAZ1ThroughputCapacityValues := [64; 128; 256; 512; 1024; 2048; 3072; 4096] in
  let singleAZ2ThroughputCapacityValues :=
    [160; 320; 640; 1280; 2560; 3840; 5120; 7680; 10240] in
  let deploymentType := Get_string d "deployment_type" in
  let throughputCapacity := Get_int d "throughput_capacity" in
  if String.eqb deploymentType OpenZFSDeploymentTypeSingleAz1 then
    if negb (Contains singleAZ1ThroughputCapacityValues throughputCapacity) then
      Some (Errorf
        "%d is not a valid value for `throughput_capacity` when `deployment_type` is %q. Valid values: %v"
        [ArgInt throughputCapacity; ArgString deploymentType;
         ArgInts singleAZ1ThroughputCapacityValues])
    else None
  else if String.eqb deploymentType OpenZFSDeploymentTypeSingleAz2 then
    if negb (Contains singleAZ2ThroughputCapacityValues throughputCapacity) then
      Some (Errorf
        "%d is not a valid value for `throughput_capacity` when `deployment_type` is %q. Valid values: %v"
        [ArgInt throughputCapacity; ArgString deploymentType;
         ArgInts singleAZ2ThroughputCapacityValues])
    else None
  else None.

(** The plan sets the number of IOPS of the disk to [v]. *)
Definition plansIops (d : ResourceDiff) (v : Z) : Prop :=
  exists m rest,
    GetOk_list d "disk_iops_configuration" = Some (IMap m :: rest)
    /\ m !! "iops" = Some (IInt v).

End fsx_diff.

(* ===================================================================== *)
(** * The application data source (package serverlessrepo) *)
(* ===================================================================== *)

Module serverlessrepo.
Import goerr exec exec.notations schema.

(** [serverlessrepo.Version] and [serverlessrepo.GetApplicationOutput], the
    fields that are read. *)
Record Version := {
  SemanticVersion : option string;
  SourceCodeUrl : option string;
  TemplateUrl : option string;
  RequiredCapabilities : list (option string)
}.
Record GetApplicationOutput := {
  Name : option string;
  Version_ : option Version
}.

(** What the handler calls: the finder of the package and [d.Set]. *)
Inductive call : Type :=
| findApplication (applicationID semanticVersion : string)
| d_Set (key : string).

Definition answer (c : call) : Type :=
  match c with
  | findApplication _ _ => (error + GetApplicationOutput)%type
  | d_Set _ => option error
  end.

Definition handler := ResourceData -> Prog answer (ResourceData * Diagnostics).

Definition dataSourceApplicationRead : handler := fun d =>
  let diags : Diagnostics := [] in
  let applicationID := GetString d "application_id" in
  let semanticVersion := GetString d "semantic_version" in
  r <- invoke (findApplication applicationID semanticVersion) ;;
  match r with
  | inl err =>
      let descriptor := applicationID in
      let descriptor :=
        if negb (String.eqb semanticVersion "")
        then descriptor ++ ", version " ++ semanticVersion
        else descriptor in
      Done (d, AppendErrorf diags
                 "getting Serverless Application Repository application (%s): %s"
                 [descriptor] (Some err))
  | inr output =>
      let d := SetId d applicationID in
      _ <- invoke (d_Set "name") ;;
      match Version_ output with
      | None => Panic
      | Some version =>
          _ <- invoke (d_Set "semantic_version") ;;
          _ <- invoke (d_Set "source_code_url") ;;
          _ <- invoke (d_Set "template_url") ;;
          err <- invoke (d_Set "required_capabilities") ;;
          match err with
          | Some e =>
              Done (d, AppendErrorf diags "to set required_capabilities: %s" [] (Some e))
          | None => Done (d, diags)
          end
      end
  end.

(** The handler field of the data source. *)
Definition DataSourceApplication : Resource handler :=
  {| CreateWithoutTimeout := None;
     ReadWithoutTimeout := Some dataSourceApplicationRead;
     UpdateWithoutTimeout := None;
     DeleteWithoutTimeout := None;
     Exists := None |}.

Definition isSet (c : call) : bool :=
  match c with d_Set _ => true | _ => false end.

End serverlessrepo.

(* ===================================================================== *)
(** * The checks that resources are destroyed (acceptance tests) *)
(* ===================================================================== *)

Module acctest.
Import goerr exec exec.notations schema.

(** [terraform.InstanceState] and [terraform.ResourceState], the fields
    that are read; [Primary] is a pointer. *)
Record InstanceState := {
  ID : string;
  Attributes : gmap string string
}.
Record ResourceState := {
  Type_ : string;
  Primary : option InstanceState
}.

(** [primary.Attributes[key]] *)
Definition attribute (primary : InstanceState) (key : string) : string :=
  default "" (Attributes primary !! key).

(** The finders the checks call. *)
Inductive call : Type :=
| FindUsagePlanByID (id : string)
| FindAlertManagerDefinitionByID (id : string)
| FindTrafficMirrorFilterRuleByTwoPartKey (trafficMirrorFilterID id : string).

(** A finder answers with its error; what it found is not used. *)
Definition answer (c : call) : Type := option error.

(** The error a check returns: the finder's, or one of its own
    ([fmt.Errorf(format, id)]). *)
Inductive checkError :=
| FinderError (err : error)
| Errorf (format : string) (id : string).

Section WithHelpers.
Context `{Helpers}.

(** The loop of the three checks over the resources of the state, in the
    order in which [range] visits them: resources of another type are
    skipped, a resource that is not found is passed over, and the first
    other answer ends the check.  The arguments of the finder are read
    through [rs.Primary]. *)
Fixpoint checkDestroy (resourceType : string) (find : InstanceState -> call)
    (stillExists : string) (resources : list ResourceState)
    : Prog answer (option checkError) :=
  match resources with
  | [] => Done None
  | rs :: resources =>
      if negb (String.eqb (Type_ rs) resourceType) then
        checkDestroy resourceType find stillExists resources
      else
        match Primary rs with
        | None => Panic
        | Some primary =>
            err <- invoke (find primary) ;;
            if NotFound err then checkDestroy resourceType find stillExists resources
            else
              match err with
              | Some err => Done (Some (FinderError err))
              | None => Done (Some (Errorf stillExists (ID primary)))
              end
        end
  end.

Definition testAccCheckUsagePlanDestroy :=
  checkDestroy "aws_api_gateway_usage_plan"
    (fun primary => FindUsagePlanByID (ID primary))
    "API Gateway Usage Plan %s still exists".

Definition testAccCheckAlertManagerDefinitionDestroy :=
  checkDestroy "aws_prometheus_alert_manager_definition"
    (fun primary => FindAlertManagerDefinitionByID (ID primary))
    "Prometheus Alert Manager Definition %s still exists".

Definition testAccCheckTrafficMirrorFilterRuleDestroy :=
  checkDestroy "aws_ec2_traffic_mirror_filter_rule"
    (fun primary => FindTrafficMirrorFilterRuleByTwoPartKey
                      (attribute primary "traffic_mirror_filter_id") (ID primary))
    "EC2 Traffic Mirror Filter Rule %s still exists".

(** The finder reported the resource as missing. *)
Definition notFound (ev : event answer) : bool := NotFound (ev_answer ev).
End WithHelpers.

(** The resources of [resourceType], in the order of the visit. *)
Definition ofType (resourceType : string) (resources : list ResourceState)
    : list ResourceState :=
  List.filter (fun rs => String.eqb (Type_ rs) resourceType) resources.

(** What is shown of a check: it looks up resources of its type only, in
    the order of the visit and each at most once, stops at the first that
    is not reported missing, succeeds exactly when it has looked up every
    resource of its type and each was reported missing, and panics exactly
    when the resource of its type that comes after those it has looked up,
    all reported missing, has no primary instance. *)
Definition looksUpAll `{Helpers} (check : list ResourceState -> Prog answer (option checkError))
    (resourceType : string) (find : InstanceState -> call) : Prop :=
  forall (resources : list ResourceState) (o : oracle answer),
    let looked := ofType resourceType resources in
    let tr := trace o (check resources) in
    map (fun ev => Some (ev_call ev)) tr
      = map (fun rs => find <$> Primary rs) (take (length tr) looked)
    /\ Forall (fun ev => notFound ev = true) (removelast tr)
    /\ (result o (check resources) = Returns None <->
        length tr = length looked /\ Forall (fun ev => notFound ev = true) tr)
    /\ (result o (check resources) = Panics <->
        Forall (fun ev => notFound ev = true) tr
        /\ exists rs, looked !! length tr = Some rs /\ Primary rs = None).

End acctest.

(* ===================================================================== *)
(** * More sample data *)
(* ===================================================================== *)

(** Further data and environments on which the functions can be run. *)
Module examples.
Import goerr exec schema config.

(** Resource data of a file system whose root volume configuration has
    changed, and nothing else. *)
Definition volumeChanged : ResourceData :=
  {| Id := "fs-0123";
     IsNewResource := false;
     GetString := fun key => if String.eqb key "root_volume_id" then "fsvol-0123" else "";
     GetInt := fun _ => 0;
     GetBool := fun _ => false;
     GetList := fun _ => [];
     GetOkString := fun _ => None;
     GetOkInt := fun _ => None;
     GetOkBool := fun _ => None;
     GetOkList := fun _ => None;
     GetOkSet := fun _ => None;
     GetOkExistsBool := fun _ => None;
     HasChange := fun key => String.eqb key "root_volume_configuration";
     HasChangesExcept := fun _ => true;
     GetChangeSet := fun _ => (∅, ∅);
     Timeout := fun _ => 3600 |}.

(** Resource data of a trail whose bucket has changed, and nothing else. *)
Definition bucketChanged : ResourceData :=
  {| Id := "trail-1";
     IsNewResource := false;
     GetString := fun key => if String.eqb key "s3_bucket_name" then "bucket-2" else "";
     GetInt := fun _ => 0;
     GetBool := fun _ => false;
     GetList := fun _ => [];
     GetOkString := fun _ => None;
     GetOkInt := fun _ => None;
     GetOkBool := fun _ => None;
     GetOkList := fun _ => None;
     GetOkSet := fun _ => None;
     GetOkExistsBool := fun _ => None;
     HasChange := fun key => String.eqb key "s3_bucket_name";
     HasChangesExcept := fun _ => true;
     GetChangeSet := fun _ => (∅, ∅);
     Timeout := fun _ => 3600 |}.

(** As [sample.trailPresent], except that the calls of
    [UpdateTrailWithContext] made among the first [denials] calls after the
    question about the attempts fail with access denied on the CloudWatch
    Logs log group. *)
Definition trailUpdateDenied (denials attempts : nat) : oracle cloudtrail.answer :=
  fun n c =>
    match c return cloudtrail.answer c with
    | cloudtrail.UpdateTrailWithContext _ =>
        if (n <=? denials)%nat
        then Some (AwsErr "InvalidCloudWatchLogsLogGroupArnException"
                          "Access denied. Check the resource policy of the log group.")
        else None
    | c => sample.trailPresent attempts n c
    end.

(** The environment in which the described trail has Insights selectors
    set, and asking for them is answered with an output and the error
    [InsightNotEnabledException]. *)
Definition insightNotEnabled : oracle cloudtrail.answer :=
  fun n c =>
    match c return cloudtrail.answer c with
    | cloudtrail.DescribeTrailsWithContext names =>
        inr (map (fun name =>
                    {| cloudtrail.Name := Some name;
                       cloudtrail.S3BucketName := Some "bucket";
                       cloudtrail.S3KeyPrefix := None;
                       cloudtrail.CloudWatchLogsRoleArn := None;
                       cloudtrail.CloudWatchLogsLogGroupArn := None;
                       cloudtrail.IncludeGlobalServiceEvents := Some true;
                       cloudtrail.IsMultiRegionTrail := Some false;
                       cloudtrail.IsOrganizationTrail := Some false;
                       cloudtrail.SnsTopicName := None;
                       cloudtrail.LogFileValidationEnabled := Some false;
                       cloudtrail.KmsKeyId := None; cloudtrail.TrailARN := None;
                       cloudtrail.HomeRegion := None;
                       cloudtrail.HasCustomEventSelectors := Some false;
                       cloudtrail.HasInsightSelectors := Some true |}) names)
    | cloudtrail.GetInsightSelectorsWithContext _ =>
        (Some {| cloudtrail.o_InsightSelectors := None |},
         Some (AwsErr "InsightNotEnabledException" "Insights are not enabled"))
    | c => sample.trailPresent 1 n c
    end.

(** A Lustre file system, and an OpenZFS file system whose configuration
    carries no root volume id. *)
Definition lustre : fsx.FileSystem :=
  {| fsx.FileSystemId := Some "fs-0123";
     fsx.ResourceARN := None; fsx.DNSName := None; fsx.StorageType := Some "SSD";
     fsx.KmsKeyId := None; fsx.NetworkInterfaceIds := []; fsx.OwnerId := None;
     fsx.StorageCapacity := Some 1200; fsx.SubnetIds := []; fsx.VpcId := None;
     fsx.Tags := [];
     fsx.WindowsConfiguration := false; fsx.LustreConfiguration := true;
     fsx.OntapConfiguration := false;
     fsx.OpenZFSConfiguration := None |}.

Definition withoutRootVolume : fsx.OpenZFSFileSystemConfiguration :=
  {| fsx.AutomaticBackupRetentionDays := None;
     fsx.CopyTagsToBackups := None; fsx.CopyTagsToVolumes := None;
     fsx.DailyAutomaticBackupStartTime := None;
     fsx.DeploymentType := Some "SINGLE_AZ_1";
     fsx.DiskIopsConfiguration_ := None;
     fsx.RootVolumeId := None;
     fsx.ThroughputCapacity := Some 64;
     fsx.WeeklyMaintenanceStartTime := None |}.

Definition rootless : fsx.FileSystem :=
  {| fsx.FileSystemId := Some "fs-0123";
     fsx.ResourceARN := None; fsx.DNSName := None; fsx.StorageType := Some "SSD";
     fsx.KmsKeyId := None; fsx.NetworkInterfaceIds := []; fsx.OwnerId := None;
     fsx.StorageCapacity := Some 64; fsx.SubnetIds := []; fsx.VpcId := None;
     fsx.Tags := [];
     fsx.WindowsConfiguration := false; fsx.LustreConfiguration := false;
     fsx.OntapConfiguration := false;
     fsx.OpenZFSConfiguration := Some withoutRootVolume |}.

(** As [sample.fileSystemPresent], with the given file system found. *)
Definition found (filesystem : fsx.FileSystem) : oracle fsx.answer :=
  fun n c =>
    match c return fsx.answer c with
    | fsx.FindFileSystemByID _ => inr filesystem
    | c => sample.fileSystemPresent n c
    end.

(** One choice of the functions of package flex: empty strings and values
    that are not strings are left out when expanding. *)
Definition expandStrings (l : list value) : Strings :=
  Some (omap (fun v => match v with
                       | VString s => if String.eqb s "" then None else Some (Some s)
                       | _ => None
                       end) l).
Definition flattenStrings (x : Strings) : list value :=
  map (fun p => VString (default "" p)) (default [] x).
Definition flex : Flex :=
  {| ExpandStringList := expandStrings;
     FlattenStringList := flattenStrings;
     ExpandStringSet := expandStrings;
     FlattenStringSet := fun x => VSet (flattenStrings x) |}.

(** The plan of a [SINGLE_AZ_1] file system with 3000 IOPS. *)
Definition plan : fsx_diff.ResourceDiff :=
  {| fsx_diff.Get_string := fun key =>
       if String.eqb key "deployment_type" then "SINGLE_AZ_1" else "";
     fsx_diff.Get_int := fun key =>
       if String.eqb key "throughput_capacity" then 64 else 0;
     fsx_diff.GetOk_list := fun key =>
       if String.eqb key "disk_iops_configuration" then Some sample.diskIops else None |}.

(** The block of a field selector on the event name, with one value to
    equal and an empty list of values not to equal. *)
Definition fieldSelector : gmap string value :=
  <["not_equals" := VList []]>
    (<["equals" := VList [VString "PutObject"]]> (<["field" := VString "eventName"]> ∅)).

End examples.

(* ===================================================================== *)
(** * Properties of executions *)
(* ===================================================================== *)

Section ExecFacts.
Import exec.
Context {call : Type} {answer : call -> Type}.
Implicit Types (o : oracle answer) (tr : list (event answer)).

Lemma run_bind {A B} o n (p : Prog answer A) (f : A -> Prog answer B) :
  run o n (bind p f) =
    match snd (run o n p) with
    | Returns a =>
        let rest := run o (n + length (fst (run o n p))) (f a) in
        ((fst (run o n p) ++ fst rest)%list, snd rest)
    | Panics => (fst (run o n p), Panics)
    end.
Proof.
  revert n. induction p as [a | c k IH |]; intros n; cbn.
  - replace (n + 0)%nat with n by lia. by destruct (run o n (f a)).
  - rewrite IH. destruct (snd (run o (S n) (k (o n c)))); cbn; [|done].
    by replace (n + S (length (fst (run o (S n) (k (o n c))))))%nat
      with (S n + length (fst (run o (S n) (k (o n c)))))%nat by lia.
  - done.
Qed.

Lemma callsAll_bind {A B} (Q : call -> Prop) (p : Prog answer A) (f : A -> Prog answer B) :
  callsAll Q p -> (forall a, callsAll Q (f a)) -> callsAll Q (bind p f).
Proof.
  intros Hp Hf. induction p as [a | c k IH |]; cbn in *; [done | | done].
  destruct Hp as [Hc Hk]. split; [done|]. intros x. by apply IH.
Qed.

Lemma callsAll_run {R} (Q : call -> Prop) (p : Prog answer R) o n :
  callsAll Q p -> Forall (fun ev => Q (ev_call ev)) (fst (run o n p)).
Proof.
  revert n. induction p as [a | c k IH |]; intros n Hp; cbn in *; [done | | done].
  destruct Hp as [Hc Hk]. constructor; [done|]. by apply IH.
Qed.

Lemma callsAll_impl {R} (Q Q' : call -> Prop) (p : Prog answer R) :
  (forall c, Q c -> Q' c) -> callsAll Q p -> callsAll Q' p.
Proof.
  intros HQ. induction p as [a | c k IH |]; cbn; [done | | done].
  intros [Hc Hk]. split; [by apply HQ|]. intros x. by apply IH.
Qed.

Lemma followedb_sound (P : event answer -> bool) Q tr :
  followedb P Q tr = true -> followed P Q tr.
Proof.
  induction tr as [| ev0 tr IH]; intros Hb pre ev post Heq HP.
  - by destruct pre.
  - cbn in Hb. apply andb_true_iff in Hb as [Hhd Htl].
    destruct pre as [| ev1 pre]; cbn in Heq; injection Heq as -> ->.
    + rewrite HP in Hhd. apply existsb_exists in Hhd as (w & Hw & HQ).
      exists w. split; [by apply list_elem_of_In | done].
    + by eapply IH.
Qed.

Lemma followedb_app (P : event answer -> bool) Q tr1 tr2 :
  followedb P Q tr1 = true ->
  Forall (fun ev => P ev = false) tr2 ->
  followedb P Q (tr1 ++ tr2) = true.
Proof.
  intros H1 H2. induction tr1 as [| ev tr1 IH]; cbn in *.
  - induction H2 as [| ev tr2 Hev _ IH]; cbn; [done|]. by rewrite Hev.
  - apply andb_true_iff in H1 as [Hhd Htl]. rewrite IH by done.
    rewrite andb_true_r. destruct (P ev); [|done].
    rewrite existsb_app, Hhd. done.
Qed.
End ExecFacts.

(* ===================================================================== *)
(** * Delete handlers and the not-found error *)
(* ===================================================================== *)

Section DeleteNotFound.
Import goerr exec schema.
Context `{Helpers}.

(** C8.  When the delete operation fails with the not-found code of the
    resource ([ACLNotFoundFault] for the MemoryDB ACL, [FileSystemNotFound]
    for the FSx OpenZFS file system), the Delete handler returns without
    error diagnostics and the delete operation is the only call of the
    execution: the deletion waiter is not run. *)
Theorem delete_not_found_succeeds_without_waiting
    (d : ResourceData)
    (oa : oracle memorydb.answer) (ofs : oracle fsx.answer) (ea ef : awserr)
    (Hoa : oa 0%nat (memorydb.DeleteACLWithContext
                       {| memorydb.DeleteACLInput_ACLName := Id d |}) = Some ea)
    (Hea : Code ea = memorydb.ErrCodeACLNotFoundFault)
    (Hof : ofs 0%nat (fsx.DeleteFileSystemWithContext
                       {| fsx.del_FileSystemId := Id d |}) = Some ef)
    (Hef : Code ef = fsx.ErrCodeFileSystemNotFound) :
  run oa 0 (memorydb.resourceACLDelete d)
    = ([Event (memorydb.DeleteACLWithContext
                 {| memorydb.DeleteACLInput_ACLName := Id d |}) (Some ea)],
       Returns (d, []))
  /\ run ofs 0 (fsx.resourceOpenzfsFileSystemDelete d)
    = ([Event (fsx.DeleteFileSystemWithContext {| fsx.del_FileSystemId := Id d |})
              (Some ef)],
       Returns (d, [])).
Proof.
  split.
  - unfold memorydb.resourceACLDelete. cbn. rewrite Hoa. cbn. rewrite Hea. done.
  - unfold fsx.resourceOpenzfsFileSystemDelete. cbn. rewrite Hof. cbn. rewrite Hef. done.
Qed.
End DeleteNotFound.

Lemma delete_not_found_witness :
  let d := sample.data "fs-0123" false ∅ ∅ in
  let ea := goerr.AwsErr "ACLNotFoundFault" "ACL not found" in
  let ef := goerr.AwsErr "FileSystemNotFound" "File system not found" in
  exec.run (sample.aclGone ea) 0 (memorydb.resourceACLDelete d)
    = ([exec.Event (memorydb.DeleteACLWithContext
                      {| memorydb.DeleteACLInput_ACLName := schema.Id d |}) (Some ea)],
       Returns (d, []))
  /\ exec.run (sample.fileSystemGone ef) 0 (fsx.resourceOpenzfsFileSystemDelete d)
    = ([exec.Event (fsx.DeleteFileSystemWithContext
                      {| fsx.del_FileSystemId := schema.Id d |}) (Some ef)],
       Returns (d, [])).
Proof.
  intros d ea ef.
  apply (delete_not_found_succeeds_without_waiting d (sample.aclGone ea) (sample.fileSystemGone ef) ea ef);
    reflexivity.
Defined.

(* ===================================================================== *)
(** * Read handlers and missing resources *)
(* ===================================================================== *)

Section ReadMissing.
Import goerr exec schema.
Context `{Helpers}.

(** C9.  When a Read handler finds the resource missing (the finder of the
    MemoryDB ACL or of the FSx OpenZFS file system returns an error that
    [tfresource.NotFound] recognises; the trail is not in the list that
    [DescribeTrails] returns), then for a resource that is not new it
    clears the id ([d.SetId("")]) and returns no diagnostics, and for a new
    resource it leaves the id and returns an error diagnostic, which for
    the trail reports "not found after creation". *)
Theorem read_missing_resource
    (d : ResourceData)
    (oa : oracle memorydb.answer) (ofs : oracle fsx.answer)
    (oc : oracle cloudtrail.answer)
    (ea ef : error) (TrailList : list cloudtrail.Trail)
    (Hoa : oa 0%nat (memorydb.FindACLByName (Id d)) = inl ea)
    (Hea : NotFound (Some ea) = true)
    (Hof : ofs 0%nat (fsx.FindFileSystemByID (Id d)) = inl ef)
    (Hef : NotFound (Some ef) = true)
    (Hoc : oc 0%nat (cloudtrail.DescribeTrailsWithContext [Id d]) = inr TrailList)
    (Hec : cloudtrail.findTrail (Id d) TrailList = None) :
  (IsNewResource d = false ->
     result oa (memorydb.resourceACLRead d) = Returns (SetId d "", [])
     /\ result ofs (fsx.resourceOpenzfsFileSystemRead d) = Returns (SetId d "", [])
     /\ result oc (cloudtrail.resourceCloudTrailRead d) = Returns (SetId d "", []))
  /\
  (IsNewResource d = true ->
     result oa (memorydb.resourceACLRead d)
       = Returns (d, Errorf "reading MemoryDB ACL (%s): %s" [Id d] ea)
     /\ result ofs (fsx.resourceOpenzfsFileSystemRead d)
       = Returns (d, AppendErrorf [] "reading FSx OpenZFS File System (%s): %s"
                       [Id d] (Some ef))
     /\ result oc (cloudtrail.resourceCloudTrailRead d)
       = Returns (d, DiagError names_CloudTrail create_ErrActionReading ResNameTrail
                       (Id d) (New "not found after creation"))).
Proof.
  unfold result, memorydb.resourceACLRead, fsx.resourceOpenzfsFileSystemRead,
    cloudtrail.resourceCloudTrailRead.
  split; intros Hnew; cbn; rewrite Hoa, Hof, Hoc, Hnew, ?Hea, ?Hef, ?Hec; cbn; done.
Qed.
End ReadMissing.

Lemma read_missing_resource_witness :
  let d := sample.data "trail-1" false ∅ ∅ in
  let gone := goerr.AwsErr "ResourceNotFound" "" in
  exec.result (sample.aclGone gone) (memorydb.resourceACLRead (H := sample.helpers) d)
    = Returns (schema.SetId d "", [])
  /\ exec.result (sample.fileSystemGone gone) (fsx.resourceOpenzfsFileSystemRead (H := sample.helpers) d)
    = Returns (schema.SetId d "", [])
  /\ exec.result sample.noTrails (cloudtrail.resourceCloudTrailRead (H := sample.helpers) d)
    = Returns (schema.SetId d "", []).
Proof.
  intros d gone.
  exact (proj1 (read_missing_resource (H := sample.helpers) d
                  (sample.aclGone gone) (sample.fileSystemGone gone) sample.noTrails
                  (goerr.NotFoundError "couldn't find resource")
                  (goerr.NotFoundError "couldn't find resource") []
                  eq_refl eq_refl eq_refl eq_refl eq_refl eq_refl) eq_refl).
Defined.

(* ===================================================================== *)
(** * The user names sent by the MemoryDB ACL update *)
(* ===================================================================== *)

Section ACLUpdate.
Import goerr exec schema memorydb.
Context `{Helpers}.

Lemma appendStillPresent_elem (present : gset string) (toRemove acc : list string) u :
  u ∈ appendStillPresent present toRemove acc <->
  u ∈ acc \/ (u ∈ toRemove /\ u ∈ present).
Proof.
  unfold appendStillPresent. revert acc.
  induction toRemove as [| v toRemove IH]; intros acc; cbn.
  - rewrite elem_of_nil. tauto.
  - rewrite IH. case_decide.
    + rewrite elem_of_app, !elem_of_cons, elem_of_nil. clear IH. intuition congruence.
    + rewrite elem_of_cons. clear IH. intuition congruence.
Qed.

Lemma ltb_length {A} (l : list A) :
  (0 <? Z.of_nat (length l)) = match l with [] => false | _ => true end.
Proof. by destruct l. Qed.

Lemma resourceACLRead_no_update (d : ResourceData) (o : oracle answer) n :
  updateACLCalls (fst (run o n (resourceACLRead d))) = [].
Proof.
  unfold resourceACLRead. cbn.
  destruct (o n (FindACLByName (Id d))) as [e | acl]; cbn;
    destruct (negb (IsNewResource d) && _); reflexivity.
Qed.

(** C1.  When attributes other than the tags have changed and
    [FindACLByName] returns the ACL, the request that [resourceACLUpdate]
    builds has as [UserNamesToAdd] exactly the user names of the new set
    that are not in the old set, and as [UserNamesToRemove] exactly the
    user names of the old set that are not in the new set and are among the
    [UserNames] the ACL reports; [UpdateACL] is called, once and with this
    request, if and only if one of the two lists is not empty.  User names
    are not empty, as the schema requires, and for sets of such names
    [flex.ExpandStringSet] lists the members of its argument. *)
Theorem resourceACLUpdate_user_names
    (d : ResourceData) (o : oracle answer) (initialState : ACL)
    (Hexpand : forall s : gset string, "" ∉ s ->
                 forall u, u ∈ ExpandStringSet s <-> u ∈ s)
    (Hchanged : HasChangesExcept d ["tags"; "tags_all"] = true)
    (Hold : "" ∉ fst (GetChangeSet d "user_names"))
    (Hnew : "" ∉ snd (GetChangeSet d "user_names"))
    (Hfind : o 0%nat (FindACLByName (Id d)) = inr initialState) :
  let oldSet := fst (GetChangeSet d "user_names") in
  let newSet := snd (GetChangeSet d "user_names") in
  let input := updateACLInput d initialState in
  (forall u, u ∈ UserNamesToAdd input <-> u ∈ newSet /\ (u ∉ oldSet))
  /\ (forall u, u ∈ UserNamesToRemove input <->
                u ∈ oldSet /\ (u ∉ newSet) /\ Some u ∈ UserNames initialState)
  /\ (updateACLCalls (trace o (resourceACLUpdate d)) = [input] <->
      UserNamesToAdd input <> [] \/ UserNamesToRemove input <> [])
  /\ (updateACLCalls (trace o (resourceACLUpdate d)) = [] <->
      UserNamesToAdd input = [] /\ UserNamesToRemove input = []).
Proof.
  intros oldSet newSet input.
  assert (Hadd : forall u, u ∈ UserNamesToAdd input <-> u ∈ newSet /\ (u ∉ oldSet)).
  { intros u. subst input. unfold updateACLInput.
    fold oldSet newSet. destruct (GetChangeSet d "user_names") as [os ns] eqn:Hch.
    cbn in oldSet, newSet, Hold, Hnew |- *. subst oldSet newSet.
    unfold Difference, Len.
    destruct (0 <? Z.of_nat (size (ns ∖ os))) eqn:Hlen.
    - rewrite Hexpand by set_solver. set_solver.
    - apply Z.ltb_ge in Hlen.
      assert (size (ns ∖ os) = 0%nat) as Hsz by lia.
      apply size_empty_iff in Hsz. rewrite elem_of_nil. set_solver. }
  assert (Hrem : forall u, u ∈ UserNamesToRemove input <->
                   u ∈ oldSet /\ (u ∉ newSet) /\ Some u ∈ UserNames initialState).
  { intros u. subst input. unfold updateACLInput.
    destruct (GetChangeSet d "user_names") as [os ns] eqn:Hch.
    cbn in oldSet, newSet, Hold, Hnew |- *. subst oldSet newSet.
    rewrite appendStillPresent_elem, elem_of_nil.
    unfold List_, Difference. rewrite elem_of_elements, elem_of_difference.
    rewrite elem_of_list_to_set, list_elem_of_fmap.
    split.
    - intros [[] | [[Hu Hn] (x & Hx & Hin)]]. repeat split; try done.
      destruct x as [x |]; cbn in Hx; subst; [done|]. done.
    - intros (Hu & Hn & Hin). right. split; [done|]. by exists (Some u). }
  split; [done|]. split; [done|].
  unfold trace, resourceACLUpdate. rewrite Hchanged.
  cbn [bind invoke run fst snd]. rewrite Hfind, !ltb_length. fold input.
  destruct (UserNamesToAdd input) as [| a la] eqn:Ea;
    destruct (UserNamesToRemove input) as [| b lb] eqn:Eb;
    cbn [orb run fst snd].
  1: { unfold updateACLCalls. cbn [omap list_omap ev_call]. fold updateACLCalls.
       rewrite resourceACLRead_no_update. intuition congruence. }
  all: destruct (o 1%nat (UpdateACLWithContext input)) as [e |];
    cbn [run fst snd];
    [| destruct (o 2%nat (waitACLActive (Id d))) as [e |]; cbn [run fst snd]];
    unfold updateACLCalls; cbn [omap list_omap ev_call];
    fold updateACLCalls; rewrite ?resourceACLRead_no_update.
  all: intuition congruence.
Qed.
End ACLUpdate.

Lemma sample_ExpandStringSet (s : gset string) :
  "" ∉ s -> forall u, u ∈ ExpandStringSet (Helpers := sample.helpers) s <-> u ∈ s.
Proof.
  intros Hs u. cbn. rewrite list_elem_of_filter, elem_of_elements.
  split; [tauto|]. intros Hu. split; [|done]. by intros ->.
Qed.

Lemma resourceACLUpdate_user_names_witness :
  let d := sample.data "acl-1" false {["alice"; "bob"]} {["bob"; "carol"]} in
  let acl := {| memorydb.ARN := None; memorydb.MinimumEngineVersion := None;
                memorydb.Name := Some "acl-1";
                memorydb.UserNames := [Some "alice"; Some "bob"] |} in
  let o := sample.aclPresent acl in
  let oldSet := fst (schema.GetChangeSet d "user_names") in
  let newSet := snd (schema.GetChangeSet d "user_names") in
  let input := memorydb.updateACLInput (H := sample.helpers) d acl in
  (forall u, u ∈ memorydb.UserNamesToAdd input <-> u ∈ newSet /\ (u ∉ oldSet))
  /\ (forall u, u ∈ memorydb.UserNamesToRemove input <->
                u ∈ oldSet /\ (u ∉ newSet) /\ Some u ∈ memorydb.UserNames acl)
  /\ (memorydb.updateACLCalls
        (exec.trace o (memorydb.resourceACLUpdate (H := sample.helpers) d)) = [input] <->
      memorydb.UserNamesToAdd input <> [] \/ memorydb.UserNamesToRemove input <> [])
  /\ (memorydb.updateACLCalls
        (exec.trace o (memorydb.resourceACLUpdate (H := sample.helpers) d)) = [] <->
      memorydb.UserNamesToAdd input = [] /\ memorydb.UserNamesToRemove input = []).
Proof.
  intros d acl o.
  apply (resourceACLUpdate_user_names (H := sample.helpers) d o acl sample_ExpandStringSet).
  - vm_compute. reflexivity.
  - cbn. set_solver.
  - cbn. set_solver.
  - reflexivity.
Defined.

(* ===================================================================== *)
(** * Waiting after mutating calls *)
(* ===================================================================== *)

Section RunFacts.
Import exec.
Context {call : Type} {answer : call -> Type}.

Lemma run_bind_Done {A B} (o : oracle answer) n (p : Prog answer A) (g : A -> B) :
  run o n (bind p (fun a => Done (g a))) = (fst (run o n p), outcome_map g (snd (run o n p))).
Proof.
  revert n. induction p as [a | c k IH |]; intros n; cbn; [done | | done].
  by rewrite IH.
Qed.

Lemma followedb_complete (P : event answer -> bool) Q (tr : list (event answer)) :
  followed P Q tr -> followedb P Q tr = true.
Proof.
  induction tr as [| ev tr IH]; intros Hf; cbn; [done|].
  apply andb_true_iff. split.
  - destruct (P ev) eqn:HP; [|done].
    destruct (Hf [] ev tr eq_refl HP) as (w & Hw & HQ).
    apply existsb_exists. exists w. split; [by apply list_elem_of_In | done].
  - apply IH. intros pre ev' post -> HP. by apply (Hf (ev :: pre) ev' post).
Qed.

Lemma followedb_none (P : event answer -> bool) Q (tr : list (event answer)) :
  Forall (fun ev => P ev = false) tr -> followedb P Q tr = true.
Proof. intros Hall. by apply (followedb_app P Q [] tr). Qed.

Lemma not_succeeded_error {D E} (d : D) (e : E) (es : list E) :
  ~ succeeded (Returns (d, e :: es)).
Proof. intros [d' Heq]. discriminate. Qed.

Lemma not_succeeded_Panics {D E} : ~ @succeeded D E Panics.
Proof. intros [d' Heq]. discriminate. Qed.
End RunFacts.

(** Splits the goal along the calls a program can make. *)
Ltac calls_all :=
  repeat first
    [ progress cbn [exec.callsAll exec.bind exec.invoke fst snd]
    | progress cbv beta delta [cloudtrail.orReturn]
    | split
    | intro
    | reflexivity
    | match goal with
      | |- exec.callsAll _ (match ?x with _ => _ end) => destruct x
      | |- exec.callsAll _ (if ?x then _ else _) => destruct x
      | |- exec.callsAll _ (exec.bind (match ?x with _ => _ end) _) => destruct x
      | |- exec.callsAll _ (exec.bind (if ?x then _ else _) _) => destruct x
      | |- exec.callsAll _ (exec.bind (exec.bind (match ?x with _ => _ end) _) _) =>
          destruct x
      end ].

Section Waiters.
Import goerr exec schema.
Context `{Helpers}.

Lemma resourceACLRead_not_mutating (d : ResourceData) :
  callsAll (fun c => isMutating (memorydb.kind c) = false) (memorydb.resourceACLRead d).
Proof. unfold memorydb.resourceACLRead. calls_all. Qed.

Lemma resourceOpenzfsFileSystemRead_not_mutating (d : ResourceData) :
  callsAll (fun c => isMutating (fsx.kind c) = false) (fsx.resourceOpenzfsFileSystemRead d).
Proof.
  unfold fsx.resourceOpenzfsFileSystemRead. cbn [fsx.set_each]. calls_all.
Qed.

Lemma acl_read_waited (o : oracle memorydb.answer) n d :
  everySuccessfulMutationWaitedb memorydb.kind memorydb.failed memorydb.waiterFor
    (fst (run o n (memorydb.resourceACLRead d))) = true.
Proof.
  apply followedb_none.
  eapply Forall_impl; [apply callsAll_run, resourceACLRead_not_mutating|].
  cbn. by intros ev ->.
Qed.

Lemma fsx_read_waited (o : oracle fsx.answer) n d :
  everySuccessfulMutationWaitedb fsx.kind fsx.failed fsx.waiterFor
    (fst (run o n (fsx.resourceOpenzfsFileSystemRead d))) = true.
Proof.
  apply followedb_none.
  eapply Forall_impl; [apply callsAll_run, resourceOpenzfsFileSystemRead_not_mutating|].
  cbn. by intros ev ->.
Qed.
End Waiters.

(** Follows an execution through the answers it depends on. *)
Ltac execute :=
  repeat
    (cbv beta delta [fsx.try cloudtrail.orReturn];
     cbn [exec.bind exec.invoke exec.run fst snd];
     match goal with
     | |- context [exec.run _ _ (match ?x with _ => _ end)] => destruct x eqn:?
     | |- context [exec.run _ _ (if ?x then _ else _)] => destruct x eqn:?
     end);
  cbn [exec.bind exec.invoke exec.run fst snd].

(** Closes the executions that end with error diagnostics or a panic. *)
Ltac not_succeeded :=
  let Hs := fresh in
  intros Hs; exfalso;
  first [ by apply not_succeeded_error in Hs | by apply not_succeeded_Panics in Hs ].

(** Uses what is known of the Read handler that ends an execution. *)
Ltac read_waited lem :=
  match goal with
  | |- context [exec.run ?o ?n (_ ?d)] =>
      let Hr := fresh in
      pose proof (lem o n d) as Hr;
      unfold exec.everySuccessfulMutationWaitedb in Hr; rewrite Hr; clear Hr
  end.

Section WaitersAfterMutations.
Import goerr exec schema.
Context `{Helpers}.

#[local] Opaque memorydb.resourceACLRead fsx.resourceOpenzfsFileSystemRead.

#[local] Abbreviation waited_acl :=
  (everySuccessfulMutationWaited memorydb.kind memorydb.failed memorydb.waiterFor).
#[local] Abbreviation waited_fsx :=
  (everySuccessfulMutationWaited fsx.kind fsx.failed fsx.waiterFor).

Lemma acl_create_waited (d : ResourceData) (o : oracle memorydb.answer) :
  succeeded (result o (memorydb.resourceACLCreate d)) ->
  waited_acl (trace o (memorydb.resourceACLCreate d)).
Proof.
  unfold trace, result. intros Hs. apply followedb_sound. revert Hs.
  unfold memorydb.resourceACLCreate. execute; try not_succeeded.
  intros _. cbn. rewrite String.eqb_refl. cbn. apply acl_read_waited.
Qed.

Lemma updateACLInput_ACLName (d : ResourceData) (acl : memorydb.ACL) :
  memorydb.ACLName (memorydb.updateACLInput d acl) = Id d.
Proof. unfold memorydb.updateACLInput. by destruct (GetChangeSet d "user_names"). Qed.

Lemma acl_update_waited (d : ResourceData) (o : oracle memorydb.answer) :
  succeeded (result o (memorydb.resourceACLUpdate d)) ->
  waited_acl (trace o (memorydb.resourceACLUpdate d)).
Proof.
  unfold trace, result. intros Hs. apply followedb_sound. revert Hs.
  unfold memorydb.resourceACLUpdate. execute; try not_succeeded.
  all: intros _; cbn; rewrite ?updateACLInput_ACLName, ?String.eqb_refl; cbn;
    apply acl_read_waited.
Qed.

Lemma acl_delete_waited (d : ResourceData) (o : oracle memorydb.answer) :
  succeeded (result o (memorydb.resourceACLDelete d)) ->
  waited_acl (trace o (memorydb.resourceACLDelete d)).
Proof.
  unfold trace, result. intros Hs. apply followedb_sound. revert Hs.
  unfold memorydb.resourceACLDelete. execute; try not_succeeded.
  all: intros _; cbn; rewrite ?String.eqb_refl; try done.
  by destruct (o 0%nat _).
Qed.

Lemma fsx_create_waited (d : ResourceData) (o : oracle fsx.answer) :
  succeeded (result o (fsx.resourceOpenzfsFileSystemCreate d)) ->
  waited_fsx (trace o (fsx.resourceOpenzfsFileSystemCreate d)).
Proof.
  unfold trace, result. intros Hs. apply followedb_sound. revert Hs.
  unfold fsx.resourceOpenzfsFileSystemCreate. execute; try not_succeeded.
  all: rewrite run_bind_Done; intros _; cbn [fst snd].
  all: unfold everySuccessfulMutationWaitedb; cbn [followedb existsb].
  all: read_waited fsx_read_waited.
  all: cbn.
  all: match goal with Hf : fsx.Output_FileSystem _ = Some _ |- _ => rewrite Hf end.
  all: cbn; by rewrite bool_decide_eq_true_2.
Qed.

Lemma updateFileSystemInput_id (d : ResourceData) (input : fsx.UpdateFileSystemInput) :
  fsx.updateFileSystemInput d = Returns input -> fsx.u_FileSystemId input = Id d.
Proof.
  unfold fsx.updateFileSystemInput.
  destruct (if HasChange d "disk_iops_configuration" then _ else _); cbn; [|done].
  by intros [= <-].
Qed.

Lemma fsx_update_waited (d : ResourceData) (o : oracle fsx.answer) :
  succeeded (result o (fsx.resourceOpenzfsFileSystemUpdate d)) ->
  waited_fsx (trace o (fsx.resourceOpenzfsFileSystemUpdate d)).
Proof.
  unfold trace, result. intros Hs. apply followedb_sound. revert Hs.
  unfold fsx.resourceOpenzfsFileSystemUpdate. execute; try not_succeeded.
  all: rewrite run_bind_Done; intros _; cbn [fst snd].
  all: unfold everySuccessfulMutationWaitedb; cbn [followedb existsb].
  all: read_waited fsx_read_waited.
  all: cbn.
  all: try match goal with
           | Hi : fsx.updateFileSystemInput _ = Returns _ |- _ =>
               apply updateFileSystemInput_id in Hi; rewrite Hi
           end.
  all: by rewrite ?String.eqb_refl.
Qed.

Lemma fsx_delete_waited (d : ResourceData) (o : oracle fsx.answer) :
  succeeded (result o (fsx.resourceOpenzfsFileSystemDelete d)) ->
  waited_fsx (trace o (fsx.resourceOpenzfsFileSystemDelete d)).
Proof.
  unfold trace, result. intros Hs. apply followedb_sound. revert Hs.
  unfold fsx.resourceOpenzfsFileSystemDelete. execute; try not_succeeded.
  all: intros _; cbn; rewrite ?String.eqb_refl; try done.
  by destruct (o 0%nat _).
Qed.

(** C3, as the handlers have it.  In every execution in which a Create,
    Update or Delete handler of the MemoryDB ACL or of the FSx OpenZFS file
    system returns without error diagnostics, every mutating call that
    returned without error is followed by a call of its wait function, for
    the same ACL, file system or volume, that returned without error:
    [waitACLActive] after [CreateACL] and [UpdateACL], [waitACLDeleted]
    after [DeleteACL], [waitFileSystemCreated] after [CreateFileSystem] and
    [CreateFileSystemFromBackup], [waitFileSystemUpdated] after
    [UpdateFileSystem], [waitVolumeUpdated] after [UpdateVolume] and
    [waitFileSystemDeleted] after [DeleteFileSystem]. *)
Theorem successful_mutations_are_waited_for
    (d : ResourceData) (oa : oracle memorydb.answer) (ofs : oracle fsx.answer) :
  (succeeded (result oa (memorydb.resourceACLCreate d)) ->
     waited_acl (trace oa (memorydb.resourceACLCreate d)))
  /\ (succeeded (result oa (memorydb.resourceACLUpdate d)) ->
     waited_acl (trace oa (memorydb.resourceACLUpdate d)))
  /\ (succeeded (result oa (memorydb.resourceACLDelete d)) ->
     waited_acl (trace oa (memorydb.resourceACLDelete d)))
  /\ (succeeded (result ofs (fsx.resourceOpenzfsFileSystemCreate d)) ->
     waited_fsx (trace ofs (fsx.resourceOpenzfsFileSystemCreate d)))
  /\ (succeeded (result ofs (fsx.resourceOpenzfsFileSystemUpdate d)) ->
     waited_fsx (trace ofs (fsx.resourceOpenzfsFileSystemUpdate d)))
  /\ (succeeded (result ofs (fsx.resourceOpenzfsFileSystemDelete d)) ->
     waited_fsx (trace ofs (fsx.resourceOpenzfsFileSystemDelete d))).
Proof.
  repeat split.
  - apply acl_create_waited.
  - apply acl_update_waited.
  - apply acl_delete_waited.
  - apply fsx_create_waited.
  - apply fsx_update_waited.
  - apply fsx_delete_waited.
Qed.
End WaitersAfterMutations.

Lemma successful_mutations_are_waited_for_witness :
  let d := sample.data "fs-0123" false {["alice"]} {["bob"]} in
  let acl := {| memorydb.ARN := None; memorydb.MinimumEngineVersion := None;
                memorydb.Name := Some "fs-0123";
                memorydb.UserNames := [Some "alice"] |} in
  let oa := sample.aclPresent acl in
  let ofs := sample.fileSystemPresent in
  let waited_acl :=
    exec.everySuccessfulMutationWaited memorydb.kind memorydb.failed memorydb.waiterFor in
  let waited_fsx :=
    exec.everySuccessfulMutationWaited fsx.kind fsx.failed fsx.waiterFor in
  waited_acl (exec.trace oa (memorydb.resourceACLCreate (H := sample.helpers) d))
  /\ waited_acl (exec.trace oa (memorydb.resourceACLUpdate (H := sample.helpers) d))
  /\ waited_acl (exec.trace oa (memorydb.resourceACLDelete d))
  /\ waited_fsx (exec.trace ofs (fsx.resourceOpenzfsFileSystemCreate (H := sample.helpers) d))
  /\ waited_fsx (exec.trace ofs (fsx.resourceOpenzfsFileSystemUpdate (H := sample.helpers) d))
  /\ waited_fsx (exec.trace ofs (fsx.resourceOpenzfsFileSystemDelete d)).
Proof.
  intros d acl oa ofs waited_acl waited_fsx.
  destruct (successful_mutations_are_waited_for (H := sample.helpers) d oa ofs)
    as (H1 & H2 & H3 & H4 & H5 & H6).
  repeat split;
    [ apply H1 | apply H2 | apply H3 | apply H4 | apply H5 | apply H6 ];
    eexists; vm_compute; reflexivity.
Defined.

(** C3 as stated fails.  [resourceCloudTrailCreate] returns without error
    diagnostics after [CreateTrail] although no wait function is called at
    all; and [resourceACLDelete] returns without error diagnostics when
    [DeleteACL] fails with [ACLNotFoundFault], without calling
    [waitACLDeleted]. *)
Lemma mutating_calls_without_waiter :
  (let d := sample.data "trail-1" true ∅ ∅ in
   let o := sample.trailPresent 1 in
   exec.succeeded (exec.result o (cloudtrail.resourceCloudTrailCreate (H := sample.helpers) d))
   /\ ~ exec.everyMutatingCallWaited cloudtrail.kind cloudtrail.failed
          (exec.trace o (cloudtrail.resourceCloudTrailCreate (H := sample.helpers) d)))
  /\
  (let d := sample.data "acl-1" false ∅ ∅ in
   let o := sample.aclGone (goerr.AwsErr "ACLNotFoundFault" "ACL not found") in
   exec.succeeded (exec.result o (memorydb.resourceACLDelete d))
   /\ ~ exec.everyMutatingCallWaited memorydb.kind memorydb.failed
          (exec.trace o (memorydb.resourceACLDelete d))).
Proof.
  split; intros d o; (split; [eexists; vm_compute; reflexivity |]);
    intros Hf; apply followedb_complete in Hf; vm_compute in Hf; discriminate.
Qed.

(* ===================================================================== *)
(** * Retrying CreateTrail *)
(* ===================================================================== *)

Section CreateTrailRetry.
Import goerr exec schema retry cloudtrail.
Context `{Helpers}.

Lemma classify_accessDenied (e : awserr) :
  classify (AWS e) =
    if accessDenied e then RetryableError (AWS e) else NonRetryableError (AWS e).
Proof.
  unfold classify, accessDenied, ErrMessageContains. cbn.
  destruct (String.eqb (Code e) ErrCodeInvalidCloudWatchLogsRoleArnException),
    (String.eqb (Code e) ErrCodeInvalidCloudWatchLogsLogGroupArnException),
    (Contains (Message e) "Access denied."); reflexivity.
Qed.

Lemma lastError_cons before e denials :
  lastError (Some (AWS e)) denials = lastError before (e :: denials).
Proof.
  unfold lastError. destruct denials as [| e' denials]; [done|].
  change (last (e :: e' :: denials)) with (last (e' :: denials)).
  destruct (last (e' :: denials)) eqn:Hl; [done|]. by apply last_None in Hl.
Qed.

Lemma run_createTrailAttempt {R} (o : oracle answer) m input
    (k : option CreateTrailOutput * option RetryError -> Prog answer R) :
  run o m (bind (createTrailAttempt input) k) =
    let x := o m (CreateTrailWithContext input) in
    let rest :=
      run o (S m)
        (k match x with
           | inl e => (None, Some (classify (AWS e)))
           | inr t => (Some t, None)
           end) in
    (Event (CreateTrailWithContext input) x :: fst rest, snd rest).
Proof.
  unfold createTrailAttempt, createTrail. cbn.
  by destruct (o m (CreateTrailWithContext input)).
Qed.

(** The executions of the retry loop of [resourceCloudTrailCreate]. *)
Lemma createTrail_loop (o : oracle answer) (input : CreateTrailInput) attempts :
  forall m t0 before,
  exists denials final r,
    run o m (RetryContext attempts (createTrailAttempt input) t0 before)
      = ((map (denied input) denials ++ final)%list, Returns r)
    /\ Forall (fun e => accessDenied e = true) denials
    /\ (length denials <= attempts)%nat
    /\ ((exists t, final = [created input t] /\ r = (Some t, None))
        \/ (exists e, final = [denied input e] /\ accessDenied e = false
                      /\ r = (None, Some (AWS e)))
        \/ (final = [] /\ length denials = attempts
            /\ snd r = Some (retryTimeoutResult (lastError before denials)))).
Proof.
  induction attempts as [| attempts IH]; intros m t0 before.
  - exists [], [], (t0, Some (retryTimeoutResult before)). cbn. eauto 10.
  - cbn [RetryContext]. rewrite run_createTrailAttempt. cbn zeta.
    destruct (o m (CreateTrailWithContext input)) as [e | t] eqn:Ho.
    + cbn [bind snd fst run]. rewrite classify_accessDenied.
      destruct (accessDenied e) eqn:He.
      * destruct (IH (S m) None (Some (AWS e))) as (denials & final & r & Hrun & Hall & Hlen & Hend).
        exists (e :: denials), final, r. rewrite Hrun. cbn [fst snd map app].
        split; [done|]. split; [by constructor|]. split; [cbn; lia|].
        destruct Hend as [Hend | [Hend | (-> & <- & Hr)]]; [by left | by right; left |].
        right; right. by rewrite <- lastError_cons.
      * exists [], [denied input e], (None, Some (AWS e)). cbn.
        split; [done|]. split; [done|]. split; [lia|]. right; left. eauto.
    + exists [], [created input t], (Some t, None). cbn.
      split; [done|]. split; [done|]. split; [lia|]. left. eauto.
Qed.

(** C6, as the handler has it.  [resourceCloudTrailCreate] asks how many
    attempts the propagation timeout allows and then calls [CreateTrail] in
    a retry loop.  An attempt
    is retried only when it failed with
    [InvalidCloudWatchLogsRoleArnException] or
    [InvalidCloudWatchLogsLogGroupArnException] and a message containing
    "Access denied." ([denials] are these failures, at most as many as the
    timeout allows).  The loop ends with an attempt that succeeds, or with
    an attempt that fails with any other error, which makes the handler
    return an error diagnostic at once, or because the timeout has elapsed.
    In the last case, if [tfresource.TimedOut] holds of the error of the
    loop, exactly one more [CreateTrail] call is made, and the handler goes
    on if it succeeds and returns an error diagnostic if it fails; if not,
    no further call is made and the handler returns that error.  Apart from
    these, the execution contains no [CreateTrail] call.  It is assumed
    that [tfresource.TimedOut] holds neither of nil nor of an error
    returned by the AWS SDK. *)
Theorem resourceCloudTrailCreate_retries
    (d : ResourceData) (o : oracle answer)
    (Hnil : TimedOut None = false)
    (Haws : forall e : awserr, TimedOut (Some (AWS e)) = false) :
  let input := createTrailInput d in
  let attempts := o 0%nat (attemptsWithin propagationTimeout) in
  (forall e, classify (AWS e) =
             if accessDenied e then RetryableError (AWS e) else NonRetryableError (AWS e))
  /\ exists (denials : list awserr) (rest : list (event answer)),
    trace o (resourceCloudTrailCreate d)
      = (Event (attemptsWithin propagationTimeout) attempts
           :: map (denied input) denials ++ rest)%list
    /\ Forall (fun e => accessDenied e = true) denials
    /\ (length denials <= attempts)%nat
    /\ ((exists t after, rest = created input t :: after /\ noCreateTrail after)
        \/ (exists e, rest = [denied input e] /\ accessDenied e = false
                      /\ result o (resourceCloudTrailCreate d) = createFailed d (AWS e))
        \/ (length denials = attempts
            /\ let err := retryTimeoutResult (lastError None denials) in
               if TimedOut (Some err)
               then (exists t after, rest = created input t :: after /\ noCreateTrail after)
                    \/ (exists e, rest = [denied input e]
                         /\ result o (resourceCloudTrailCreate d) = createFailed d (AWS e))
               else rest = []
                    /\ result o (resourceCloudTrailCreate d) = createFailed d err)).
Proof.
  intros input attempts. split; [apply classify_accessDenied|].
  unfold trace, result, resourceCloudTrailCreate.
  cbn [bind invoke run fst snd]. fold input attempts.
  rewrite run_bind.
  destruct (createTrail_loop o input attempts 1 None None)
    as (denials & final & r & Hrun & Hall & Hlen & Hend).
  rewrite Hrun. cbn [fst snd].
  match goal with
  | |- context [bind (if TimedOut _ then _ else _) ?k] => set (K := k)
  end.
  assert (HK : forall t, callsAll (fun c => isCreateTrail c = false) (K (Some t, None))).
  { intros t. unfold K. cbn [fst snd].
    unfold orReturn, setLogging, setEventSelectors, setAdvancedEventSelectors,
      setInsightSelectors, resourceCloudTrailRead, getLoggingStatus.
    cbn [set_each]. calls_all. }
  assert (HKe : forall x e,
             K (x, Some e) = Done (d, AppendErrorf [] "creating CloudTrail: %s" []
                                        (Some e))) by reflexivity.
  clearbody K.
  set (m := (1 + length (map (denied input) denials ++ final))%nat).
  destruct Hend as [(t & -> & ->) | [(e & -> & He & ->) | (-> & Hn & Hr)]].
  - cbn [snd]. rewrite Hnil. cbn [bind].
    exists denials, (created input t :: fst (run o m (K (Some t, None)))).
    split; [by rewrite <- app_assoc|]. split; [done|]. split; [done|].
    left. exists t, (fst (run o m (K (Some t, None)))).
    split; [done|]. apply (callsAll_run (fun c => isCreateTrail c = false)), HK.
  - cbn [snd]. rewrite Haws. cbn [bind]. rewrite HKe. cbn [run fst snd].
    exists denials, [denied input e].
    split; [by rewrite app_nil_r|]. split; [done|]. split; [done|].
    right; left. by exists e.
  - destruct r as [t0 e0]. cbn [snd] in *. subst e0.
    rewrite !app_nil_r.
    destruct (TimedOut (Some (retryTimeoutResult (lastError None denials)))) eqn:HT.
    + unfold createTrail. cbn [bind invoke run fst snd].
      destruct (o m (CreateTrailWithContext input)) as [e | t] eqn:Ho.
      * cbn [bind fst snd sdkErr fmap option_fmap option_map].
        rewrite HKe. cbn [run fst snd].
        exists denials, [denied input e].
        split; [done|]. split; [done|]. split; [done|].
        right; right. split; [done|]. cbn zeta. rewrite HT. right. by exists e.
      * cbn [bind fst snd sdkErr fmap option_fmap option_map].
        exists denials, (created input t :: fst (run o (S m) (K (Some t, None)))).
        split; [done|]. split; [done|]. split; [done|].
        right; right. split; [done|]. cbn zeta. rewrite HT. left.
        exists t, (fst (run o (S m) (K (Some t, None)))).
        split; [done|]. apply (callsAll_run (fun c => isCreateTrail c = false)), HK.
    + cbn [bind]. rewrite HKe. cbn [run fst snd].
      exists denials, [].
      split; [by rewrite !app_nil_r|]. split; [done|]. split; [done|].
      right; right. split; [done|]. cbn zeta. by rewrite HT.
Qed.
End CreateTrailRetry.

Lemma resourceCloudTrailCreate_retries_witness :
  let d := sample.data "trail-1" true ∅ ∅ in
  let o := sample.trailDenied 2 5 in
  let input := cloudtrail.createTrailInput (H := sample.helpers) d in
  let attempts := o 0%nat (cloudtrail.attemptsWithin 120) in
  let handler := cloudtrail.resourceCloudTrailCreate (H := sample.helpers) in
  let failure := cloudtrail.createFailed d in
  (forall e, cloudtrail.classify (goerr.AWS e) =
             if cloudtrail.accessDenied e then retry.RetryableError (goerr.AWS e)
             else retry.NonRetryableError (goerr.AWS e))
  /\ exists (denials : list goerr.awserr) (rest : list (exec.event cloudtrail.answer)),
    exec.trace o (handler d)
      = (exec.Event (cloudtrail.attemptsWithin 120) attempts
           :: map (cloudtrail.denied input) denials ++ rest)%list
    /\ Forall (fun e => cloudtrail.accessDenied e = true) denials
    /\ (length denials <= attempts)%nat
    /\ ((exists t after, rest = cloudtrail.created input t :: after
                         /\ cloudtrail.noCreateTrail after)
        \/ (exists e, rest = [cloudtrail.denied input e]
                      /\ cloudtrail.accessDenied e = false
                      /\ exec.result o (handler d) = failure (goerr.AWS e))
        \/ (length denials = attempts
            /\ let err := retryTimeoutResult (Helpers := sample.helpers)
                            (cloudtrail.lastError None denials) in
               if TimedOut (Helpers := sample.helpers) (Some err)
               then (exists t after, rest = cloudtrail.created input t :: after
                                     /\ cloudtrail.noCreateTrail after)
                    \/ (exists e, rest = [cloudtrail.denied input e]
                         /\ exec.result o (handler d) = failure (goerr.AWS e))
               else rest = [] /\ exec.result o (handler d) = failure err)).
Proof.
  intros d o input attempts handler failure.
  apply (resourceCloudTrailCreate_retries (H := sample.helpers) d o).
  - reflexivity.
  - intros e. reflexivity.
Defined.

(** Two denials are retried and the third attempt creates the trail. *)
Example create_trail_after_two_denials :
  let tr := exec.trace (sample.trailDenied 2 5)
              (cloudtrail.resourceCloudTrailCreate (H := sample.helpers)
                 (sample.data "trail-1" true ∅ ∅)) in
  map cloudtrail.createTrailError (filter (fun ev => cloudtrail.isCreateTrail (exec.ev_call ev)) tr)
  = [Some (goerr.AwsErr "InvalidCloudWatchLogsRoleArnException"
                        "Access denied. Check the trust relationships for your role.");
     Some (goerr.AwsErr "InvalidCloudWatchLogsRoleArnException"
                        "Access denied. Check the trust relationships for your role.");
     None].
Proof. vm_compute. reflexivity. Qed.

(** When the timeout leaves no time for an attempt, the loop reports a
    timeout and one attempt is made after it. *)
Example create_trail_after_timeout :
  let tr := exec.trace (sample.trailPresent 0)
              (cloudtrail.resourceCloudTrailCreate (H := sample.helpers)
                 (sample.data "trail-1" true ∅ ∅)) in
  map cloudtrail.createTrailError (filter (fun ev => cloudtrail.isCreateTrail (exec.ev_call ev)) tr)
  = [None].
Proof. vm_compute. reflexivity. Qed.

(** C6 as stated fails.  The timeout allows two attempts and both are denied
    access, so the retry loop times out.  [retry.RetryContext] then returns
    the error of the last attempt, of which [tfresource.TimedOut] does not
    hold: the handler makes no third [CreateTrail] call and returns the
    error diagnostic of the denial. *)
Lemma create_trail_timeout_after_denials :
  let d := sample.data "trail-1" true ∅ ∅ in
  let o := sample.trailDenied 100 2 in
  let handler := cloudtrail.resourceCloudTrailCreate (H := sample.helpers) in
  let denial :=
    goerr.AwsErr "InvalidCloudWatchLogsRoleArnException"
                 "Access denied. Check the trust relationships for your role." in
  let attempts := o 0%nat (cloudtrail.attemptsWithin 120) in
  let calls := filter (fun ev => cloudtrail.isCreateTrail (exec.ev_call ev))
                 (exec.trace o (handler d)) in
  attempts = 2%nat
  /\ cloudtrail.accessDenied denial = true
  /\ map cloudtrail.createTrailError calls = [Some denial; Some denial]
  /\ length calls <> (attempts + 1)%nat
  /\ exec.result o (handler d) = cloudtrail.createFailed d (goerr.AWS denial).
Proof. vm_compute. repeat split; congruence. Qed.

(* ===================================================================== *)
(** * The handlers of a resource definition *)
(* ===================================================================== *)

Section ResourceHandlers.
Import schema.
Context `{Helpers}.

(** C4, as the definitions have it.  [ResourceACL],
    [ResourceOpenzfsFileSystem] and [ResourceCloudTrail] each provide the
    four handlers Create, Read, Update and Delete, namely the functions of
    their package, and none of them sets an Exists handler. *)
Theorem resources_provide_crud_handlers :
  (providesCRUD memorydb.ResourceACL
   /\ CreateWithoutTimeout memorydb.ResourceACL = Some memorydb.resourceACLCreate
   /\ ReadWithoutTimeout memorydb.ResourceACL = Some memorydb.resourceACLRead
   /\ UpdateWithoutTimeout memorydb.ResourceACL = Some memorydb.resourceACLUpdate
   /\ DeleteWithoutTimeout memorydb.ResourceACL = Some memorydb.resourceACLDelete
   /\ Exists memorydb.ResourceACL = None)
  /\
  (providesCRUD fsx.ResourceOpenzfsFileSystem
   /\ CreateWithoutTimeout fsx.ResourceOpenzfsFileSystem
        = Some fsx.resourceOpenzfsFileSystemCreate
   /\ ReadWithoutTimeout fsx.ResourceOpenzfsFileSystem
        = Some fsx.resourceOpenzfsFileSystemRead
   /\ UpdateWithoutTimeout fsx.ResourceOpenzfsFileSystem
        = Some fsx.resourceOpenzfsFileSystemUpdate
   /\ DeleteWithoutTimeout fsx.ResourceOpenzfsFileSystem
        = Some fsx.resourceOpenzfsFileSystemDelete
   /\ Exists fsx.ResourceOpenzfsFileSystem = None)
  /\
  (providesCRUD cloudtrail.ResourceCloudTrail
   /\ CreateWithoutTimeout cloudtrail.ResourceCloudTrail
        = Some cloudtrail.resourceCloudTrailCreate
   /\ ReadWithoutTimeout cloudtrail.ResourceCloudTrail
        = Some cloudtrail.resourceCloudTrailRead
   /\ UpdateWithoutTimeout cloudtrail.ResourceCloudTrail
        = Some cloudtrail.resourceCloudTrailUpdate
   /\ DeleteWithoutTimeout cloudtrail.ResourceCloudTrail
        = Some cloudtrail.resourceCloudTrailDelete
   /\ Exists cloudtrail.ResourceCloudTrail = None).
Proof.
  unfold providesCRUD. cbn. repeat split; eauto.
Qed.
End ResourceHandlers.

(** C4 as stated fails: neither [ResourceACL] nor
    [ResourceOpenzfsFileSystem] carries an Exists handler. *)
Lemma resources_have_no_exists_handler :
  ~ schema.providesCRUDAndExists (memorydb.ResourceACL (H := sample.helpers))
  /\ ~ schema.providesCRUDAndExists (fsx.ResourceOpenzfsFileSystem (H := sample.helpers)).
Proof.
  split; intros [_ [h Hh]]; discriminate.
Qed.

(* ===================================================================== *)
(** * Expanding and flattening the disk IOPS configuration *)
(* ===================================================================== *)

Section DiskIops.
Import schema fsx.

Lemma nonempty_length (s : string) : s <> "" -> (0 <? Z.of_nat (String.length s)) = true.
Proof. by destruct s. Qed.

(** C5, as the functions have it.  For a one-element configuration list
    whose element maps "mode" to a non-empty string and "iops" to an [int],
    [expandOpenzfsFileDiskIopsConfiguration] returns the struct with that
    mode and that number of IOPS, and flattening this struct gives the
    one-element list whose map holds "mode" with the same string and "iops"
    with the same number as an [int64], and nothing else.  The empty list
    expands to nil and nil flattens to the empty list. *)
Theorem disk_iops_expand_flatten
    (conf : gmap string iface) (mode : string) (iops : Z)
    (Hmode : conf !! "mode" = Some (IString mode))
    (Hnonempty : mode <> "")
    (Hiops : conf !! "iops" = Some (IInt iops)) :
  expandOpenzfsFileDiskIopsConfiguration [IMap conf]
    = Returns (Some {| Iops := Some iops; Mode := Some mode |})
  /\ outcome_map flattenOpenzfsFileDiskIopsConfiguration
       (expandOpenzfsFileDiskIopsConfiguration [IMap conf])
     = Returns [IMap (<["iops" := IInt64 iops]> (<["mode" := IString mode]> ∅))]
  /\ expandOpenzfsFileDiskIopsConfiguration [] = Returns None
  /\ flattenOpenzfsFileDiskIopsConfiguration None = [].
Proof.
  unfold expandOpenzfsFileDiskIopsConfiguration. rewrite Hmode, Hiops. cbn.
  rewrite nonempty_length by done. done.
Qed.

Lemma disk_iops_expand_flatten_witness :
  expandOpenzfsFileDiskIopsConfiguration sample.diskIops
    = Returns (Some {| Iops := Some 3000; Mode := Some "USER_PROVISIONED" |})
  /\ outcome_map flattenOpenzfsFileDiskIopsConfiguration
       (expandOpenzfsFileDiskIopsConfiguration sample.diskIops)
     = Returns [IMap (<["iops" := IInt64 3000]>
                        (<["mode" := IString "USER_PROVISIONED"]> ∅))]
  /\ expandOpenzfsFileDiskIopsConfiguration [] = Returns None
  /\ flattenOpenzfsFileDiskIopsConfiguration None = [].
Proof.
  apply (disk_iops_expand_flatten _ "USER_PROVISIONED" 3000).
  - reflexivity.
  - discriminate.
  - reflexivity.
Defined.

(** C5 as stated fails: [sample.diskIops] maps "mode" to a non-empty string
    and "iops" to an [int], and flattening its expansion returns a list that
    is not [sample.diskIops], the "iops" of which is an [int] and not an
    [int64]. *)
Lemma disk_iops_round_trip_fails :
  (exists l, outcome_map flattenOpenzfsFileDiskIopsConfiguration
               (expandOpenzfsFileDiskIopsConfiguration sample.diskIops) = Returns l)
  /\ outcome_map flattenOpenzfsFileDiskIopsConfiguration
       (expandOpenzfsFileDiskIopsConfiguration sample.diskIops)
     <> Returns sample.diskIops.
Proof.
  split; [by eexists|].
  intros Heq.
  apply (f_equal (fun l : outcome (list iface) =>
                    match l with
                    | Returns [IMap m] => m !! "iops"
                    | _ => None
                    end)) in Heq.
  vm_compute in Heq. discriminate.
Qed.
End DiskIops.

(* ===================================================================== *)
(** * IsZero *)
(* ===================================================================== *)

Section IsZero.
Import types.

(** Induction on values, with the hypothesis for the values inside a slice,
    a map, an array, a struct or an interface. *)
Lemma GoValue_nested_ind (P : GoValue -> Prop) :
  (forall b, P (VBool b)) -> (forall n, P (VInt n)) -> (forall n, P (VUint n)) ->
  (forall bits, P (VFloat bits)) -> (forall real imag, P (VComplex real imag)) ->
  (forall s, P (VString s)) ->
  P VPointerNil -> (forall addr, P (VPointer addr)) ->
  P VUnsafePointerNil -> (forall addr, P (VUnsafePointer addr)) ->
  P VChanNil -> (forall addr, P (VChan addr)) ->
  P VFuncNil -> (forall addr, P (VFunc addr)) ->
  P VSliceNil -> (forall elems, Forall P elems -> P (VSlice elems)) ->
  P VMapNil ->
  (forall entries, Forall (fun kv => P (fst kv) /\ P (snd kv)) entries -> P (VMap entries)) ->
  (forall elems, Forall P elems -> P (VArray elems)) ->
  (forall fields, Forall P fields -> P (VStruct fields)) ->
  P VInterfaceNil -> (forall t v, P v -> P (VInterface t v)) ->
  forall v, P v.
Proof.
  intros HBool HInt HUint HFloat HComplex HString HPtrNil HPtr HUnsafeNil HUnsafe
    HChanNil HChan HFuncNil HFunc HSliceNil HSlice HMapNil HMap HArray HStruct
    HIfaceNil HIface.
  fix IH 1.
  intros [b | n | n | bits | real imag | s | | addr | | addr | | addr | | addr
         | | elems | | entries | elems | fields | | t v].
  - apply HBool.
  - apply HInt.
  - apply HUint.
  - apply HFloat.
  - apply HComplex.
  - apply HString.
  - apply HPtrNil.
  - apply HPtr.
  - apply HUnsafeNil.
  - apply HUnsafe.
  - apply HChanNil.
  - apply HChan.
  - apply HFuncNil.
  - apply HFunc.
  - apply HSliceNil.
  - apply HSlice. induction elems as [| x elems IHl]; constructor; [apply IH | apply IHl].
  - apply HMapNil.
  - apply HMap. induction entries as [| [k x] entries IHl]; constructor;
      [split; apply IH | apply IHl].
  - apply HArray. induction elems as [| x elems IHl]; constructor; [apply IH | apply IHl].
  - apply HStruct. induction fields as [| x fields IHl]; constructor; [apply IH | apply IHl].
  - apply HIfaceNil.
  - apply HIface, IH.
Qed.

(** On a valid Value, [reflect.Value.IsZero] holds exactly of the zero value
    of the Value's type. *)
Lemma Value_IsZero_zeroValue (v : GoValue) :
  forall t, hasType t v -> (Value_IsZero t v = true <-> v = zeroValue t).
Proof.
  induction v as [b | n | n | bits | real imag | s | | addr | | addr | | addr | | addr
                 | | elems IH | | entries IH | elems IH | fields IH
                 | | dt dv IH] using GoValue_nested_ind;
    intros [| | | | | | e | | e | | e | k e | len e | ts |]; cbn; try tauto;
    try (intros _; split; done).
  - intros _. destruct b; split; intros; by simplify_eq/=.
  - intros _. rewrite Z.eqb_eq. split; intros; by simplify_eq/=.
  - intros _. rewrite N.eqb_eq. split; intros; by simplify_eq/=.
  - intros _. rewrite N.eqb_eq. split; intros; by simplify_eq/=.
  - intros _. rewrite andb_true_iff, !N.eqb_eq. split; [intros [-> ->] | intros [= -> ->]]; done.
  - intros _. destruct s; split; intros; by simplify_eq/=.
  - intros [Hlen Hty]. subst len.
    induction elems as [| x elems IHl]; cbn; [by split|].
    apply Forall_cons in IH as [Hx IH]. destruct Hty as [Hxt Hty].
    rewrite andb_true_iff, (Hx e Hxt), (IHl IH Hty).
    split; [intros [-> [= Heq]]; congruence | intros [= -> Heq]; by rewrite <- Heq].
  - revert ts. induction fields as [| x fields IHl]; intros [| t ts]; cbn;
      try tauto; try (by split).
    apply Forall_cons in IH as [Hx IH]. intros [Hxt Hty].
    rewrite andb_true_iff, (Hx t Hxt), (IHl IH ts Hty).
    split; [intros [-> [= Heq]]; congruence | intros [= -> Heq]; by rewrite <- Heq].
Qed.

(** For a type that is not an interface type, [IsZero] returns, and returns
    true exactly when the pointer is nil or points to the zero value; a
    negative zero is not the zero value of its type.  Interface types may
    occur inside the type, as the type of a field or of an element. *)
Lemma IsZero_not_interface (T : GoType) (x : GoValue) :
  T <> TInterface -> hasType T x ->
  IsZero T None = Returns true
  /\ exists b, IsZero T (Some x) = Returns b /\ (b = true <-> x = zeroValue T).
Proof.
  intros HT Hty. split; [done|].
  exists (Value_IsZero T x). split; [by destruct T | by apply Value_IsZero_zeroValue].
Qed.

(** C10 at an interface type.  The pointer to a freshly zero-initialised
    variable of type [interface{}] points to the zero value of its type, and
    [IsZero] panics on it; the pointer to a variable of type [interface{}]
    holding the [int] 0 does not point to the zero value of its type, and
    [IsZero] returns true on it. *)
Theorem IsZero_interface :
  hasType TInterface (zeroValue TInterface)
  /\ IsZero TInterface (Some (zeroValue TInterface)) = Panics
  /\ hasType TInterface (VInterface TInt (VInt 0))
  /\ VInterface TInt (VInt 0) <> zeroValue TInterface
  /\ IsZero TInterface (Some (VInterface TInt (VInt 0))) = Returns true.
Proof.
  cbn. repeat split; done.
Qed.
End IsZero.

(* ===================================================================== *)
(** * The partial match of security group rules *)
(* ===================================================================== *)

Section RuleAttributes.
Import goerr ec2_test.
Context {A : Type} (value : A -> option string).

Implicit Types (ip rip : A) (ps rs : list A).

Lemma inner_loop ip rs (remaining : Z) :
  fold_left
    (fun remaining rip =>
       match value ip, value rip with
       | Some a, Some b => if String.eqb a b then remaining - 1 else remaining
       | _, _ => remaining
       end) rs remaining
  = remaining - Z.of_nat (occurrences value ip rs).
Proof.
  revert remaining.
  induction rs as [| rip rs IH]; intros remaining; cbn [fold_left occurrences]; [lia|].
  rewrite IH. unfold bothSetEqual.
  destruct (value ip) as [a |], (value rip) as [b |]; try lia.
  destruct (String.eqb a b); lia.
Qed.

Lemma outer_loop ps rs (remaining : Z) :
  fold_left
    (fun remaining ip =>
       fold_left
         (fun remaining rip =>
            match value ip, value rip with
            | Some a, Some b => if String.eqb a b then remaining - 1 else remaining
            | _, _ => remaining
            end) rs remaining) ps remaining
  = remaining - Z.of_nat (sum_list (map (fun ip => occurrences value ip rs) ps)).
Proof.
  revert remaining. induction ps as [| ip ps IH]; intros remaining; cbn; [lia|].
  rewrite inner_loop, IH. lia.
Qed.

Lemma remainingAfter_occurrences (ps rs : list A) :
  remainingAfter value ps rs
  = Z.of_nat (length ps) - Z.of_nat (sum_list (map (fun ip => occurrences value ip rs) ps)).
Proof. apply outer_loop. Qed.

Lemma occurrences_pos ip rs :
  (0 < occurrences value ip rs)%nat <->
  exists c rip, value ip = Some c /\ rip ∈ rs /\ value rip = Some c.
Proof.
  induction rs as [| rip rs IH]; cbn [occurrences].
  - split; [lia|]. intros (c & rip & _ & Hin & _). by apply elem_of_nil in Hin.
  - split.
    + intros Hpos. destruct (bothSetEqual value ip rip) eqn:Heq.
      * unfold bothSetEqual in Heq.
        destruct (value ip) as [a |] eqn:Ha, (value rip) as [b |] eqn:Hb; try done.
        apply String.eqb_eq in Heq as ->. exists b, rip. by rewrite elem_of_cons; eauto.
      * destruct IH as [IH _]. destruct IH as (c & rip' & Hc & Hin & Hr); [lia|].
        exists c, rip'. rewrite elem_of_cons. eauto.
    + intros (c & rip' & Hc & Hin & Hr). apply elem_of_cons in Hin as [-> | Hin].
      * unfold bothSetEqual. rewrite Hc, Hr, String.eqb_refl. lia.
      * assert (0 < occurrences value ip rs)%nat by (apply IH; eauto). lia.
Qed.

Lemma occurrences_le_1 ip rs :
  distinctValues value rs -> (occurrences value ip rs <= 1)%nat.
Proof.
  unfold distinctValues. induction rs as [| rip rs IH]; cbn [occurrences omap list_omap];
    [lia|].
  intros Hnd. destruct (bothSetEqual value ip rip) eqn:Heq.
  - unfold bothSetEqual in Heq.
    destruct (value ip) as [a |] eqn:Ha, (value rip) as [b |] eqn:Hb; try done.
    apply String.eqb_eq in Heq as ->.
    apply NoDup_cons in Hnd as [Hnotin Hnd].
    assert (~ (0 < occurrences value ip rs)%nat) as Hz; [|lia].
    rewrite occurrences_pos. intros (c & rip' & Hc & Hin & Hr).
    apply Hnotin. apply list_elem_of_omap. exists rip'. split; [done|]. congruence.
  - assert (NoDup (omap value rs)) as Hnd'.
    { destruct (value rip); [by apply NoDup_cons in Hnd as [_ ?] | done]. }
    specialize (IH Hnd'). lia.
Qed.

Lemma sum_ge_length (f : A -> nat) (ps : list A) :
  (forall ip, f ip <= 1)%nat ->
  (length ps <= sum_list (map f ps))%nat <-> forall ip, ip ∈ ps -> (0 < f ip)%nat.
Proof.
  intros Hle. induction ps as [| ip ps IH]; cbn.
  - split; [intros _ ip Hin; by apply elem_of_nil in Hin | lia].
  - assert (sum_list (map f ps) <= length ps)%nat as Hub.
    { clear IH. induction ps as [| q ps IHq]; cbn; [lia|]. specialize (Hle q). lia. }
    specialize (Hle ip). split.
    + intros Hsum ip' Hin. apply elem_of_cons in Hin as [-> | Hin]; [lia|].
      apply IH; [lia | done].
    + intros Hall. pose proof (Hall ip (list_elem_of_here _ _)).
      assert (length ps <= sum_list (map f ps))%nat; [|lia].
      apply IH. intros ip' Hin. apply Hall. by right.
Qed.

(** With no value set twice in [rs], the counter ends at zero or below
    exactly when every entry of [ps] has its value set and listed in [rs]. *)
Lemma remainingAfter_distinct (ps rs : list A) :
  distinctValues value rs ->
  (0 <? remainingAfter value ps rs) = false <-> allSetAndListedIn value ps rs.
Proof.
  intros Hnd. rewrite remainingAfter_occurrences, Z.ltb_ge.
  unfold allSetAndListedIn.
  transitivity (length ps <= sum_list (map (fun ip => occurrences value ip rs) ps))%nat; [lia|].
  rewrite sum_ge_length by (intros ip; by apply occurrences_le_1).
  split; intros Hall ip Hin; apply occurrences_pos, Hall, Hin.
Qed.
End RuleAttributes.

Section RuleAttributesCheck.
Import goerr ec2_test.

Lemma differ_Z_agree (x y : option Z) : differ Z.eqb x y = false <-> agree x y.
Proof.
  unfold differ, agree. destruct x as [a |], y as [b |]; try (split; [intros; congruence | done]).
  rewrite negb_false_iff, Z.eqb_eq. split; [intros -> ? ? [= <-] [= <-]; done | eauto].
Qed.

Lemma differ_string_agree (x y : option string) :
  differ String.eqb x y = false <-> agree x y.
Proof.
  unfold differ, agree. destruct x as [a |], y as [b |]; try (split; [intros; congruence | done]).
  rewrite negb_false_iff, String.eqb_eq. split; [intros -> ? ? [= <-] [= <-]; done | eauto].
Qed.

Lemma reachesMatch_partialMatchSet (p r : IpPermission) :
  distinctEntries r -> reachesMatch p r = true <-> partialMatchSet p r.
Proof.
  intros (H4 & H6 & Hg & Hp). unfold reachesMatch, partialMatchSet.
  rewrite <- !differ_Z_agree, <- differ_string_agree.
  rewrite <- (remainingAfter_distinct CidrIp _ _ H4),
          <- (remainingAfter_distinct CidrIpv6 _ _ H6),
          <- (remainingAfter_distinct GroupId _ _ Hg),
          <- (remainingAfter_distinct PrefixListId_ _ _ Hp).
  destruct (differ Z.eqb (ToPort p) (ToPort r)),
    (differ Z.eqb (FromPort p) (FromPort r)),
    (differ String.eqb (IpProtocol p) (IpProtocol r)),
    (0 <? remainingAfter CidrIp (IpRanges p) (IpRanges r)),
    (0 <? remainingAfter CidrIpv6 (Ipv6Ranges p) (Ipv6Ranges r)),
    (0 <? remainingAfter GroupId (UserIdGroupPairs p) (UserIdGroupPairs r)),
    (0 <? remainingAfter PrefixListId_ (PrefixListIds p) (PrefixListIds r));
    intuition congruence.
Qed.

Lemma matchingRule_found (p : IpPermission) (rules : list IpPermission)
    (found : option IpPermission) :
  is_Some (fold_left (fun matchingRule r => if reachesMatch p r then Some r else matchingRule)
                     rules found)
  <-> is_Some found \/ exists r, r ∈ rules /\ reachesMatch p r = true.
Proof.
  revert found. induction rules as [| r rules IH]; intros found; cbn.
  - split; [by left|]. intros [? | (r & Hin & _)]; [done | by apply elem_of_nil in Hin].
  - rewrite IH. destruct (reachesMatch p r) eqn:Hr.
    + split; [|by left]. intros _. right. exists r. split; [left | done].
    + split.
      * intros [? | (r' & Hin & Hr')]; [by left|]. right. exists r'. split; [by right | done].
      * intros [? | (r' & Hin & Hr')]; [by left|]. right. exists r'.
        apply elem_of_cons in Hin as [-> | Hin]; [congruence | done].
Qed.

(** C2, as the check has it.  When the state holds the resource with a
    non-empty ID and no rule of the chosen type lists a CIDR block, a group id
    or a prefix list id twice, the check succeeds if and only if the rule list
    of that type is not empty and contains a rule [r] that agrees with [p] on
    FromPort, ToPort and IpProtocol whenever both sides set them, and such
    that every IPv4 range, IPv6 range, group pair and prefix list entry of
    [p] has its CIDR block or id set and found among the corresponding
    entries of [r]; when the rule list is empty the check returns an error.
    [p] is the permission passed, or the default one when nil is passed. *)
Theorem rule_attributes_partial_match
    (n : string) (group : SecurityGroup) (p : option IpPermission) (ruleType : string)
    (s : State) (rs : ResourceState)
    (Hfound : Resources s !! n = Some rs)
    (Hid : Primary_ID rs <> "")
    (Hdistinct : forall r, r ∈ rulesOf group ruleType -> distinctEntries r) :
  let expected := default defaultPermission p in
  let rules := rulesOf group ruleType in
  (testAccCheckSecurityGroupRuleAttributes n group p ruleType s = None
   <-> rules <> [] /\ exists r, r ∈ rules /\ partialMatchSet expected r)
  /\ (rules = [] ->
      testAccCheckSecurityGroupRuleAttributes n group p ruleType s = Some (New "No IPPerms")).
Proof.
  intros expected rules. unfold testAccCheckSecurityGroupRuleAttributes.
  rewrite Hfound. apply String.eqb_neq in Hid. rewrite Hid.
  fold expected rules. split.
  - destruct rules as [| r0 rules0] eqn:Hrules.
    { cbn. split; [done | by intros [? _]]. }
    rewrite <- Hrules in *.
    replace (Z.of_nat (length rules) =? 0) with false by (rewrite Hrules; done).
    pose proof (matchingRule_found expected rules None) as Hm.
    destruct (fold_left _ rules None) as [m |].
    + split; [intros _ | done]. split; [by rewrite Hrules|].
      destruct Hm as [Hm _]. destruct Hm as [[? [=]] | (r & Hin & Hr)]; [by eexists|].
      exists r. split; [done|]. by apply reachesMatch_partialMatchSet; [apply Hdistinct|].
    + split; [done|]. intros [_ (r & Hin & Hr)]. exfalso.
      destruct Hm as [_ Hm]. destruct Hm as [? [=]]. right. exists r. split; [done|].
      by apply reachesMatch_partialMatchSet; [apply Hdistinct|].
  - by intros ->.
Qed.
End RuleAttributesCheck.

Lemma rule_attributes_partial_match_witness :
  let group := sample.groupWithIngress [sample.tcpPermission ["10.0.0.0/8"; "192.168.0.0/16"]] in
  let expected := default ec2_test.defaultPermission None in
  let rules := ec2_test.rulesOf group "ingress" in
  (ec2_test.testAccCheckSecurityGroupRuleAttributes
     "aws_security_group_rule.test" group None "ingress" sample.ruleState = None
   <-> rules <> [] /\ exists r, r ∈ rules /\ ec2_test.partialMatchSet expected r)
  /\ (rules = [] ->
      ec2_test.testAccCheckSecurityGroupRuleAttributes
        "aws_security_group_rule.test" group None "ingress" sample.ruleState
      = Some (goerr.New "No IPPerms")).
Proof.
  intros group.
  apply (rule_attributes_partial_match "aws_security_group_rule.test" group None "ingress"
           sample.ruleState {| ec2_test.Primary_ID := "sgrule-3403497314" |}).
  - reflexivity.
  - discriminate.
  - intros r Hr. apply list_elem_of_singleton in Hr as ->.
    repeat split; cbn; repeat constructor; set_solver.
Defined.

(** C2 as stated fails.  The group's only ingress rule is the permission
    looked for, so the rule list is not empty and contains a rule that agrees
    with the permission and lists its CIDR block.  The check nevertheless
    returns an error when the state does not hold the resource named, and
    when it holds it with an empty ID: both are tested before the rules are
    looked at. *)
Lemma rule_attributes_state_guards :
  let group := sample.groupWithIngress [sample.tcpPermission ["10.0.0.0/8"]] in
  let p := sample.tcpPermission ["10.0.0.0/8"] in
  let check := ec2_test.testAccCheckSecurityGroupRuleAttributes
                 "aws_security_group_rule.test" group (Some p) "ingress" in
  let missing := {| ec2_test.Resources := ∅ |} in
  let unset :=
    {| ec2_test.Resources :=
         {[ "aws_security_group_rule.test" := {| ec2_test.Primary_ID := "" |} ]} |} in
  (ec2_test.rulesOf group "ingress" <> []
   /\ exists r, r ∈ ec2_test.rulesOf group "ingress" /\ ec2_test.partialMatch p r)
  /\ check sample.ruleState = None
  /\ check missing = Some (goerr.New "Security Group Rule Not found: %s")
  /\ check unset = Some (goerr.New "No Security Group Rule is set").
Proof.
  intros group p check missing unset. split; [|by repeat split].
  split; [done|]. exists p. split; [by apply list_elem_of_singleton|].
  repeat split; try (by intros a b [= <-] [= <-]).
  all: intros ip c Hip Hc; by exists ip.
Qed.

(** The count is not containment when a rule lists a value twice.  The
    group's only ingress rule lists 10.0.0.0/8 twice; the permission looked
    for lists 10.0.0.0/8 and 192.168.0.0/16.  The check succeeds, although
    192.168.0.0/16 does not occur in the rule. *)
Lemma rule_attributes_match_by_count :
  let group := sample.groupWithIngress [sample.tcpPermission ["10.0.0.0/8"; "10.0.0.0/8"]] in
  let p := sample.tcpPermission ["10.0.0.0/8"; "192.168.0.0/16"] in
  ec2_test.testAccCheckSecurityGroupRuleAttributes
    "aws_security_group_rule.test" group (Some p) "ingress" sample.ruleState = None
  /\ ~ (ec2_test.rulesOf group "ingress" <> []
        /\ exists r, r ∈ ec2_test.rulesOf group "ingress" /\ ec2_test.partialMatch p r).
Proof.
  intros group p. split; [reflexivity|].
  intros [_ (r & Hin & Hm)]. apply list_elem_of_singleton in Hin as ->.
  destruct Hm as (_ & _ & _ & Hl & _).
  destruct (Hl (sample.ipRange "192.168.0.0/16") "192.168.0.0/16") as (rip & Hrip & Hc).
  - cbn. set_solver.
  - reflexivity.
  - cbn in Hrip. set_unfold in Hrip. destruct Hrip as [-> | [-> | []]]; discriminate.
Qed.

(** [IsZero] on a pointer to a struct with an [int], an interface, a
    string, a [uint], a [float64] and a channel field, all zero. *)
Lemma IsZero_not_interface_witness :
  let T := types.TStruct [types.TInt; types.TInterface; types.TString; types.TUint;
                          types.TFloat; types.TChan types.TBool] in
  let x := types.VStruct [types.VInt 0; types.VInterfaceNil; types.VString "";
                          types.VUint 0; types.VFloat 0; types.VChanNil] in
  types.IsZero T None = Returns true
  /\ exists b, types.IsZero T (Some x) = Returns b /\ (b = true <-> x = types.zeroValue T).
Proof.
  intros T x. apply (IsZero_not_interface T x).
  - discriminate.
  - cbn. tauto.
Defined.

(** A struct with a non-zero field is not zero; a nil pointer is. *)
Example IsZero_struct :
  let T := types.TStruct [types.TInt; types.TString] in
  types.IsZero T (Some (types.VStruct [types.VInt 0; types.VString "x"])) = Returns false
  /\ types.IsZero T (Some (types.VStruct [types.VInt 0; types.VString ""])) = Returns true
  /\ types.IsZero T None = Returns true.
Proof. repeat split. Qed.

(** The negative zero of [float64], whose bits are the sign bit alone, is
    not zero, alone or as the field of a struct. *)
Example IsZero_negative_zero :
  let negativeZero := types.VFloat (2 ^ 63) in
  types.IsZero types.TFloat (Some negativeZero) = Returns false
  /\ types.IsZero (types.TStruct [types.TFloat]) (Some (types.VStruct [negativeZero]))
     = Returns false
  /\ types.IsZero types.TFloat (Some (types.VFloat 0)) = Returns true.
Proof. repeat split. Qed.

(* ===================================================================== *)
(** * What the handlers call *)
(* ===================================================================== *)

Section ReadOnly.
Import goerr exec schema observe.
Context `{Helpers}.

Lemma resourceACLRead_reads (d : ResourceData) :
  callsAll (fun c => readsOnly (memorydb.kind c) = true) (memorydb.resourceACLRead d).
Proof. unfold memorydb.resourceACLRead. calls_all. Qed.

Lemma resourceOpenzfsFileSystemRead_reads (d : ResourceData) :
  callsAll (fun c => readsOnly (fsx.kind c) = true) (fsx.resourceOpenzfsFileSystemRead d).
Proof. unfold fsx.resourceOpenzfsFileSystemRead. cbn [fsx.set_each]. calls_all. Qed.

Lemma resourceCloudTrailRead_reads (d : ResourceData) :
  callsAll (fun c => readsOnly (cloudtrail.kind c) = true)
    (cloudtrail.resourceCloudTrailRead d).
Proof.
  unfold cloudtrail.resourceCloudTrailRead, cloudtrail.getLoggingStatus.
  cbn [cloudtrail.set_each]. calls_all.
Qed.

(** Whatever the service answers, the Read handlers of the MemoryDB ACL, of
    the FSx OpenZFS file system and of the CloudTrail trail make no mutating
    call and call no wait function: they call the finder or the describing
    operations of the service, and write to the resource data. *)
Theorem read_handlers_only_read (d : ResourceData) :
  callsAll (fun c => readsOnly (memorydb.kind c) = true) (memorydb.resourceACLRead d)
  /\ callsAll (fun c => readsOnly (fsx.kind c) = true) (fsx.resourceOpenzfsFileSystemRead d)
  /\ callsAll (fun c => readsOnly (cloudtrail.kind c) = true)
       (cloudtrail.resourceCloudTrailRead d).
Proof.
  split; [apply resourceACLRead_reads|].
  split; [apply resourceOpenzfsFileSystemRead_reads | apply resourceCloudTrailRead_reads].
Qed.
End ReadOnly.

Section RetryCalls.
Import goerr exec exec.notations schema retry.
Context {call : Type} {answer : call -> Type} `{Helpers}.

Lemma callsAll_RetryContext {S : Type} (Q : call -> Prop) attempts
    (f : Prog answer (S * option RetryError)) :
  callsAll Q f -> forall s last, callsAll Q (RetryContext attempts f s last).
Proof.
  intros Hf. induction attempts as [| attempts IH]; intros s last; cbn; [done|].
  apply callsAll_bind; [done|]. intros r.
  destruct (snd r) as [[err | err] |]; [apply IH | done | done].
Qed.
End RetryCalls.

(** Splits the goal along the calls a program can make, keeping what each
    test has found. *)
Ltac calls_follow :=
  repeat first
    [ progress cbn [exec.callsAll exec.bind exec.invoke fst snd]
    | progress cbv beta delta [cloudtrail.orReturn fsx.try]
    | split
    | intro
    | reflexivity
    | match goal with
      | |- exec.callsAll _ (match ?x with _ => _ end) => destruct x eqn:?
      | |- exec.callsAll _ (if ?x then _ else _) => destruct x eqn:?
      | |- exec.callsAll _ (exec.bind (match ?x with _ => _ end) _) => destruct x eqn:?
      | |- exec.callsAll _ (exec.bind (if ?x then _ else _) _) => destruct x eqn:?
      | |- exec.callsAll _ (exec.bind (exec.bind (match ?x with _ => _ end) _) _) =>
          destruct x eqn:?
      end ].

Section UpdateCalls.
Import goerr exec exec.notations schema changes.
Context `{Helpers}.

Lemma acl_update_calls (d : ResourceData) :
  callsAll (aclUpdateCall d) (memorydb.resourceACLUpdate d).
Proof.
  unfold memorydb.resourceACLUpdate, memorydb.resourceACLRead, aclUpdateCall.
  calls_follow; try done.
  all: apply updateACLInput_ACLName.
Qed.

Lemma fsx_update_calls (d : ResourceData) :
  callsAll (fileSystemUpdateCall d) (fsx.resourceOpenzfsFileSystemUpdate d).
Proof.
  unfold fsx.resourceOpenzfsFileSystemUpdate, fsx.resourceOpenzfsFileSystemRead,
    fileSystemUpdateCall.
  cbn [fsx.set_each]. calls_follow; try done.
Qed.

Lemma callsAll_orReturn (Q : cloudtrail.call -> Prop) d p report k :
  callsAll Q p -> callsAll Q k -> callsAll Q (cloudtrail.orReturn d p report k).
Proof.
  intros Hp Hk. unfold cloudtrail.orReturn. apply callsAll_bind; [done|].
  by intros [e |].
Qed.

Lemma trail_read_calls (Q : cloudtrail.call -> Prop) (d : ResourceData) :
  (forall c, isReadCall c = true -> Q c) ->
  callsAll Q (r <- cloudtrail.resourceCloudTrailRead d ;; Done (fst r, ([] ++ snd r)%list)).
Proof.
  intros HQ. apply callsAll_bind; [|done].
  apply (callsAll_impl (fun c => isReadCall c = true)); [done|].
  unfold cloudtrail.resourceCloudTrailRead, cloudtrail.getLoggingStatus.
  cbn [cloudtrail.set_each]. calls_all.
Qed.

Lemma trail_update_calls (d : ResourceData) :
  callsAll (trailUpdateCall d) (cloudtrail.resourceCloudTrailUpdate d).
Proof.
  unfold cloudtrail.resourceCloudTrailUpdate.
  match goal with
  | |- callsAll _ (if _ then _ else ?k) =>
      assert (callsAll (trailUpdateCall d) k) as Hk
  end.
  { assert (Hnew : forall b, negb (IsNewResource d) && b = true ->
                     IsNewResource d = false /\ b = true).
    { intros b Hb. apply andb_true_iff in Hb as [Hn ?]. by destruct (IsNewResource d). }
    destruct (HasChange d "enable_logging") eqn:Hlogging.
    1: apply callsAll_orReturn;
         [unfold cloudtrail.setLogging;
          destruct (GetBool d "enable_logging") eqn:Hb; calls_follow; done|].
    all: destruct (negb (IsNewResource d) && HasChange d "event_selector") eqn:He.
    1,3: apply callsAll_orReturn;
         [apply Hnew in He as [? ?]; unfold cloudtrail.setEventSelectors;
          calls_follow; done|].
    all: destruct (negb (IsNewResource d) && HasChange d "advanced_event_selector") eqn:Ha.
    1,3,5,7: apply callsAll_orReturn;
         [apply Hnew in Ha as [? ?]; unfold cloudtrail.setAdvancedEventSelectors;
          calls_follow; done|].
    all: destruct (negb (IsNewResource d) && HasChange d "insight_selector") eqn:Hi.
    all: try (apply callsAll_orReturn;
         [apply Hnew in Hi as [? ?]; unfold cloudtrail.setInsightSelectors;
          calls_follow; done|]).
    all: apply trail_read_calls; by intros []. }
  destruct (HasChangesExcept d _) eqn:Hchanged; [|done].
  cbn [bind invoke callsAll]. split; [done|]. intros attempts.
  apply callsAll_bind.
  { apply callsAll_RetryContext. unfold cloudtrail.updateTrailAttempt.
    cbn [bind invoke callsAll]. split; [done|]. by intros [e |]. }
  intros r. apply callsAll_bind.
  { destruct (TimedOut _); [|done]. cbn [bind invoke callsAll]. by split. }
  by intros [e |].
Qed.

(** Whatever the service answers, each call an Update handler makes goes
    back to a change of the plan: the handlers create and delete nothing;
    they call the update operation of the resource, and the wait functions
    after it, only when an attribute other than the tags has changed (for
    the trail: other than the tags, the selectors and [enable_logging]);
    the root volume is updated only when [root_volume_configuration] has
    changed; logging is started or stopped only when [enable_logging] has
    changed, and started exactly when it is now true; and selectors are
    validated and put only for a trail that is not new and whose selectors
    of that kind have changed.  The update, wait, logging and selector
    calls name the id of the resource. *)
Theorem update_calls_follow_changes (d : ResourceData) :
  callsAll (aclUpdateCall d) (memorydb.resourceACLUpdate d)
  /\ callsAll (fileSystemUpdateCall d) (fsx.resourceOpenzfsFileSystemUpdate d)
  /\ callsAll (trailUpdateCall d) (cloudtrail.resourceCloudTrailUpdate d).
Proof.
  split; [apply acl_update_calls|].
  split; [apply fsx_update_calls | apply trail_update_calls].
Qed.

(** Whatever the service answers, [resourceCloudTrailCreate] never updates
    or deletes a trail and never stops logging; it creates the trail with
    the request built from the configuration, starts logging only when
    [enable_logging] is set and true, and validates and puts the selectors
    of a kind only when the configuration sets them. *)
Theorem create_trail_calls_follow_configuration (d : ResourceData) :
  callsAll (trailCreateCall d) (cloudtrail.resourceCloudTrailCreate d).
Proof.
  unfold cloudtrail.resourceCloudTrailCreate.
  cbn [bind invoke callsAll]. split; [done|]. intros attempts.
  apply callsAll_bind.
  { apply callsAll_RetryContext.
    unfold cloudtrail.createTrailAttempt, cloudtrail.createTrail.
    cbn [bind invoke callsAll]. split; [done|]. by intros [e | t]. }
  intros r. apply callsAll_bind.
  { destruct (TimedOut _); [|done]. unfold cloudtrail.createTrail.
    cbn [bind invoke callsAll]. split; [done|]. by intros [e | t]. }
  intros [t [e |]]; cbn [fst snd]; [done|].
  destruct t as [t |]; [|done].
  cbn [GetOkBool GetOkList SetId Id].
  destruct (GetOkBool d "enable_logging") as [[|] |] eqn:Hlogging.
  1: apply callsAll_orReturn; [unfold cloudtrail.setLogging; calls_follow; done|].
  all: destruct (GetOkList d "event_selector") eqn:He.
  1,3,5: apply callsAll_orReturn;
         [unfold cloudtrail.setEventSelectors; calls_follow; cbn; rewrite He; by eexists|].
  all: destruct (GetOkList d "advanced_event_selector") eqn:Ha.
  1,3,5,7,9,11: apply callsAll_orReturn;
         [unfold cloudtrail.setAdvancedEventSelectors; calls_follow; cbn; rewrite Ha;
          by eexists|].
  all: destruct (GetOkList d "insight_selector") eqn:Hi.
  all: try (apply callsAll_orReturn;
         [unfold cloudtrail.setInsightSelectors; calls_follow; cbn; rewrite Hi;
          by eexists|]).
  all: apply trail_read_calls; by intros [].
Qed.
End UpdateCalls.

(* ===================================================================== *)
(** * The outcome of the handlers *)
(* ===================================================================== *)

Section DeleteOutcome.
Import goerr exec schema.

(** Whatever the service answers, a Delete handler returns, with the data
    unchanged.  [resourceACLDelete] and [resourceOpenzfsFileSystemDelete]
    call the delete operation on the id of the resource and, only when it
    answered without error, the wait function for the deletion; they make no
    other call.  [resourceCloudTrailDelete] calls [DeleteTrailWithContext]
    and nothing else.  The diagnostics are empty exactly when the delete
    operation answered with the not-found code of the service, or when it
    and the wait function, for the trail it alone, answered without
    error. *)
Theorem delete_handlers_outcome (d : ResourceData)
    (oa : oracle memorydb.answer) (ofs : oracle fsx.answer)
    (oc : oracle cloudtrail.answer) :
  let deleteACL :=
    memorydb.DeleteACLWithContext {| memorydb.DeleteACLInput_ACLName := Id d |} in
  let waitACL := memorydb.waitACLDeleted (Id d) in
  let deleteFileSystem :=
    fsx.DeleteFileSystemWithContext {| fsx.del_FileSystemId := Id d |} in
  let waitFileSystem := fsx.waitFileSystemDeleted (Id d) (Timeout d TimeoutDelete) in
  let deleteTrail := cloudtrail.DeleteTrailWithContext (Id d) in
  (trace oa (memorydb.resourceACLDelete d)
     = Event deleteACL (oa 0%nat deleteACL)
         :: (if isSome (oa 0%nat deleteACL) then []
             else [Event waitACL (oa 1%nat waitACL)])
   /\ exists diags,
        result oa (memorydb.resourceACLDelete d) = Returns (d, diags)
        /\ (diags = [] <->
            ErrCodeEquals (sdkErr (oa 0%nat deleteACL)) memorydb.ErrCodeACLNotFoundFault
              = true
            \/ (oa 0%nat deleteACL = None /\ oa 1%nat waitACL = None)))
  /\
  (trace ofs (fsx.resourceOpenzfsFileSystemDelete d)
     = Event deleteFileSystem (ofs 0%nat deleteFileSystem)
         :: (if isSome (ofs 0%nat deleteFileSystem) then []
             else [Event waitFileSystem (ofs 1%nat waitFileSystem)])
   /\ exists diags,
        result ofs (fsx.resourceOpenzfsFileSystemDelete d) = Returns (d, diags)
        /\ (diags = [] <->
            ErrCodeEquals (sdkErr (ofs 0%nat deleteFileSystem)) fsx.ErrCodeFileSystemNotFound
              = true
            \/ (ofs 0%nat deleteFileSystem = None /\ ofs 1%nat waitFileSystem = None)))
  /\
  (trace oc (cloudtrail.resourceCloudTrailDelete d)
     = [Event deleteTrail (oc 0%nat deleteTrail)]
   /\ exists diags,
        result oc (cloudtrail.resourceCloudTrailDelete d) = Returns (d, diags)
        /\ (diags = [] <->
            ErrCodeEquals (sdkErr (oc 0%nat deleteTrail))
              cloudtrail.ErrCodeTrailNotFoundException = true
            \/ oc 0%nat deleteTrail = None)).
Proof.
  intros deleteACL waitACL deleteFileSystem waitFileSystem deleteTrail.
  unfold trace, result, memorydb.resourceACLDelete, fsx.resourceOpenzfsFileSystemDelete,
    cloudtrail.resourceCloudTrailDelete.
  cbn [bind invoke run fst snd].
  fold deleteACL deleteFileSystem deleteTrail.
  split; [|split].
  - destruct (oa 0%nat deleteACL) as [e |] eqn:Ho; cbn [sdkErr fmap option_fmap option_map isSome].
    + destruct (ErrCodeEquals (Some (AWS e)) _) eqn:Hc; cbn [run fst snd].
      * split; [done|]. exists []. split; [done|]. tauto.
      * split; [done|]. eexists. split; [done|].
        split; [done|]. intros [? | [? _]]; done.
    + cbn [ErrCodeEquals bind invoke run fst snd]. fold waitACL.
      destruct (oa 1%nat waitACL) as [e |] eqn:Hw; cbn [run fst snd].
      * split; [done|]. eexists. split; [done|].
        split; [done|]. intros [? | [_ ?]]; done.
      * split; [done|]. exists []. split; [done|]. tauto.
  - destruct (ofs 0%nat deleteFileSystem) as [e |] eqn:Ho;
      cbn [sdkErr fmap option_fmap option_map isSome].
    + destruct (ErrCodeEquals (Some (AWS e)) _) eqn:Hc; cbn [run fst snd].
      * split; [done|]. exists []. split; [done|]. tauto.
      * split; [done|]. eexists. split; [done|].
        split; [done|]. intros [? | [? _]]; done.
    + cbn [ErrCodeEquals bind invoke run fst snd]. fold waitFileSystem.
      destruct (ofs 1%nat waitFileSystem) as [e |] eqn:Hw; cbn [run fst snd].
      * split; [done|]. eexists. split; [done|].
        split; [done|]. intros [? | [_ ?]]; done.
      * split; [done|]. exists []. split; [done|]. tauto.
  - destruct (oc 0%nat deleteTrail) as [e |] eqn:Ho;
      cbn [sdkErr fmap option_fmap option_map].
    + destruct (ErrCodeEquals (Some (AWS e)) _) eqn:Hc; cbn [run fst snd].
      * split; [done|]. exists []. split; [done|]. tauto.
      * split; [done|]. eexists. split; [done|].
        split; [done|]. intros [? | ?]; done.
    + cbn [ErrCodeEquals run fst snd]. split; [done|]. exists []. split; [done|]. tauto.
Qed.
End DeleteOutcome.

Section StopFacts.
Import exec observe.
Context {call : Type} {answer : call -> Type}.

Lemma stopsAtb_sound (P : event answer -> bool) (tr : list (event answer)) :
  stopsAtb P tr = true -> stopsAt P tr.
Proof.
  induction tr as [| ev0 tr IH]; intros Hb pre ev post Heq HP.
  - by destruct pre.
  - cbn in Hb. apply andb_true_iff in Hb as [Hhd Htl].
    destruct pre as [| ev1 pre]; cbn in Heq; injection Heq as -> ->.
    + rewrite HP in Hhd. by destruct post.
    + by eapply IH.
Qed.

Lemma stopsAtb_none (P : event answer -> bool) (tr : list (event answer)) :
  Forall (fun ev => P ev = false) tr -> stopsAtb P tr = true.
Proof.
  induction 1 as [| ev tr Hev _ IH]; cbn; [done|]. by rewrite Hev, IH.
Qed.

Lemma existsb_none (P : event answer -> bool) (tr : list (event answer)) :
  Forall (fun ev => P ev = false) tr -> existsb P tr = false.
Proof.
  induction 1 as [| ev tr Hev _ IH]; cbn; [done|]. by rewrite Hev, IH.
Qed.

Lemma existsb_false_elem (P : event answer -> bool) (tr : list (event answer)) ev :
  existsb P tr = false -> ev ∈ tr -> P ev = false.
Proof.
  intros Hb Hin. destruct (P ev) eqn:HP; [|done].
  assert (existsb P tr = true) as Ht; [|congruence].
  apply existsb_exists. exists ev. split; [by apply list_elem_of_In | done].
Qed.
End StopFacts.

Section FailFast.
Import goerr exec schema observe.
Context `{Helpers}.

Lemma acl_read_no_failure (o : oracle memorydb.answer) n d :
  Forall (fun ev => aclCallFailed ev = false)
    (fst (run o n (memorydb.resourceACLRead d))).
Proof.
  eapply Forall_impl; [apply callsAll_run, resourceACLRead_reads|].
  intros ev Hev. unfold aclCallFailed. cbn beta in Hev. by rewrite Hev.
Qed.

Lemma fsx_read_no_failure (o : oracle fsx.answer) n d :
  Forall (fun ev => fileSystemCallFailed ev = false)
    (fst (run o n (fsx.resourceOpenzfsFileSystemRead d))).
Proof.
  eapply Forall_impl; [apply callsAll_run, resourceOpenzfsFileSystemRead_reads|].
  intros ev Hev. unfold fileSystemCallFailed. cbn beta in Hev. by rewrite Hev.
Qed.

Lemma Forall_andb_false {A} (P Q : A -> bool) (l : list A) :
  Forall (fun x => P x = false) l -> Forall (fun x => (P x && Q x) = false) l.
Proof. intros Hl. eapply Forall_impl; [exact Hl|]. by intros x ->. Qed.

Lemma failsFast_intro {call : Type} {answer : call -> Type}
    (callFailed notFound : event answer -> bool) tr r :
  stopsAtb callFailed tr = true ->
  (succeeded r -> existsb (fun ev => callFailed ev && negb (notFound ev)) tr = false) ->
  failsFast callFailed notFound tr r.
Proof.
  intros Hs He. split; [by apply stopsAtb_sound|].
  intros ev Hin Hf Hr.
  pose proof (existsb_false_elem _ _ ev (He Hr) Hin) as Hn. cbn beta in Hn.
  rewrite Hf in Hn. by destruct (notFound ev).
Qed.

#[local] Opaque memorydb.resourceACLRead fsx.resourceOpenzfsFileSystemRead.

(** Settles a handler whose executions end in its Read handler. *)
Ltac fails_fast read_lemma :=
  unfold trace, result; apply failsFast_intro;
  [ execute; try done; cbn;
    try (apply stopsAtb_none, read_lemma)
  | execute; try not_succeeded; intros _; cbn;
    try (apply existsb_none, Forall_andb_false, read_lemma) ].

Lemma acl_create_failsFast d (o : oracle memorydb.answer) :
  failsFast aclCallFailed aclNotFound
    (trace o (memorydb.resourceACLCreate d)) (result o (memorydb.resourceACLCreate d)).
Proof. unfold memorydb.resourceACLCreate. fails_fast acl_read_no_failure. Qed.

Lemma acl_update_failsFast d (o : oracle memorydb.answer) :
  failsFast aclCallFailed aclNotFound
    (trace o (memorydb.resourceACLUpdate d)) (result o (memorydb.resourceACLUpdate d)).
Proof. unfold memorydb.resourceACLUpdate. fails_fast acl_read_no_failure. Qed.

Lemma acl_delete_failsFast d (o : oracle memorydb.answer) :
  failsFast aclCallFailed aclNotFound
    (trace o (memorydb.resourceACLDelete d)) (result o (memorydb.resourceACLDelete d)).
Proof.
  unfold memorydb.resourceACLDelete. fails_fast acl_read_no_failure; try done.
  - by destruct (o 0%nat _).
  - match goal with Hc : ErrCodeEquals _ _ = true |- _ => rewrite Hc end.
    by destruct (o 0%nat _).
Qed.

Lemma acl_read_failsFast d (o : oracle memorydb.answer) :
  failsFast aclCallFailed aclNotFound
    (trace o (memorydb.resourceACLRead d)) (result o (memorydb.resourceACLRead d)).
Proof.
  unfold trace, result. apply failsFast_intro.
  - apply stopsAtb_none, acl_read_no_failure.
  - intros _. apply existsb_none, Forall_andb_false, acl_read_no_failure.
Qed.

(** Settles a handler that ends with [append(diags, read...)]. *)
Ltac fails_fast_append read_lemma :=
  unfold trace, result; apply failsFast_intro;
  [ execute; try done; rewrite ?run_bind_Done; cbn;
    try (apply stopsAtb_none, read_lemma)
  | execute; try not_succeeded; rewrite ?run_bind_Done; intros _; cbn;
    try (apply existsb_none, Forall_andb_false, read_lemma) ].

Lemma fsx_create_failsFast d (o : oracle fsx.answer) :
  failsFast fileSystemCallFailed fileSystemNotFound
    (trace o (fsx.resourceOpenzfsFileSystemCreate d))
    (result o (fsx.resourceOpenzfsFileSystemCreate d)).
Proof.
  unfold fsx.resourceOpenzfsFileSystemCreate. fails_fast_append fsx_read_no_failure.
Qed.

Lemma fsx_update_failsFast d (o : oracle fsx.answer) :
  failsFast fileSystemCallFailed fileSystemNotFound
    (trace o (fsx.resourceOpenzfsFileSystemUpdate d))
    (result o (fsx.resourceOpenzfsFileSystemUpdate d)).
Proof.
  unfold fsx.resourceOpenzfsFileSystemUpdate. fails_fast_append fsx_read_no_failure.
Qed.

Lemma fsx_delete_failsFast d (o : oracle fsx.answer) :
  failsFast fileSystemCallFailed fileSystemNotFound
    (trace o (fsx.resourceOpenzfsFileSystemDelete d))
    (result o (fsx.resourceOpenzfsFileSystemDelete d)).
Proof.
  unfold fsx.resourceOpenzfsFileSystemDelete. fails_fast fsx_read_no_failure; try done.
  - by destruct (o 0%nat _).
  - match goal with Hc : ErrCodeEquals _ _ = true |- _ => rewrite Hc end.
    by destruct (o 0%nat _).
Qed.

Lemma fsx_read_failsFast d (o : oracle fsx.answer) :
  failsFast fileSystemCallFailed fileSystemNotFound
    (trace o (fsx.resourceOpenzfsFileSystemRead d))
    (result o (fsx.resourceOpenzfsFileSystemRead d)).
Proof.
  unfold trace, result. apply failsFast_intro.
  - apply stopsAtb_none, fsx_read_no_failure.
  - intros _. apply existsb_none, Forall_andb_false, fsx_read_no_failure.
Qed.

(** In every execution of a handler of the MemoryDB ACL or of the FSx OpenZFS
    file system, no call follows a mutating call or a wait function that
    returned an error; and when the handler returns without error
    diagnostics, the only such failure its execution can hold is the delete
    call answered with the not-found code of the resource. *)
Theorem failed_calls_end_the_handler (d : ResourceData)
    (oa : oracle memorydb.answer) (ofs : oracle fsx.answer) :
  Forall (fun h => failsFast aclCallFailed aclNotFound (trace oa (h d)) (result oa (h d)))
    [memorydb.resourceACLCreate; memorydb.resourceACLRead;
     memorydb.resourceACLUpdate; memorydb.resourceACLDelete]
  /\ Forall (fun h => failsFast fileSystemCallFailed fileSystemNotFound
                        (trace ofs (h d)) (result ofs (h d)))
    [fsx.resourceOpenzfsFileSystemCreate; fsx.resourceOpenzfsFileSystemRead;
     fsx.resourceOpenzfsFileSystemUpdate; fsx.resourceOpenzfsFileSystemDelete].
Proof.
  split; repeat (apply Forall_cons; split); try apply Forall_nil_2.
  - apply acl_create_failsFast.
  - apply acl_read_failsFast.
  - apply acl_update_failsFast.
  - apply acl_delete_failsFast.
  - apply fsx_create_failsFast.
  - apply fsx_read_failsFast.
  - apply fsx_update_failsFast.
  - apply fsx_delete_failsFast.
Qed.

End FailFast.

Section UpdateWithoutChanges.
Import goerr exec schema.
Context `{Helpers}.

Lemma run_append_read {call : Type} {answer : call -> Type} (o : oracle answer) n
    (p : Prog answer (ResourceData * Diagnostics)) :
  run o n (bind p (fun r => Done (fst r, ([] ++ snd r)%list))) = run o n p.
Proof.
  rewrite run_bind_Done. destruct (run o n p) as [tr [[d' diags] |]]; reflexivity.
Qed.

(** When no attribute other than the tags has changed (for the trail: and
    neither [enable_logging] nor a selector), the Update handler makes the
    calls of the Read handler on the same data and returns its result: the
    two executions are equal. *)
Theorem update_without_changes_reads (d : ResourceData)
    (oa : oracle memorydb.answer) (ofs : oracle fsx.answer)
    (oc : oracle cloudtrail.answer)
    (Hacl : HasChangesExcept d ["tags"; "tags_all"] = false)
    (Hfsx : HasChangesExcept d ["tags_all"; "tags"] = false)
    (Htrail : HasChangesExcept d ["tags"; "tags_all"; "insight_selector";
                                  "advanced_event_selector"; "event_selector";
                                  "enable_logging"] = false)
    (Hlogging : HasChange d "enable_logging" = false)
    (Hselectors : HasChange d "event_selector" = false
                  /\ HasChange d "advanced_event_selector" = false
                  /\ HasChange d "insight_selector" = false) :
  run oa 0 (memorydb.resourceACLUpdate d) = run oa 0 (memorydb.resourceACLRead d)
  /\ run ofs 0 (fsx.resourceOpenzfsFileSystemUpdate d)
     = run ofs 0 (fsx.resourceOpenzfsFileSystemRead d)
  /\ run oc 0 (cloudtrail.resourceCloudTrailUpdate d)
     = run oc 0 (cloudtrail.resourceCloudTrailRead d).
Proof.
  destruct Hselectors as (He & Ha & Hi).
  unfold memorydb.resourceACLUpdate, fsx.resourceOpenzfsFileSystemUpdate,
    cloudtrail.resourceCloudTrailUpdate.
  rewrite Hacl, Hfsx, Htrail, Hlogging, He, Ha, Hi, !andb_false_r.
  split; [done|]. split; apply run_append_read.
Qed.
End UpdateWithoutChanges.

Lemma update_without_changes_reads_witness :
  let d := sample.data "fs-0123" false ∅ ∅ in
  let acl := {| memorydb.ARN := None; memorydb.MinimumEngineVersion := None;
                memorydb.Name := Some "fs-0123"; memorydb.UserNames := [] |} in
  exec.run (sample.aclPresent acl) 0 (memorydb.resourceACLUpdate (H := sample.helpers) d)
    = exec.run (sample.aclPresent acl) 0 (memorydb.resourceACLRead (H := sample.helpers) d)
  /\ exec.run sample.fileSystemPresent 0
       (fsx.resourceOpenzfsFileSystemUpdate (H := sample.helpers) d)
     = exec.run sample.fileSystemPresent 0
         (fsx.resourceOpenzfsFileSystemRead (H := sample.helpers) d)
  /\ exec.run (sample.trailPresent 1) 0
       (cloudtrail.resourceCloudTrailUpdate (H := sample.helpers) d)
     = exec.run (sample.trailPresent 1) 0
         (cloudtrail.resourceCloudTrailRead (H := sample.helpers) d).
Proof.
  intros d acl.
  apply (update_without_changes_reads (H := sample.helpers) d); try reflexivity.
  repeat split.
Defined.


Section CreateSetsId.
Import goerr exec schema.
Context `{Helpers}.

Lemma acl_read_result (o : oracle memorydb.answer) n d :
  exists tr, fst (run o n (memorydb.resourceACLRead d))
             = Event (memorydb.FindACLByName (Id d)) (o n (memorydb.FindACLByName (Id d))) :: tr
  /\ forall d', snd (run o n (memorydb.resourceACLRead d)) = Returns (d', []) ->
       d' = d \/ (IsNewResource d = false /\ d' = SetId d "").
Proof.
  unfold memorydb.resourceACLRead. cbn [bind invoke run fst snd].
  eexists. split; [reflexivity|].
  intros d'. execute; intros [= <-]; auto.
  right. split; [|done].
  match goal with Hn : _ && _ = true |- _ => apply andb_true_iff in Hn as [Hn _] end.
  by destruct (IsNewResource d).
Qed.

Lemma fsx_read_result (o : oracle fsx.answer) n d :
  exists tr, fst (run o n (fsx.resourceOpenzfsFileSystemRead d))
             = Event (fsx.FindFileSystemByID (Id d)) (o n (fsx.FindFileSystemByID (Id d))) :: tr
  /\ forall d', snd (run o n (fsx.resourceOpenzfsFileSystemRead d)) = Returns (d', []) ->
       d' = d \/ (IsNewResource d = false /\ d' = SetId d "").
Proof.
  unfold fsx.resourceOpenzfsFileSystemRead. cbn [bind invoke run fst snd].
  eexists. split; [reflexivity|].
  intros d'. cbn [fsx.set_each]. execute; intros [= <-]; auto.
  all: right; split; [|done].
  all: match goal with Hn : _ && _ = true |- _ => apply andb_true_iff in Hn as [Hn _] end.
  all: by destruct (IsNewResource d).
Qed.

#[local] Opaque memorydb.resourceACLRead fsx.resourceOpenzfsFileSystemRead.

(** When [resourceACLCreate] returns without error, its first calls were
    the creation of the ACL under the name built from [name] and
    [name_prefix], the wait function on that name and the lookup of that
    name, the first two answered without error; the data returned has that
    name as id, or the empty id when the lookup did not find the ACL and
    the resource is not new.  When [resourceOpenzfsFileSystemCreate]
    returns without error, the creation call (from the backup exactly when
    [backup_id] is set) answered with a file system, the wait function and
    the lookup were called with the id of that file system, and the data
    returned has that id, or the empty id when the file system was not
    found and the resource is not new. *)
Theorem create_sets_the_id (d : ResourceData)
    (oa : oracle memorydb.answer) (ofs : oracle fsx.answer) :
  (succeeded (result oa (memorydb.resourceACLCreate d)) ->
   let name := create_Name (GetString d "name") (GetString d "name_prefix") in
   exists input rest,
     memorydb.CreateACLInput_ACLName input = name
     /\ trace oa (memorydb.resourceACLCreate d)
        = Event (memorydb.CreateACLWithContext input) None
            :: Event (memorydb.waitACLActive name) None
            :: Event (memorydb.FindACLByName name) (oa 2%nat (memorydb.FindACLByName name))
            :: rest
     /\ (result oa (memorydb.resourceACLCreate d) = Returns (SetId d name, [])
         \/ (IsNewResource d = false
             /\ result oa (memorydb.resourceACLCreate d) = Returns (SetId d "", []))))
  /\
  (succeeded (result ofs (fsx.resourceOpenzfsFileSystemCreate d)) ->
   exists out fs rest,
     let id := fsx.StringValue (fsx.FileSystemId fs) in
     let wait := fsx.waitFileSystemCreated id (Timeout d TimeoutCreate) in
     let find := fsx.FindFileSystemByID id in
     fsx.Output_FileSystem out = Some fs
     /\ (match GetOkString d "backup_id" with
         | Some v =>
             exists input,
               fsx.b_BackupId input = v
               /\ trace ofs (fsx.resourceOpenzfsFileSystemCreate d)
                  = Event (fsx.CreateFileSystemFromBackupWithContext input) (inr out)
                      :: Event wait None :: Event find (ofs 2%nat find) :: rest
         | None =>
             exists input,
               trace ofs (fsx.resourceOpenzfsFileSystemCreate d)
               = Event (fsx.CreateFileSystemWithContext input) (inr out)
                   :: Event wait None :: Event find (ofs 2%nat find) :: rest
         end)
     /\ (result ofs (fsx.resourceOpenzfsFileSystemCreate d) = Returns (SetId d id, [])
         \/ (IsNewResource d = false
             /\ result ofs (fsx.resourceOpenzfsFileSystemCreate d)
                = Returns (SetId d "", [])))).
Proof.
  split.
  - intros Hs name. revert Hs. unfold trace, result, memorydb.resourceACLCreate.
    fold name. execute; try not_succeeded. intros [d' Hd'].
    destruct (acl_read_result oa 2 (SetId d name)) as (tr & Htr & Hres).
    rewrite Htr. eexists _, tr. split; [|split].
    2: reflexivity.
    1: reflexivity.
    rewrite Hd'. destruct (Hres d' Hd') as [-> | [Hn ->]]; auto.
  - unfold trace, result, fsx.resourceOpenzfsFileSystemCreate. intros Hs. revert Hs.
    execute; try not_succeeded.
    all: rewrite run_bind_Done; cbn [fst snd app].
    all: intros [d' Hd'].
    all: match goal with
         | Hf : fsx.Output_FileSystem ?out = Some ?fs |- _ =>
             destruct (fsx_read_result ofs 2 (SetId d (fsx.StringValue (fsx.FileSystemId fs))))
               as (tr & Htr & Hres);
             exists out, fs, tr
         end.
    all: cbn zeta; rewrite Htr; split; [done|].
    all: split; [eexists; repeat split; reflexivity|].
    all: destruct (snd (run ofs 2 _)) as [[d2 diags] |]; cbn in Hd'; [|discriminate].
    all: injection Hd' as <- ->.
    all: destruct (Hres d2 eq_refl) as [-> | [Hn ->]]; auto.
Qed.
End CreateSetsId.

Lemma create_sets_the_id_witness :
  let d := sample.data "fs-0123" true ∅ ∅ in
  let acl := {| memorydb.ARN := None; memorydb.MinimumEngineVersion := None;
                memorydb.Name := Some "fs-0123"; memorydb.UserNames := [] |} in
  let oa := sample.aclPresent acl in
  let ofs := sample.fileSystemPresent in
  (exists input rest,
     memorydb.CreateACLInput_ACLName input = "fs-0123"
     /\ exec.trace oa (memorydb.resourceACLCreate (H := sample.helpers) d)
        = exec.Event (memorydb.CreateACLWithContext input) None
            :: exec.Event (memorydb.waitACLActive "fs-0123") None
            :: exec.Event (memorydb.FindACLByName "fs-0123") (inr acl)
            :: rest
     /\ (exec.result oa (memorydb.resourceACLCreate (H := sample.helpers) d)
           = Returns (schema.SetId d "fs-0123", [])
         \/ (schema.IsNewResource d = false
             /\ exec.result oa (memorydb.resourceACLCreate (H := sample.helpers) d)
                = Returns (schema.SetId d "", []))))
  /\
  (exists out fs rest,
     let id := fsx.StringValue (fsx.FileSystemId fs) in
     let wait := fsx.waitFileSystemCreated id 3600 in
     let find := fsx.FindFileSystemByID id in
     fsx.Output_FileSystem out = Some fs
     /\ (exists input,
           exec.trace ofs (fsx.resourceOpenzfsFileSystemCreate (H := sample.helpers) d)
           = exec.Event (fsx.CreateFileSystemWithContext input) (inr out)
               :: exec.Event wait None :: exec.Event find (ofs 2%nat find) :: rest)
     /\ (exec.result ofs (fsx.resourceOpenzfsFileSystemCreate (H := sample.helpers) d)
           = Returns (schema.SetId d id, [])
         \/ (schema.IsNewResource d = false
             /\ exec.result ofs (fsx.resourceOpenzfsFileSystemCreate (H := sample.helpers) d)
                = Returns (schema.SetId d "", [])))).
Proof.
  intros d acl oa ofs.
  destruct (create_sets_the_id (H := sample.helpers) d oa ofs) as [Hacl Hfsx].
  split.
  - apply Hacl. eexists. vm_compute. reflexivity.
  - apply Hfsx. eexists. vm_compute. reflexivity.
Defined.


Section UpdateVolume.
Import goerr exec schema observe.
Context `{Helpers}.

Lemma fsx_read_no_UpdateVolume (o : oracle fsx.answer) n d ev :
  ev ∈ fst (run o n (fsx.resourceOpenzfsFileSystemRead d)) ->
  isUpdateVolume (ev_call ev) = false.
Proof.
  intros Hin.
  pose proof (callsAll_run _ _ o n (resourceOpenzfsFileSystemRead_reads d)) as Hall.
  rewrite Forall_forall in Hall. specialize (Hall ev Hin). cbn beta in Hall.
  by destruct (ev_call ev).
Qed.

#[local] Opaque fsx.resourceOpenzfsFileSystemRead.

(** In every execution of [resourceOpenzfsFileSystemUpdate], a call of
    [UpdateVolumeWithContext] is made only when an attribute other than the
    tags and [root_volume_configuration] have changed; it names the volume
    of [root_volume_id] with the planned configuration, and it comes
    directly after the update of the file system and its two wait
    functions, all three answered without error. *)
Theorem volume_updated_after_file_system (d : ResourceData) (o : oracle fsx.answer)
    (ev : event fsx.answer)
    (Hin : ev ∈ trace o (fsx.resourceOpenzfsFileSystemUpdate d))
    (Hvol : isUpdateVolume (ev_call ev) = true) :
  HasChangesExcept d ["tags_all"; "tags"] = true
  /\ HasChange d "root_volume_configuration" = true
  /\ ev_call ev
     = fsx.UpdateVolumeWithContext
         {| fsx.v_VolumeId := GetString d "root_volume_id";
            fsx.v_OpenZFSConfiguration := GetList d "root_volume_configuration" |}
  /\ exists input rest,
       fsx.updateFileSystemInput d = Returns input
       /\ trace o (fsx.resourceOpenzfsFileSystemUpdate d)
          = Event (fsx.UpdateFileSystemWithContext input) None
              :: Event (fsx.waitFileSystemUpdated (Id d) (Timeout d TimeoutUpdate)) None
              :: Event (fsx.waitAdministrativeActionCompleted (Id d)
                          fsx.AdministrativeActionTypeFileSystemUpdate
                          (Timeout d TimeoutUpdate)) None
              :: ev :: rest.
Proof.
  revert Hin. unfold trace, fsx.resourceOpenzfsFileSystemUpdate.
  execute; rewrite ?run_bind_Done; cbn [fst snd].
  all: rewrite ?elem_of_cons, ?elem_of_nil.
  all: intros Hin.
  all: repeat match goal with
         | Hin : _ \/ _ |- _ => destruct Hin as [-> | Hin]
         | Hin : False |- _ => destruct Hin
         | Hin : _ ∈ fst (run _ _ _) |- _ =>
             apply fsx_read_no_UpdateVolume in Hin; congruence
         end.
  all: try discriminate Hvol.
  all: repeat split; try done.
  all: eexists _, _; split; reflexivity.
Qed.
End UpdateVolume.

Lemma volume_updated_after_file_system_witness :
  let d := examples.volumeChanged in
  let o := sample.fileSystemPresent in
  let update := fsx.resourceOpenzfsFileSystemUpdate (H := sample.helpers) d in
  let ev := exec.Event
              (fsx.UpdateVolumeWithContext
                 {| fsx.v_VolumeId := "fsvol-0123"; fsx.v_OpenZFSConfiguration := [] |})
              None in
  schema.HasChangesExcept d ["tags_all"; "tags"] = true
  /\ schema.HasChange d "root_volume_configuration" = true
  /\ exec.ev_call ev
     = fsx.UpdateVolumeWithContext
         {| fsx.v_VolumeId := schema.GetString d "root_volume_id";
            fsx.v_OpenZFSConfiguration := schema.GetList d "root_volume_configuration" |}
  /\ exists input rest,
       fsx.updateFileSystemInput d = Returns input
       /\ exec.trace o update
          = exec.Event (fsx.UpdateFileSystemWithContext input) None
              :: exec.Event (fsx.waitFileSystemUpdated "fs-0123" 3600) None
              :: exec.Event (fsx.waitAdministrativeActionCompleted "fs-0123"
                               "FILE_SYSTEM_UPDATE" 3600) None
              :: ev :: rest.
Proof.
  intros d o update ev.
  apply (volume_updated_after_file_system (H := sample.helpers) d o ev).
  - vm_compute. do 3 apply list_elem_of_further. apply list_elem_of_here.
  - reflexivity.
Defined.


Section ReadFileSystem.
Import goerr exec schema fsx observe.
Context `{Helpers}.

(** When the file system found is not an OpenZFS file system,
    [resourceOpenzfsFileSystemRead] sets no attribute and makes no further
    call: it returns one error diagnostic and leaves the resource data as
    it is.  [tfresource.NotFound] is assumed not to hold of a nil error. *)
Theorem read_rejects_other_file_systems (d : ResourceData) (o : oracle answer)
    (filesystem : FileSystem)
    (Hnil : NotFound None = false)
    (Hfind : o 0%nat (FindFileSystemByID (Id d)) = inr filesystem)
    (Hother : notOpenZFS filesystem) :
  trace o (resourceOpenzfsFileSystemRead d)
    = [Event (FindFileSystemByID (Id d)) (inr filesystem)]
  /\ exists summary,
       result o (resourceOpenzfsFileSystemRead d)
       = Returns (d, [ {| Summary := summary; Args := [Id d]; Cause := None |} ]).
Proof.
  unfold trace, result, resourceOpenzfsFileSystemRead.
  cbn [bind invoke run fst snd]. rewrite Hfind, Hnil, andb_false_r.
  destruct (WindowsConfiguration filesystem) eqn:Hw;
    [split; [done | eexists; reflexivity]|].
  destruct (LustreConfiguration filesystem) eqn:Hl;
    [split; [done | eexists; reflexivity]|].
  destruct (OntapConfiguration filesystem) eqn:Ho;
    [split; [done | eexists; reflexivity]|].
  destruct Hother as [? | [? | [? | ->]]]; try congruence.
  split; [done | eexists; reflexivity].
Qed.

(** When the OpenZFS configuration of the file system found carries no root
    volume id, [resourceOpenzfsFileSystemRead] does not return without
    error and never looks up a volume: it dereferences the missing id and
    panics, unless setting one of the attributes it checks has failed
    before. *)
Theorem read_without_root_volume_id (d : ResourceData) (o : oracle answer)
    (filesystem : FileSystem) (openzfsConfig : OpenZFSFileSystemConfiguration)
    (Hnil : NotFound None = false)
    (Hfind : o 0%nat (FindFileSystemByID (Id d)) = inr filesystem)
    (Hwindows : WindowsConfiguration filesystem = false)
    (Hlustre : LustreConfiguration filesystem = false)
    (Hontap : OntapConfiguration filesystem = false)
    (Hconfig : OpenZFSConfiguration filesystem = Some openzfsConfig)
    (Hroot : RootVolumeId openzfsConfig = None) :
  ~ succeeded (result o (resourceOpenzfsFileSystemRead d))
  /\ Forall (fun ev => isFindVolume (ev_call ev) = false)
       (trace o (resourceOpenzfsFileSystemRead d))
  /\ ((forall n key, o n (d_Set key) = None) ->
      result o (resourceOpenzfsFileSystemRead d) = Panics).
Proof.
  unfold trace, result, resourceOpenzfsFileSystemRead.
  cbn [bind invoke run fst snd set_each].
  rewrite Hfind, Hnil, andb_false_r, Hwindows, Hlustre, Hontap, Hconfig.
  cbn [bind invoke run fst snd set_each]. rewrite Hroot.
  split; [|split].
  - execute; not_succeeded.
  - execute; repeat constructor.
  - intros Hset. repeat (cbn [run fst snd]; rewrite Hset). reflexivity.
Qed.
End ReadFileSystem.

Lemma read_rejects_other_file_systems_witness :
  let d := sample.data "fs-0123" false ∅ ∅ in
  let o := examples.found examples.lustre in
  exec.trace o (fsx.resourceOpenzfsFileSystemRead (H := sample.helpers) d)
    = [exec.Event (fsx.FindFileSystemByID "fs-0123") (inr examples.lustre)]
  /\ exists summary,
       exec.result o (fsx.resourceOpenzfsFileSystemRead (H := sample.helpers) d)
       = Returns (d, [ {| schema.Summary := summary; schema.Args := ["fs-0123"];
                          schema.Cause := None |} ]).
Proof.
  intros d o.
  apply (read_rejects_other_file_systems (H := sample.helpers) d o examples.lustre).
  - reflexivity.
  - reflexivity.
  - right; left. reflexivity.
Defined.


Lemma read_without_root_volume_id_witness :
  let d := sample.data "fs-0123" false ∅ ∅ in
  let o := examples.found examples.rootless in
  let read := fsx.resourceOpenzfsFileSystemRead (H := sample.helpers) d in
  ~ exec.succeeded (exec.result o read)
  /\ Forall (fun ev => observe.isFindVolume (exec.ev_call ev) = false) (exec.trace o read)
  /\ ((forall n key, o n (fsx.d_Set key) = None) -> exec.result o read = Panics).
Proof.
  intros d o read.
  apply (read_without_root_volume_id (H := sample.helpers) d o examples.rootless
           examples.withoutRootVolume); reflexivity.
Defined.


(** The execution on the file system without root volume id panics. *)
Example read_rootless_panics :
  exec.result (examples.found examples.rootless)
    (fsx.resourceOpenzfsFileSystemRead (H := sample.helpers) (sample.data "fs-0123" false ∅ ∅))
  = Panics.
Proof. vm_compute. reflexivity. Qed.


(* ===================================================================== *)
(** * The trail handlers *)
(* ===================================================================== *)

Section FindTrail.
Import goerr exec schema cloudtrail trails.

Lemma findTrail_app id (l1 l2 : list Trail) :
  findTrail id (l1 ++ l2) =
    fold_left
      (fun trail c => if String.eqb id (StringValue (Name c)) then Some c else trail)
      l2 (findTrail id l1).
Proof. unfold findTrail. by rewrite fold_left_app. Qed.

Lemma findTrail_snoc id (l : list Trail) c :
  findTrail id (l ++ [c]) =
    if String.eqb id (StringValue (Name c)) then Some c else findTrail id l.
Proof. by rewrite findTrail_app. Qed.

(** The loop of [resourceCloudTrailRead] over the described trails keeps the
    last trail of the list whose name is the id, a missing name counting as
    the empty name; it finds none exactly when no trail of the list has that
    name. *)
Theorem findTrail_last_match (id : string) (TrailList : list Trail) :
  (findTrail id TrailList = None <-> Forall (fun c => ~ named id c) TrailList)
  /\ (forall trail, findTrail id TrailList = Some trail <->
        exists before after,
          TrailList = (before ++ trail :: after)%list
          /\ named id trail /\ Forall (fun c => ~ named id c) after).
Proof.
  unfold named.
  induction TrailList as [| c l IH] using rev_ind.
  - split; [by split|]. intros trail. split; [done|].
    intros (before & after & Heq & _). by destruct before.
  - destruct IH as [IHn IHs]. rewrite findTrail_snoc.
    destruct (String.eqb id (StringValue (Name c))) eqn:Hc.
    + apply String.eqb_eq in Hc. split.
      * split; [done|]. intros Hall. apply Forall_app in Hall as [_ Hall].
        apply Forall_cons in Hall as [Hall _]. by destruct Hall.
      * intros trail. split.
        -- intros [= <-]. by exists l, [].
        -- intros (before & after & Heq & Hn & Hall).
           destruct after as [| a after _] using rev_ind.
           ++ apply app_inj_tail in Heq as [_ ->]. done.
           ++ rewrite app_comm_cons, app_assoc in Heq.
              apply app_inj_tail in Heq as [_ ->].
              apply Forall_app in Hall as [_ Hall].
              apply Forall_cons in Hall as [Hall _]. by destruct Hall.
    + apply String.eqb_neq in Hc. split.
      * rewrite IHn, Forall_app, Forall_cons, Forall_nil. intuition congruence.
      * intros trail. rewrite IHs. split.
        -- intros (before & after & -> & Hn & Hall).
           exists before, (after ++ [c])%list. rewrite <- app_assoc. split; [done|].
           split; [done|]. apply Forall_app. split; [done|].
           apply Forall_cons. split; [congruence | done].
        -- intros (before & after & Heq & Hn & Hall).
           destruct after as [| a after _] using rev_ind.
           ++ apply app_inj_tail in Heq as [_ ->]. congruence.
           ++ rewrite app_comm_cons, app_assoc in Heq.
              apply app_inj_tail in Heq as [-> ->].
              apply Forall_app in Hall as [Hall _]. by exists before, after.
Qed.
End FindTrail.

Section UpdateTrailRetry.
Import goerr exec schema retry cloudtrail trails.
Context `{Helpers}.

Lemma run_updateTrailAttempt {R} (o : oracle answer) m input
    (k : unit * option RetryError -> Prog answer R) :
  run o m (bind (updateTrailAttempt input) k) =
    let x := o m (UpdateTrailWithContext input) in
    let rest :=
      run o (S m)
        (k match x with
           | Some e => (tt, Some (classify (AWS e)))
           | None => (tt, None)
           end) in
    (Event (UpdateTrailWithContext input) x :: fst rest, snd rest).
Proof.
  unfold updateTrailAttempt. cbn.
  by destruct (o m (UpdateTrailWithContext input)).
Qed.

(** The executions of the retry loop of [resourceCloudTrailUpdate]. *)
Lemma updateTrail_loop (o : oracle answer) (input : UpdateTrailInput) attempts :
  forall m before,
  exists denials final r,
    run o m (RetryContext attempts (updateTrailAttempt input) tt before)
      = ((map (updateDenied input) denials ++ final)%list, Returns (tt, r))
    /\ Forall (fun e => accessDenied e = true) denials
    /\ (length denials <= attempts)%nat
    /\ ((final = [updated input] /\ r = None)
        \/ (exists e, final = [updateDenied input e] /\ accessDenied e = false
                      /\ r = Some (AWS e))
        \/ (final = [] /\ length denials = attempts
            /\ r = Some (retryTimeoutResult (lastError before denials)))).
Proof.
  induction attempts as [| attempts IH]; intros m before.
  - exists [], [], (Some (retryTimeoutResult before)). cbn. eauto 10.
  - cbn [RetryContext]. rewrite run_updateTrailAttempt. cbn zeta.
    destruct (o m (UpdateTrailWithContext input)) as [e |] eqn:Ho.
    + cbn [bind snd fst run]. rewrite classify_accessDenied.
      destruct (accessDenied e) eqn:He.
      * destruct (IH (S m) (Some (AWS e))) as (denials & final & r & Hrun & Hall & Hlen & Hend).
        exists (e :: denials), final, r. rewrite Hrun. cbn [fst snd map app].
        split; [done|]. split; [by constructor|]. split; [cbn; lia|].
        destruct Hend as [Hend | [Hend | (-> & <- & Hr)]]; [by left | by right; left |].
        right; right. by rewrite <- lastError_cons.
      * exists [], [updateDenied input e], (Some (AWS e)). cbn.
        split; [done|]. split; [done|]. split; [lia|]. right; left. eauto.
    + exists [], [updated input], None. cbn.
      split; [done|]. split; [done|]. split; [lia|]. by left.
Qed.

(** The calls of [UpdateTrailWithContext] in an execution of
    [resourceCloudTrailUpdate], for a [TimedOut] that holds of no service
    error and not of the absent error.  Without a change outside the tags,
    the selectors and [enable_logging], the trail is never updated.
    Otherwise the handler repeats the same request while the service
    answers with an error that [accessDenied] recognises, at most as often
    as the retry allows; it goes on after the first attempt that succeeds
    and makes no further update; it stops with the error of the first
    attempt that fails otherwise; and when the attempts run out it makes one
    more attempt if [TimedOut] holds of the error of the retry, and
    otherwise reports that error. *)
Theorem resourceCloudTrailUpdate_retries
    (d : ResourceData) (o : oracle answer)
    (Hnil : TimedOut None = false)
    (Haws : forall e : awserr, TimedOut (Some (AWS e)) = false) :
  let input := updateTrailInput d in
  let attempts := o 0%nat (attemptsWithin propagationTimeout) in
  if HasChangesExcept d ["tags"; "tags_all"; "insight_selector";
                         "advanced_event_selector"; "event_selector"; "enable_logging"]
  then
    exists (denials : list awserr) (rest : list (event answer)),
      trace o (resourceCloudTrailUpdate d)
        = (Event (attemptsWithin propagationTimeout) attempts
             :: map (updateDenied input) denials ++ rest)%list
      /\ Forall (fun e => accessDenied e = true) denials
      /\ (length denials <= attempts)%nat
      /\ ((exists after, rest = updated input :: after /\ noUpdateTrail after)
          \/ (exists e, rest = [updateDenied input e] /\ accessDenied e = false
                        /\ result o (resourceCloudTrailUpdate d) = updateFailed d (AWS e))
          \/ (length denials = attempts
              /\ let err := retryTimeoutResult (lastError None denials) in
                 if TimedOut (Some err)
                 then (exists after, rest = updated input :: after /\ noUpdateTrail after)
                      \/ (exists e, rest = [updateDenied input e]
                           /\ result o (resourceCloudTrailUpdate d) = updateFailed d (AWS e))
                 else rest = []
                      /\ result o (resourceCloudTrailUpdate d) = updateFailed d err))
  else noUpdateTrail (trace o (resourceCloudTrailUpdate d)).
Proof.
  intros input attempts.
  unfold trace, result, resourceCloudTrailUpdate.
  destruct (HasChangesExcept d _).
  2: { apply (callsAll_run (fun c => isUpdateTrail c = false)).
       unfold orReturn, setLogging, setEventSelectors, setAdvancedEventSelectors,
         setInsightSelectors, resourceCloudTrailRead, getLoggingStatus.
       cbn [set_each]. calls_all. }
  cbn [bind invoke run fst snd]. fold input attempts.
  rewrite run_bind.
  destruct (updateTrail_loop o input attempts 1 None)
    as (denials & final & r & Hrun & Hall & Hlen & Hend).
  rewrite Hrun. cbn [fst snd].
  match goal with
  | |- context [bind (if TimedOut _ then _ else _) ?k] => set (K := k)
  end.
  assert (HK : callsAll (fun c => isUpdateTrail c = false) (K None)).
  { unfold K, orReturn, setLogging, setEventSelectors, setAdvancedEventSelectors,
      setInsightSelectors, resourceCloudTrailRead, getLoggingStatus.
    cbn [set_each]. calls_all. }
  assert (HKe : forall e,
             K (Some e) = Done (d, AppendErrorf [] "updating CloudTrail Trail (%s): %s"
                                     [Id d] (Some e))) by reflexivity.
  clearbody K.
  set (m := (1 + length (map (updateDenied input) denials ++ final))%nat).
  destruct Hend as [(-> & ->) | [(e & -> & He & ->) | (-> & Hn & ->)]].
  - rewrite Hnil. cbn [bind run fst snd].
    exists denials, (updated input :: fst (run o m (K None))).
    split; [by rewrite <- app_assoc|]. split; [done|]. split; [done|].
    left. eexists. split; [done|].
    apply (callsAll_run (fun c => isUpdateTrail c = false)), HK.
  - rewrite Haws. cbn [bind]. rewrite HKe. cbn [run fst snd].
    exists denials, [updateDenied input e].
    split; [by rewrite app_nil_r|]. split; [done|]. split; [done|].
    right; left. by exists e.
  - rewrite !app_nil_r.
    destruct (TimedOut (Some (retryTimeoutResult (lastError None denials)))) eqn:HT.
    + cbn [bind invoke run fst snd].
      destruct (o m (UpdateTrailWithContext input)) as [e |] eqn:Ho.
      * cbn [bind fst snd sdkErr fmap option_fmap option_map].
        rewrite HKe. cbn [run fst snd].
        exists denials, [updateDenied input e].
        split; [done|]. split; [done|]. split; [done|].
        right; right. split; [done|]. cbn zeta. rewrite HT. right. by exists e.
      * cbn [bind fst snd sdkErr fmap option_fmap option_map].
        exists denials, (updated input :: fst (run o (S m) (K None))).
        split; [done|]. split; [done|]. split; [done|].
        right; right. split; [done|]. cbn zeta. rewrite HT. left.
        eexists. split; [done|].
        apply (callsAll_run (fun c => isUpdateTrail c = false)), HK.
    + cbn [bind]. rewrite HKe. cbn [run fst snd].
      exists denials, [].
      split; [by rewrite !app_nil_r|]. split; [done|]. split; [done|].
      right; right. split; [done|]. cbn zeta. by rewrite HT.
Qed.
End UpdateTrailRetry.

Lemma resourceCloudTrailUpdate_retries_witness :
  let d := examples.bucketChanged in
  let o := examples.trailUpdateDenied 2 5 in
  let input := cloudtrail.updateTrailInput d in
  let attempts := o 0%nat (cloudtrail.attemptsWithin 120) in
  let handler := cloudtrail.resourceCloudTrailUpdate (H := sample.helpers) in
  let failure := trails.updateFailed d in
  exists (denials : list goerr.awserr) (rest : list (exec.event cloudtrail.answer)),
    exec.trace o (handler d)
      = (exec.Event (cloudtrail.attemptsWithin 120) attempts
           :: map (trails.updateDenied input) denials ++ rest)%list
    /\ Forall (fun e => cloudtrail.accessDenied e = true) denials
    /\ (length denials <= attempts)%nat
    /\ ((exists after, rest = trails.updated input :: after /\ trails.noUpdateTrail after)
        \/ (exists e, rest = [trails.updateDenied input e]
                      /\ cloudtrail.accessDenied e = false
                      /\ exec.result o (handler d) = failure (goerr.AWS e))
        \/ (length denials = attempts
            /\ let err := retryTimeoutResult (Helpers := sample.helpers)
                            (cloudtrail.lastError None denials) in
               if TimedOut (Helpers := sample.helpers) (Some err)
               then (exists after, rest = trails.updated input :: after
                                   /\ trails.noUpdateTrail after)
                    \/ (exists e, rest = [trails.updateDenied input e]
                         /\ exec.result o (handler d) = failure (goerr.AWS e))
               else rest = [] /\ exec.result o (handler d) = failure err)).
Proof.
  intros d o input attempts handler failure.
  apply (resourceCloudTrailUpdate_retries (H := sample.helpers) d o).
  - reflexivity.
  - intros e. reflexivity.
Defined.


(** Two denials are retried and the third attempt updates the trail. *)
Example update_trail_after_two_denials :
  let tr := exec.trace (examples.trailUpdateDenied 2 5)
              (cloudtrail.resourceCloudTrailUpdate (H := sample.helpers)
                 examples.bucketChanged) in
  map (fun ev => cloudtrail.failed ev)
      (filter (fun ev => trails.isUpdateTrail (exec.ev_call ev)) tr)
  = [true; true; false].
Proof. vm_compute. reflexivity. Qed.


(** Follows an execution of [resourceCloudTrailRead] through the answers it
    depends on. *)
Ltac execute_read :=
  repeat
    (cbv beta delta [cloudtrail.orReturn];
     cbn [exec.bind exec.invoke exec.run fst snd];
     match goal with
     | |- context [exec.run _ _ (exec.bind (match ?x with _ => _ end) _)] =>
         destruct x eqn:?
     | |- context [exec.run _ _ (if match snd ?x with _ => _ end then _ else _)] =>
         destruct x as [? [?|]] eqn:?
     | |- context [exec.run _ _ (match ?x with _ => _ end)] => destruct x eqn:?
     | |- context [exec.run _ _ (if ?x then _ else _)] => destruct x eqn:?
     end);
  cbn [exec.bind exec.invoke exec.run fst snd].

(** Splits a trace at its [GetInsightSelectorsWithContext] call. *)
Ltac split_at_insight :=
  lazymatch goal with
  | |- exists before after, ?tr = _ /\ _ =>
      let rec go pre l :=
        lazymatch l with
        | exec.Event (cloudtrail.GetInsightSelectorsWithContext _) _ :: ?post =>
            exists pre, post
        | ?ev :: ?l' => go constr:((pre ++ [ev])%list) l'
        end in
      go constr:(@nil (exec.event cloudtrail.answer)) tr
  end.

Section ReadInsight.
Import goerr exec schema cloudtrail trails.
Context `{Helpers}.

Lemma flattenInsightSelector_panics
    (configured : option (list (option selectors.InsightSelector))) :
  if existsb (fun raw => negb (isSome raw)) (default [] configured)
  then selectors.flattenInsightSelector configured = Panics
  else exists flattened, selectors.flattenInsightSelector configured = Returns flattened.
Proof.
  unfold selectors.flattenInsightSelector.
  match goal with |- context [fold_left ?f _ _] => set (F := f) end.
  enough (Hacc : forall acc,
             if existsb (fun raw => negb (isSome raw)) (default [] configured)
             then fold_left F (default [] configured) (Returns acc) = Panics
             else exists flattened,
                 fold_left F (default [] configured) (Returns acc) = Returns flattened)
    by apply Hacc.
  induction (default [] configured) as [| raw l IH]; intros acc; cbn [existsb fold_left].
  - by exists acc.
  - destruct raw as [raw |]; cbn [isSome negb orb F config.outcome_bind].
    + apply IH.
    + clear. induction l as [| raw l IH]; [done | apply IH].
Qed.

(** When an execution of [resourceCloudTrailRead] has asked for the insight
    selectors of the trail, the handler ends as follows.  An error other
    than [InsightNotEnabledException] ends it at once with the diagnostic
    "getting Cloud Trail (%s) Insight Selectors: %s".  With that exception,
    or with no error, the handler goes on: when the output is nil it makes
    no further call and returns without diagnostics; when one of the
    selectors of the output is nil it panics in flattening them, before
    anything is set; otherwise its next and last call is
    [d.Set("insight_selector", ...)], and it returns without diagnostics, or
    with the read error if that call fails. *)
Theorem read_tolerates_insight_not_enabled (d : ResourceData) (o : oracle answer)
    (out : option GetInsightSelectorsOutput) (err : option awserr)
    (Hin : (out, err) ∈ insightAnswers (trace o (resourceCloudTrailRead d))) :
  let asked := Event (GetInsightSelectorsWithContext (Id d)) (out, err) in
  let reported :=
    AppendErrorf [] "getting Cloud Trail (%s) Insight Selectors: %s" [Id d] (sdkErr err) in
  exists before after,
    trace o (resourceCloudTrailRead d) = (before ++ asked :: after)%list
    /\ if isSome err && negb (ErrCodeEquals (sdkErr err) ErrCodeInsightNotEnabledException)
       then after = [] /\ result o (resourceCloudTrailRead d) = Returns (d, reported)
       else
         match out with
         | None => after = [] /\ result o (resourceCloudTrailRead d) = Returns (d, [])
         | Some output =>
             if nilSelector output
             then after = [] /\ result o (resourceCloudTrailRead d) = Panics
             else
               let set := o (S (length before)) (d_Set "insight_selector") in
               after = [Event (d_Set "insight_selector") set]
               /\ result o (resourceCloudTrailRead d)
                  = Returns (d, match set with
                                | None => []
                                | Some e => readError d e
                                end)
         end.
Proof.
  intros asked reported. subst asked reported. revert Hin.
  unfold trace, result, resourceCloudTrailRead, getLoggingStatus.
  cbn [set_each]. execute_read.
  all: cbn [insightAnswers omap list_omap fst snd].
  all: rewrite ?elem_of_nil; try done.
  all: rewrite list_elem_of_singleton; intros [= -> ->].
  all: split_at_insight; (split; [reflexivity|]).
  all: cbn [isSome andb negb sdkErr fmap option_fmap option_map] in *.
  all: repeat match goal with
         | Hc : negb _ = _ |- _ => rewrite Hc
         | Hc : ErrCodeEquals _ _ = _ |- _ => rewrite Hc
         end.
  all: try done.
  all: unfold nilSelector.
  all: match goal with
       | Hf : selectors.flattenInsightSelector ?c = _ |- _ =>
           pose proof (flattenInsightSelector_panics c) as Hp; rewrite Hf in Hp;
           destruct (existsb _ (default [] c)); [| destruct Hp as [? Hp]];
           try discriminate Hp
       end.
  all: try done.
  all: cbn [length app].
  all: match goal with Hs : _ _ (d_Set "insight_selector") = _ |- _ => rewrite Hs end.
  all: by split.
Qed.
End ReadInsight.

Lemma read_tolerates_insight_not_enabled_witness :
  let d := sample.data "trail-1" false ∅ ∅ in
  let o := examples.insightNotEnabled in
  let read := cloudtrail.resourceCloudTrailRead (H := sample.helpers) d in
  let asked :=
    exec.Event (cloudtrail.GetInsightSelectorsWithContext "trail-1")
      (Some {| cloudtrail.o_InsightSelectors := None |},
       Some (goerr.AwsErr "InsightNotEnabledException" "Insights are not enabled")) in
  exists before after,
    exec.trace o read = (before ++ asked :: after)%list
    /\ let set := o (S (length before)) (cloudtrail.d_Set "insight_selector") in
       after = [exec.Event (cloudtrail.d_Set "insight_selector") set]
       /\ exec.result o read
          = Returns (d, match set with
                        | None => []
                        | Some e => cloudtrail.readError (H := sample.helpers) d e
                        end).
Proof.
  intros d o read asked.
  apply (read_tolerates_insight_not_enabled (H := sample.helpers) d o
           (Some {| cloudtrail.o_InsightSelectors := None |})
           (Some (goerr.AwsErr "InsightNotEnabledException" "Insights are not enabled"))).
  vm_compute. apply list_elem_of_here.
Defined.

(** With the error tolerated, [insight_selector] is set and the execution
    ends without diagnostics. *)
Example read_with_insights_not_enabled :
  let d := sample.data "trail-1" false ∅ ∅ in
  let read := cloudtrail.resourceCloudTrailRead (H := sample.helpers) d in
  exec.result examples.insightNotEnabled read = Returns (d, [])
  /\ last (map exec.ev_call (exec.trace examples.insightNotEnabled read))
     = Some (cloudtrail.d_Set "insight_selector").
Proof. vm_compute. by split. Qed.

(** A nil selector in the output makes the handler panic. *)
Example read_with_nil_insight_selector :
  let d := sample.data "trail-1" false ∅ ∅ in
  let o : exec.oracle cloudtrail.answer :=
    fun n c =>
      match c return cloudtrail.answer c with
      | cloudtrail.GetInsightSelectorsWithContext _ =>
          (Some {| cloudtrail.o_InsightSelectors := Some [None] |}, None)
      | c => examples.insightNotEnabled n c
      end in
  exec.result o (cloudtrail.resourceCloudTrailRead (H := sample.helpers) d) = Panics.
Proof. vm_compute. reflexivity. Qed.


(* ===================================================================== *)
(** * Expanding and flattening the configuration of a file system *)
(* ===================================================================== *)

Section DiskIopsEntries.
Import schema fsx observe.

(** For every configuration list whose first element is a map,
    [expandOpenzfsFileDiskIopsConfiguration] returns a struct, and
    flattening it gives one map that holds "mode" exactly when the element
    maps it to a string that is not empty, with that string, and "iops"
    exactly when the element maps it to an [int], with that number as an
    [int64], and nothing else.  On a list whose first element is not a map
    the function panics. *)
Theorem disk_iops_flatten_expand_entries (conf : gmap string iface) (rest : list iface) :
  (exists m,
     outcome_map flattenOpenzfsFileDiskIopsConfiguration
       (expandOpenzfsFileDiskIopsConfiguration (IMap conf :: rest))
     = Returns [IMap m]
     /\ forall key, m !! key = diskIopsEntry conf key)
  /\ (forall v, (forall m, v <> IMap m) ->
        expandOpenzfsFileDiskIopsConfiguration (v :: rest) = Panics).
Proof.
  split.
  - unfold expandOpenzfsFileDiskIopsConfiguration, flattenOpenzfsFileDiskIopsConfiguration.
    cbn [outcome_map Mode Iops]. eexists. split; [reflexivity|].
    intros key. unfold diskIopsEntry, assertString, assertInt.
    destruct (conf !! "mode") as [[mode | | | | |] |];
      destruct (conf !! "iops") as [[| iops | | | |] |];
      try destruct (0 <? Z.of_nat (String.length mode)).
    all: repeat match goal with
           | |- context [String.eqb ?k ?k'] =>
               destruct (String.eqb_spec k k') as [-> | ?]; [reflexivity |]
           end.
    all: cbn [StringValue Int64Value default from_option].
    all: rewrite ?lookup_insert_ne by done; apply lookup_empty.
  - intros v Hv. destruct v; try done. by destruct (Hv m).
Qed.
End DiskIopsEntries.

Section RootVolume.
Import config fsx_volume.
Context `{Flex}.

(** [expandOpenzfsUpdateRootVolumeConfiguration] reads a configuration
    exactly as [expandOpenzfsRootVolumeConfiguration] does, leaving out
    [copy_tags_to_snapshots]: on every list it panics when the other does,
    returns nil when the other does, and otherwise returns the same values
    field by field. *)
Theorem expand_update_agrees_with_create (cfg : list value) :
  expandOpenzfsUpdateRootVolumeConfiguration cfg
  = outcome_map (fmap updateOf) (expandOpenzfsRootVolumeConfiguration cfg).
Proof.
  destruct cfg as [| [] cfg]; try reflexivity.
  unfold expandOpenzfsUpdateRootVolumeConfiguration, expandOpenzfsRootVolumeConfiguration.
  destruct (match m !! "user_and_group_quotas" with
            | Some (VSet v) => expandOpenzfsUserAndGroupQuotas v
            | Some _ => Panics
            | None => Returns None
            end) as [quotas |]; [|reflexivity].
  cbn [outcome_bind].
  by destruct (match assertList (m !! "nfs_exports") with
               | Some v => expandOpenzfsNFSExports v
               | None => Returns None
               end).
Qed.

Lemma orNil_maps (l : list (gmap string value)) : orNil l = maps l.
Proof. by destruct l. Qed.

Lemma expand_quotaBlock (id capacity : Z) (type : string) :
  expandOpenzfsUserAndGroupQuota (quotaBlock VInt (id, capacity, type))
  = Some {| q_Id := Some id; q_StorageCapacityQuotaGiB := Some capacity;
            q_Type := Some type |}.
Proof. reflexivity. Qed.

Lemma expand_quotas_loop (quotas : list (Z * Z * string)) acc :
  fold_left
    (fun quotas quota =>
       outcome_bind quotas (fun quotas =>
         match quota with
         | VMap conf =>
             let expandedQuota := expandOpenzfsUserAndGroupQuota conf in
             match expandedQuota with
             | Some _ => Returns (quotas ++ [expandedQuota])%list
             | None => Returns quotas
             end
         | _ => Panics
         end))
    (map (fun q => VMap (quotaBlock VInt q)) quotas) (Returns acc)
  = Returns (acc ++ map (fun '(id, capacity, type) =>
                           Some {| q_Id := Some id;
                                   q_StorageCapacityQuotaGiB := Some capacity;
                                   q_Type := Some type |}) quotas)%list.
Proof.
  revert acc. induction quotas as [| [[id capacity] type] quotas IH]; intros acc;
    cbn [map fold_left outcome_bind].
  - by rewrite app_nil_r.
  - cbv zeta. rewrite expand_quotaBlock, IH. by rewrite <- app_assoc.
Qed.

Lemma flatten_quotas_loop (quotas : list (Z * Z * string)) acc :
  fold_left
    (fun quotas quota =>
       match quota with
       | Some quota =>
           let cfg : gmap string value := ∅ in
           let cfg := <["id" := VInt64 (Int64Value (q_Id quota))]> cfg in
           let cfg := <["storage_capacity_quota_gib" :=
                          VInt64 (Int64Value (q_StorageCapacityQuotaGiB quota))]> cfg in
           let cfg := <["type" := VString (StringValue (q_Type quota))]> cfg in
           (quotas ++ [cfg])%list
       | None => quotas
       end)
    (map (fun '(id, capacity, type) =>
            Some {| q_Id := Some id; q_StorageCapacityQuotaGiB := Some capacity;
                    q_Type := Some type |}) quotas) acc
  = (acc ++ map (quotaBlock VInt64) quotas)%list.
Proof.
  revert acc. induction quotas as [| [[id capacity] type] quotas IH]; intros acc; cbn.
  - by rewrite app_nil_r.
  - rewrite IH. by rewrite <- app_assoc.
Qed.

(** Expanding the blocks of [user_and_group_quotas] and flattening the
    result gives the same quotas back, in the same order, with the id and
    the capacity as [int64] where the configuration holds an [int]; no
    quota gives nil. *)
Theorem user_and_group_quotas_round_trip (quotas : list (Z * Z * string)) :
  outcome_map flattenOpenzfsFileUserAndGroupQuotas
    (expandOpenzfsUserAndGroupQuotas (map (fun q => VMap (quotaBlock VInt q)) quotas))
  = Returns (maps (map (quotaBlock VInt64) quotas)).
Proof.
  unfold expandOpenzfsUserAndGroupQuotas, flattenOpenzfsFileUserAndGroupQuotas.
  rewrite expand_quotas_loop. unfold outcome_map.
  rewrite <- orNil_maps. do 2 f_equal. apply (flatten_quotas_loop quotas []).
Qed.

Lemma expand_clientBlock (clients : string) (options : list value) :
  expandOpenzfsClientConfiguration (clientBlock clients options)
  = Some {| Clients := if 0 <? Z.of_nat (String.length clients) then Some clients else None;
            Options := ExpandStringList options |}.
Proof. reflexivity. Qed.

Lemma expand_clients_loop (clients : list (string * list value)) acc :
  fold_left
    (fun configurations configuration =>
       outcome_bind configurations (fun configurations =>
         match configuration with
         | VMap conf =>
             let expandedConfiguration := expandOpenzfsClientConfiguration conf in
             match expandedConfiguration with
             | Some _ => Returns (configurations ++ [expandedConfiguration])%list
             | None => Returns configurations
             end
         | _ => Panics
         end))
    (map (fun c => VMap (clientBlock c.1 c.2)) clients) (Returns acc)
  = Returns (acc ++ map (fun c => expandOpenzfsClientConfiguration (clientBlock c.1 c.2))
                        clients)%list.
Proof.
  revert acc. induction clients as [| [c o] clients IH]; intros acc;
    cbn [map fold_left outcome_bind].
  - by rewrite app_nil_r.
  - cbv zeta. rewrite expand_clientBlock, IH. by rewrite <- app_assoc.
Qed.

Lemma flatten_clients_loop (clients : list (string * list value)) acc :
  fold_left
    (fun configurations configuration =>
       match configuration with
       | Some configuration =>
           let cfg : gmap string value := ∅ in
           let cfg :=
             <["clients" := VString (StringValue (Clients configuration))]> cfg in
           let cfg :=
             <["options" := VList (FlattenStringList (Options configuration))]> cfg in
           (configurations ++ [cfg])%list
       | None => configurations
       end)
    (map (fun c => expandOpenzfsClientConfiguration (clientBlock c.1 c.2)) clients) acc
  = (acc ++ map (fun c => clientBlock c.1 (FlattenStringList (ExpandStringList c.2)))
                clients)%list.
Proof.
  revert acc. induction clients as [| [c o] clients IH]; intros acc; cbn [map fold_left].
  - by rewrite app_nil_r.
  - rewrite expand_clientBlock. cbv zeta. rewrite IH, <- app_assoc.
    do 2 f_equal. cbn. by destruct c.
Qed.

Lemma client_configurations_round_trip (clients : list (string * list value)) :
  outcome_map flattenOpenzfsClientConfigurations
    (expandOpenzfsClinetConfigurations (map (fun c => VMap (clientBlock c.1 c.2)) clients))
  = Returns (maps (map (fun c => clientBlock c.1 (FlattenStringList (ExpandStringList c.2)))
                       clients)).
Proof.
  unfold expandOpenzfsClinetConfigurations, flattenOpenzfsClientConfigurations.
  rewrite expand_clients_loop. unfold outcome_map.
  rewrite <- orNil_maps. do 2 f_equal. apply (flatten_clients_loop clients []).
Qed.

Lemma expand_configuredExport (clients : list (string * list value)) :
  exists configurations,
    expandOpenzfsNFSExport (exportBlock (VSet (map (fun c => VMap (clientBlock c.1 c.2)) clients)))
    = Returns (Some {| ClientConfigurations := configurations |})
    /\ flattenOpenzfsClientConfigurations configurations
       = maps (map (fun c => clientBlock c.1 (FlattenStringList (ExpandStringList c.2)))
                   clients).
Proof.
  pose proof (client_configurations_round_trip clients) as Hrt.
  unfold expandOpenzfsNFSExport.
  change (exportBlock ?v !! "client_configurations") with (Some v).
  destruct (expandOpenzfsClinetConfigurations _) as [configurations |] eqn:He; [|done].
  exists configurations. split; [|by injection Hrt].
  by rewrite He.
Qed.

(** Expanding the blocks of [nfs_exports] and flattening the result gives
    the same exports back, in the same order and each with its client
    configurations in the order of the set, as slices of maps that are nil
    when empty: the clients are those configured, also when empty, and the
    options are what [flex.FlattenStringList] makes of what
    [flex.ExpandStringList] made of them. *)
Theorem nfs_exports_round_trip (exports : list (list (string * list value))) :
  outcome_map flattenOpenzfsFileNFSExports
    (expandOpenzfsNFSExports (map configuredExport exports))
  = Returns (maps (map flattenedExport exports)).
Proof.
  unfold expandOpenzfsNFSExports, flattenOpenzfsFileNFSExports.
  assert (Hloop : forall acc, exists expanded,
    fold_left
      (fun exports export =>
         outcome_bind exports (fun exports =>
           match export with
           | VMap conf =>
               outcome_bind (expandOpenzfsNFSExport conf) (fun expandedExport =>
                 match expandedExport with
                 | Some _ => Returns (exports ++ [expandedExport])%list
                 | None => Returns exports
                 end)
           | _ => Panics
           end))
      (map configuredExport exports) (Returns acc)
    = Returns (acc ++ expanded)%list
    /\ forall flat,
        fold_left
          (fun exports export =>
             match export with
             | Some export =>
                 let cfg : gmap string value := ∅ in
                 let cfg :=
                   <["client_configurations" :=
                       VMaps (flattenOpenzfsClientConfigurations
                                (ClientConfigurations export))]> cfg in
                 (exports ++ [cfg])%list
             | None => exports
             end)
          expanded flat
        = (flat ++ map flattenedExport exports)%list).
  { induction exports as [| clients exports IH]; intros acc.
    - exists []. split; [by rewrite app_nil_r|]. intros flat. by rewrite app_nil_r.
    - cbn [map fold_left outcome_bind]. unfold configuredExport at 2. cbv beta iota.
      destruct (expand_configuredExport clients) as (configurations & -> & Hflat).
      cbn [outcome_bind].
      destruct (IH (acc ++ [Some {| ClientConfigurations := configurations |}])%list)
        as (expanded & -> & Hrest).
      exists (Some {| ClientConfigurations := configurations |} :: expanded).
      split; [by rewrite <- app_assoc|].
      intros flat. cbn [fold_left]. cbv zeta. rewrite Hrest, <- app_assoc.
      cbn [ClientConfigurations]. rewrite Hflat. reflexivity. }
  destruct (Hloop []) as (expanded & -> & Hflat).
  unfold outcome_map. rewrite <- orNil_maps. do 2 f_equal. apply (Hflat []).
Qed.

(** [flattenOpenzfsRootVolumeConfiguration] returns the empty list for no
    volume and panics on a volume without OpenZFS configuration; otherwise it
    returns one map, which holds an entry exactly for each of the six fields
    that is not nil, with the value of the field (the record size as an
    [int64], the exports and the quotas flattened), and no other entry. *)
Theorem flattenOpenzfsRootVolumeConfiguration_entries :
  flattenOpenzfsRootVolumeConfiguration None = Returns []
  /\ flattenOpenzfsRootVolumeConfiguration (Some {| OpenZFSConfiguration := None |}) = Panics
  /\ forall c, exists m,
       flattenOpenzfsRootVolumeConfiguration (Some {| OpenZFSConfiguration := Some c |})
       = Returns [VMap m]
       /\ forall key, m !! key = flattenedEntry c key.
Proof.
  split; [done|]. split; [done|].
  intros [copy compression exports readOnly recordSize quotas].
  eexists. split; [reflexivity|].
  intros key. unfold flattenedEntry.
  cbn [CopyTagsToSnapshots DataCompressionType NfsExports ReadOnly RecordSizeKiB
       UserAndGroupQuotas].
  destruct copy, compression, exports, readOnly, recordSize, quotas.
  all: repeat match goal with
         | |- context [String.eqb ?k ?k'] =>
             destruct (String.eqb_spec k k') as [-> | ?]; [reflexivity |]
         end.
  all: rewrite ?lookup_insert_ne by done; apply lookup_empty.
Qed.
End RootVolume.

Section PlanValidation.
Import schema fsx_diff.

(** For a plan that sets the number of IOPS of the disk,
    [validateDiskConfigurationIOPS] returns an error exactly when the
    deployment type is [SINGLE_AZ_1] and the number is not between 0 and
    160000, or it is [SINGLE_AZ_2] and the number is not between 0 and
    350000; any number is accepted for another deployment type.  Hence a
    number accepted for [SINGLE_AZ_1] is accepted for [SINGLE_AZ_2]. *)
Theorem validateDiskConfigurationIOPS_range (d : ResourceDiff) (v : Z)
    (Hiops : plansIops d v) :
  let deploymentType := Get_string d "deployment_type" in
  (exists err,
     validateDiskConfigurationIOPS d = Returns err
     /\ (err = None <->
         (deploymentType = OpenZFSDeploymentTypeSingleAz1 -> 0 <= v <= 160000)
         /\ (deploymentType = OpenZFSDeploymentTypeSingleAz2 -> 0 <= v <= 350000)))
  /\ (validateDiskConfigurationIOPS (withDeploymentType d OpenZFSDeploymentTypeSingleAz1)
        = Returns None ->
      validateDiskConfigurationIOPS (withDeploymentType d OpenZFSDeploymentTypeSingleAz2)
        = Returns None).
Proof.
  destruct Hiops as (m & rest & Hcfg & Hv). intros deploymentType.
  unfold validateDiskConfigurationIOPS. cbn [withDeploymentType GetOk_list Get_string].
  fold deploymentType. rewrite Hcfg. cbn [length]. rewrite Hv. cbn [fsx.assertInt].
  split.
  - destruct (String.eqb_spec deploymentType OpenZFSDeploymentTypeSingleAz1) as [-> | Hn1].
    + destruct ((v <? 0) || (160000 <? v)) eqn:Hr; eexists; (split; [reflexivity|]).
      * split; [done|]. intros [Hb _]. specialize (Hb eq_refl). lia.
      * split; [|done]. intros _. split; [lia | done].
    + destruct (String.eqb_spec deploymentType OpenZFSDeploymentTypeSingleAz2) as [-> | Hn2].
      * destruct ((v <? 0) || (350000 <? v)) eqn:Hr; eexists; (split; [reflexivity|]).
        -- split; [done|]. intros [_ Hb]. specialize (Hb eq_refl). lia.
        -- split; [|done]. intros _. split; [done | lia].
      * eexists. split; [reflexivity|]. by split.
  - cbn. destruct ((v <? 0) || (160000 <? v)) eqn:Hr; [done|]. intros _.
    destruct ((v <? 0) || (350000 <? v)) eqn:Hr2; [lia | done].
Qed.

(** The check of [throughput_capacity] in [CustomizeDiff] returns an error
    exactly when the deployment type is [SINGLE_AZ_1] or [SINGLE_AZ_2] and
    the capacity is not among the values of that type; any capacity is
    accepted for another deployment type.  No capacity is accepted for both
    [SINGLE_AZ_1] and [SINGLE_AZ_2]. *)
Theorem throughput_capacity_by_deployment_type (d : ResourceDiff) :
  let deploymentType := Get_string d "deployment_type" in
  let throughputCapacity := Get_int d "throughput_capacity" in
  (validateThroughputCapacity d = None <->
   (deploymentType = OpenZFSDeploymentTypeSingleAz1 ->
    throughputCapacity ∈ [64; 128; 256; 512; 1024; 2048; 3072; 4096])
   /\ (deploymentType = OpenZFSDeploymentTypeSingleAz2 ->
       throughputCapacity ∈ [160; 320; 640; 1280; 2560; 3840; 5120; 7680; 10240]))
  /\ ~ (validateThroughputCapacity (withDeploymentType d OpenZFSDeploymentTypeSingleAz1) = None
        /\ validateThroughputCapacity (withDeploymentType d OpenZFSDeploymentTypeSingleAz2)
           = None).
Proof.
  intros deploymentType throughputCapacity.
  assert (Hin : forall l, Contains l throughputCapacity = true <-> throughputCapacity ∈ l).
  { intros l. unfold Contains. rewrite existsb_exists. split.
    - intros (x & Hx & Heq). apply Z.eqb_eq in Heq as ->. by apply list_elem_of_In.
    - intros Hx. exists throughputCapacity. split; [by apply list_elem_of_In | apply Z.eqb_refl]. }
  unfold validateThroughputCapacity. cbn [withDeploymentType Get_string Get_int].
  fold deploymentType throughputCapacity. cbv zeta.
  split.
  - destruct (String.eqb_spec deploymentType OpenZFSDeploymentTypeSingleAz1) as [-> | Hn1].
    + destruct (Contains _ throughputCapacity) eqn:Hc; cbn [negb].
      * apply Hin in Hc. split; [|done]. intros _. split; [done | discriminate].
      * split; [done|]. intros [Hb _]. apply Hin in Hb; [congruence | done].
    + destruct (String.eqb_spec deploymentType OpenZFSDeploymentTypeSingleAz2) as [-> | Hn2].
      * destruct (Contains _ throughputCapacity) eqn:Hc; cbn [negb].
        -- apply Hin in Hc. split; [|done]. intros _. split; [discriminate | done].
        -- split; [done|]. intros [_ Hb]. apply Hin in Hb; [congruence | done].
      * split; [|done]. intros _. by split.
  - cbn [String.eqb Ascii.eqb Bool.eqb OpenZFSDeploymentTypeSingleAz1
         OpenZFSDeploymentTypeSingleAz2].
    intros [H1 H2].
    destruct (Contains [64; 128; 256; 512; 1024; 2048; 3072; 4096] throughputCapacity)
      eqn:Hc1; [|done].
    destruct (Contains [160; 320; 640; 1280; 2560; 3840; 5120; 7680; 10240]
                throughputCapacity) eqn:Hc2; [|done].
    apply Hin in Hc1, Hc2. set_unfold. lia.
Qed.
End PlanValidation.

Lemma validateDiskConfigurationIOPS_range_witness :
  let d := examples.plan in
  (exists err,
     fsx_diff.validateDiskConfigurationIOPS d = Returns err
     /\ (err = None <->
         ("SINGLE_AZ_1" = fsx_diff.OpenZFSDeploymentTypeSingleAz1 -> 0 <= 3000 <= 160000)
         /\ ("SINGLE_AZ_1" = fsx_diff.OpenZFSDeploymentTypeSingleAz2 -> 0 <= 3000 <= 350000)))
  /\ (fsx_diff.validateDiskConfigurationIOPS
        (fsx_diff.withDeploymentType d fsx_diff.OpenZFSDeploymentTypeSingleAz1)
        = Returns None ->
      fsx_diff.validateDiskConfigurationIOPS
        (fsx_diff.withDeploymentType d fsx_diff.OpenZFSDeploymentTypeSingleAz2)
        = Returns None).
Proof.
  intros d. apply (validateDiskConfigurationIOPS_range d 3000).
  eexists _, _. split; reflexivity.
Defined.


(* ===================================================================== *)
(** * Expanding and flattening the selectors of a trail *)
(* ===================================================================== *)

Section Selectors.
Import config selectors.
Context `{Flex}.

Lemma expand_insight_loop (types : list string) acc :
  fold_left
    (fun insightSelectors raw =>
       outcome_bind insightSelectors (fun insightSelectors =>
         match raw with
         | VMap data =>
             outcome_bind (mustString (data !! "insight_type")) (fun insightType =>
             let is_ := {| InsightType := Some insightType |} in
             Returns (insightSelectors ++ [Some is_])%list)
         | _ => Panics
         end))
    (map (fun t => VMap (insightBlock t)) types) (Returns acc)
  = Returns (acc ++ map (fun t => Some {| InsightType := Some t |}) types)%list.
Proof.
  revert acc. induction types as [| t types IH]; intros acc; cbn [map fold_left outcome_bind].
  - by rewrite app_nil_r.
  - change (insightBlock t !! "insight_type") with (Some (VString t)).
    cbn [mustString outcome_bind]. cbv zeta. rewrite IH. by rewrite <- app_assoc.
Qed.

Lemma flatten_insight_loop (types : list string) acc :
  fold_left
    (fun insightSelectors raw =>
       outcome_bind insightSelectors (fun insightSelectors =>
         match raw with
         | Some raw =>
             let item : gmap string value := ∅ in
             let item := <["insight_type" := VString (StringValue (InsightType raw))]> item in
             Returns (insightSelectors ++ [item])%list
         | None => Panics
         end))
    (map (fun t => Some {| InsightType := Some t |}) types) (Returns acc)
  = Returns (acc ++ map insightBlock types)%list.
Proof.
  revert acc. induction types as [| t types IH]; intros acc; cbn [map fold_left outcome_bind].
  - by rewrite app_nil_r.
  - cbv zeta. rewrite IH. by rewrite <- app_assoc.
Qed.

(** Expanding the blocks of [insight_selector] and flattening the result
    gives the same blocks back, in the same order; a block without an
    [insight_type] that is a string makes [expandInsightSelector] panic, and
    a nil selector makes [flattenInsightSelector] panic. *)
Theorem insight_selector_round_trip (types : list string) :
  outcome_bind (expandInsightSelector (map (fun t => VMap (insightBlock t)) types))
    flattenInsightSelector
  = Returns (map insightBlock types)
  /\ (forall data, assertString (data !! "insight_type") = None ->
        expandInsightSelector [VMap data] = Panics)
  /\ flattenInsightSelector (Some [None]) = Panics.
Proof.
  split; [|split].
  - unfold expandInsightSelector. rewrite expand_insight_loop.
    cbn [outcome_map outcome_bind app]. apply (flatten_insight_loop types []).
  - intros data Hdata. unfold expandInsightSelector. cbn.
    by destruct (data !! "insight_type") as [[] |].
  - reflexivity.
Qed.

Lemma flatten_event_selectors_loop (sels : list EventSelector) acc out :
  fold_left
    (fun eventSelectors raw =>
       outcome_bind eventSelectors (fun eventSelectors =>
         match raw with
         | Some raw =>
             outcome_bind (flattenEventSelectorDataResource (DataResources raw))
               (fun dataResources =>
             let item : gmap string value := ∅ in
             let item :=
               <["read_write_type" := VString (StringValue (ReadWriteType raw))]> item in
             let item :=
               <["exclude_management_event_sources" :=
                   FlattenStringSet (ExcludeManagementEventSources raw)]> item in
             let item :=
               <["include_management_events" :=
                   VBool (BoolValue (IncludeManagementEvents raw))]> item in
             let item := <["data_resource" := VMaps (Some dataResources)]> item in
             Returns (eventSelectors ++ [item])%list)
         | None => Panics
         end))
    (map Some sels) acc = Returns out ->
  exists acc', acc = Returns acc' /\ length out = (length acc' + length sels)%nat.
Proof.
  revert acc. induction sels as [| es sels IH]; intros acc; cbn [map fold_left].
  - intros ->. exists out. split; [done | cbn; lia].
  - intros Hout. apply IH in Hout as (acc' & Hacc & Hlen).
    destruct acc as [acc0 |]; [|done]. cbn [outcome_bind] in Hacc.
    destruct (flattenEventSelectorDataResource (DataResources es)); [|done].
    cbn in Hacc. injection Hacc as <-. exists acc0. split; [done|].
    rewrite length_app in Hlen. cbn in *. lia.
Qed.

(** [flattenEventSelector] returns the empty list for a single selector
    that has no data resource, reads and writes all and excludes no event
    source, whatever its [IncludeManagementEvents]; in every other case in
    which it returns, it returns one map for each selector.  The request
    that [setEventSelectors] builds is never without a selector: with
    nothing configured it holds the default selector, which is flattened to
    the empty list. *)
Theorem flattenEventSelector_suppresses_default :
  (forall es, likeDefault es -> flattenEventSelector (Some [Some es]) = Returns [])
  /\ (forall sels out,
        flattenEventSelector (Some (map Some sels)) = Returns out ->
        length out = length sels
        \/ (out = [] /\ exists es, sels = [es] /\ likeDefault es))
  /\ outcome_bind (eventSelectorsOf []) flattenEventSelector = Returns []
  /\ (forall configured eventSelectors,
        eventSelectorsOf configured = Returns eventSelectors -> 0 < len eventSelectors).
Proof.
  split; [|split; [|split]].
  - intros es (Hd & Hr & He). unfold flattenEventSelector. cbn [default from_option id].
    by rewrite Hd, Hr, He.
  - intros sels out. unfold flattenEventSelector. cbn [default from_option id].
    destruct sels as [| es [| es' sels]].
    + cbn. intros [= <-]. by left.
    + cbn [map].
      destruct ((len (DataResources es) =? 0)
                && String.eqb (StringValue (ReadWriteType es)) ReadWriteTypeAll
                && (len (ExcludeManagementEventSources es) =? 0)) eqn:Hd.
      * intros [= <-]. right. split; [done|]. exists es. split; [done|].
        apply andb_true_iff in Hd as [Hd He]. apply andb_true_iff in Hd as [Hd Hr].
        apply Z.eqb_eq in Hd, He. apply String.eqb_eq in Hr. done.
      * intros Hout. left.
        apply (flatten_event_selectors_loop [es]) in Hout as (acc' & [= <-] & Hlen).
        done.
    + intros Hout. left.
      apply (flatten_event_selectors_loop (es :: es' :: sels)) in Hout
        as (acc' & [= <-] & Hlen).
      done.
  - reflexivity.
  - intros configured eventSelectors. unfold eventSelectorsOf.
    destruct (expandEventSelector configured) as [expanded |]; [|done].
    cbn [outcome_map]. intros [= <-].
    destruct (len expanded =? 0) eqn:Hl.
    + unfold len. cbn [default from_option id]. rewrite length_app. cbn. lia.
    + apply Z.eqb_neq in Hl. unfold len in *. lia.
Qed.

Lemma roundTrip_operator (key : string) (data item : gmap string value) (k : string) :
  flattenOperator key (expandOperator data key) item !! k
  = if String.eqb k key
    then match expandOperator data key with
         | Some x => Some (VList (FlattenStringList (Some x)))
         | None => item !! k
         end
    else item !! k.
Proof.
  unfold flattenOperator.
  destruct (String.eqb_spec k key) as [-> | Hne].
  - destruct (expandOperator data key); [by rewrite lookup_insert_eq | done].
  - destruct (expandOperator data key); [by rewrite lookup_insert_ne | done].
Qed.

(** Expanding the block of one field selector and flattening the result
    gives a map that holds the field and, for each of the six operators, an
    entry exactly when the block lists at least one value for it and
    [flex.ExpandStringList] makes a slice of these values that is not nil;
    the entry is what [flex.FlattenStringList] makes of that slice.  The map
    holds no other entry. *)
Theorem field_selector_round_trip (data : gmap string value) (field : string)
    (Hfield : data !! "field" = Some (VString field)) :
  exists fieldSelector item,
    expandAdvancedEventSelectorFieldSelector [VMap data] = Returns (Some [Some fieldSelector])
    /\ flattenAdvancedEventSelectorFieldSelector (Some [Some fieldSelector]) = Returns [item]
    /\ forall key, item !! key = roundTripEntry data key.
Proof.
  unfold expandAdvancedEventSelectorFieldSelector. cbn [fold_left outcome_bind].
  rewrite Hfield. cbn [mustString outcome_bind outcome_map app].
  eexists _, _. split; [reflexivity|]. split; [reflexivity|].
  intros key. cbn [Field Equals NotEquals StartsWith NotStartsWith EndsWith NotEndsWith].
  unfold roundTripEntry. rewrite Hfield, !roundTrip_operator.
  repeat match goal with
         | |- context [String.eqb key ?k] =>
             destruct (String.eqb_spec key k) as [-> | ?]
         end.
  all: try (by destruct (expandOperator data _)).
  all: cbn [StringValue default from_option id].
  all: try by rewrite lookup_insert_eq.
  rewrite lookup_insert_ne by done. rewrite lookup_empty.
  rewrite bool_decide_eq_false_2; [done|].
  unfold operatorKeys. set_unfold. naive_solver.
Qed.
End Selectors.

Lemma field_selector_round_trip_witness :
  exists fieldSelector item,
    selectors.expandAdvancedEventSelectorFieldSelector (H := examples.flex)
      [config.VMap examples.fieldSelector]
    = Returns (Some [Some fieldSelector])
    /\ selectors.flattenAdvancedEventSelectorFieldSelector (H := examples.flex)
         (Some [Some fieldSelector])
       = Returns [item]
    /\ forall key,
         item !! key = selectors.roundTripEntry (H := examples.flex) examples.fieldSelector key.
Proof.
  apply (field_selector_round_trip (H := examples.flex) examples.fieldSelector "eventName").
  reflexivity.
Defined.


(** The value to equal comes back, the empty list of values not to equal
    does not. *)
Example field_selector_equals :
  selectors.roundTripEntry (H := examples.flex) examples.fieldSelector "equals"
    = Some (config.VList [config.VString "PutObject"])
  /\ selectors.roundTripEntry (H := examples.flex) examples.fieldSelector "not_equals" = None.
Proof. split; reflexivity. Qed.


(** A selector that leaves out the management events and is otherwise the
    default one is flattened to the empty list as well. *)
Example flatten_selector_without_management_events :
  selectors.flattenEventSelector (H := examples.flex)
    (Some [Some {| selectors.IncludeManagementEvents := Some false;
                   selectors.ReadWriteType := Some "All";
                   selectors.DataResources := Some [];
                   selectors.ExcludeManagementEventSources := None |}])
  = Returns [].
Proof. reflexivity. Qed.


(* ===================================================================== *)
(** * Destroy checks and the application data source *)
(* ===================================================================== *)

Section DestroyChecks.
Import goerr exec schema acctest.
Context `{Helpers}.

Lemma checkDestroy_run (resourceType : string) (find : InstanceState -> call)
    (stillExists : string) (resources : list ResourceState) (o : oracle answer) :
  forall n,
    let looked := ofType resourceType resources in
    let r := run o n (checkDestroy resourceType find stillExists resources) in
    map (fun ev => Some (ev_call ev)) (fst r)
      = map (fun rs => find <$> Primary rs) (take (length (fst r)) looked)
    /\ Forall (fun ev => notFound ev = true) (removelast (fst r))
    /\ (snd r = Returns None <->
        length (fst r) = length looked /\ Forall (fun ev => notFound ev = true) (fst r))
    /\ (snd r = Panics <->
        Forall (fun ev => notFound ev = true) (fst r)
        /\ exists rs, looked !! length (fst r) = Some rs /\ Primary rs = None).
Proof.
  induction resources as [| rs resources IH]; intros n; cbn zeta.
  - cbn. repeat split; try done. by intros [_ [rs [? _]]].
  - cbn [checkDestroy ofType List.filter].
    destruct (String.eqb (Type_ rs) resourceType); cbn [negb]; [|apply IH].
    destruct (Primary rs) as [primary |] eqn:Hprimary.
    2: { cbn [run fst snd length take map removelast].
         repeat split; try done.
         - intros [Hlen _]. cbn in Hlen. lia.
         - exists rs. by split. }
    cbn [bind invoke run fst snd].
    destruct (NotFound (o n (find primary))) eqn:Hnf.
    + destruct (IH (S n)) as (Hcalls & Hlast & Hres & Hpanic). cbn zeta in *.
      unfold ofType in *.
      set (r := run o (S n) (checkDestroy resourceType find stillExists resources)) in *.
      split; [|split; [|split]].
      * cbn. rewrite Hprimary. by rewrite Hcalls at 1.
      * destruct (fst r) as [| ev tr] eqn:Htr; [constructor|].
        change (removelast (?e :: ev :: tr)) with (e :: removelast (ev :: tr)).
        by constructor.
      * rewrite Hres. cbn [length]. rewrite Forall_cons. unfold notFound at 2.
        cbn [ev_answer]. rewrite Hnf. clear. intuition lia.
      * rewrite Hpanic. cbn [length]. rewrite Forall_cons. unfold notFound at 2.
        cbn [ev_answer]. rewrite Hnf. cbn [lookup list_lookup]. clear. intuition.
    + assert (Hev : notFound (Event (find primary) (o n (find primary))) = false) by done.
      destruct (o n (find primary)) as [err |] eqn:Ho; cbn [run fst snd].
      all: split; [cbn; by rewrite Hprimary|]; split; [constructor|]; split.
      all: split; [done|].
      1,3: intros [_ Hall].
      3,4: intros [Hall _].
      all: apply Forall_cons in Hall as [Hall _]; congruence.
Qed.

(** Each of the three checks that resources are destroyed looks up resources
    of its own type only, in the order in which the state is visited and
    each at most once, with the id (and for the filter rule the
    [traffic_mirror_filter_id]) of the primary instance; it stops at the
    first resource that the finder does not report as missing; it succeeds
    exactly when it has looked up every resource of its type and each was
    reported missing; and it panics exactly when it comes to a resource of
    its type without primary instance. *)
Theorem destroy_checks_look_up_every_resource :
  looksUpAll testAccCheckUsagePlanDestroy "aws_api_gateway_usage_plan"
    (fun primary => FindUsagePlanByID (ID primary))
  /\ looksUpAll testAccCheckAlertManagerDefinitionDestroy
       "aws_prometheus_alert_manager_definition"
       (fun primary => FindAlertManagerDefinitionByID (ID primary))
  /\ looksUpAll testAccCheckTrafficMirrorFilterRuleDestroy
       "aws_ec2_traffic_mirror_filter_rule"
       (fun primary => FindTrafficMirrorFilterRuleByTwoPartKey
                         (attribute primary "traffic_mirror_filter_id") (ID primary)).
Proof.
  split; [|split]; intros resources o; apply checkDestroy_run.
Qed.
End DestroyChecks.

Section ApplicationRead.
Import goerr exec schema serverlessrepo.

(** [dataSourceApplicationRead] asks for the application once.  When the
    finder fails it sets nothing and returns one error diagnostic, which
    names the application and, exactly when a version is configured, the
    version; the id is left as it is.  When the finder returns an
    application without a version the handler panics on reading it, after
    the name has been set.  Otherwise it sets the id to the application id
    and five attributes, and returns an error diagnostic exactly when
    setting [required_capabilities] fails. *)
Theorem dataSourceApplicationRead_outcome (d : ResourceData) (o : oracle answer) :
  let applicationID := GetString d "application_id" in
  let semanticVersion := GetString d "semantic_version" in
  let find := findApplication applicationID semanticVersion in
  match o 0%nat find with
  | inl err =>
      run o 0 (dataSourceApplicationRead d)
      = ([Event find (inl err)],
         Returns (d, [ {| Summary :=
                            "getting Serverless Application Repository application (%s): %s";
                          Args := [if String.eqb semanticVersion "" then applicationID
                                   else applicationID ++ ", version " ++ semanticVersion];
                          Cause := Some err |} ]))
  | inr output =>
      match Version_ output with
      | None =>
          run o 0 (dataSourceApplicationRead d)
          = ([Event find (inr output); Event (d_Set "name") (o 1%nat (d_Set "name"))],
             Panics)
      | Some _ =>
          map ev_call (trace o (dataSourceApplicationRead d))
          = [find; d_Set "name"; d_Set "semantic_version"; d_Set "source_code_url";
             d_Set "template_url"; d_Set "required_capabilities"]
          /\ exists diags,
               result o (dataSourceApplicationRead d)
               = Returns (SetId d applicationID, diags)
               /\ (diags = [] <-> o 5%nat (d_Set "required_capabilities") = None)
      end
  end.
Proof.
  intros applicationID semanticVersion find.
  unfold trace, result, dataSourceApplicationRead.
  cbn [bind invoke run fst snd]. fold applicationID semanticVersion find.
  destruct (o 0%nat find) as [err | output]; cbn [run fst snd].
  - by destruct (String.eqb semanticVersion "").
  - destruct (Version_ output); cbn [bind invoke run fst snd]; [|done].
    destruct (o 5%nat (d_Set "required_capabilities")) as [e |]; cbn [run fst snd map ev_call].
    + split; [done|]. eexists. split; [done|]. by split.
    + split; [done|]. exists []. split; [done|]. by split.
Qed.
End ApplicationRead.
